(** * Verification of the travel-safety agent's supervisor

    A shallow embedding of [src/agents/research_assistant.py] (the supervisor
    node, its persona classifier and the conditional edge of the agent graph)
    and of [calculator_func] from [src/agents/tools.py], with the properties
    the specification states about them.

    Conventions of the embedding:
    - Python [str] values are [string]s.  [str.lower] and [str.strip] are
      embedded on ASCII text: a character outside [A-Z] is left as it is by
      [lower], and the white space of [strip] is the ASCII white space.
    - A Python exception is a value of [PyExc]; a call that may raise returns
      a [PyResult].
    - The language model, the safety classifier and [numexpr] are external:
      the supervisor is a program over the events [ModelInvoke] and
      [GuardInvoke], run against an arbitrary environment that answers them.
    - The agent graph (LangGraph) is a step relation on (node, state) pairs:
      a node's returned update is merged into the state, [messages] by
      appending, every other key by overwriting. *)

From Stdlib Require Import String Ascii List ZArith Bool Lia DecimalString.
Import ListNotations.

Open Scope string_scope.

(** ** Python values: exceptions and results *)

Inductive PyExc : Type :=
| IndexError (msg : string)
| KeyError (key : string)
| ValueError (msg : string)
| OtherError (msg : string).

Inductive PyResult (A : Type) : Type :=
| Ok (a : A)
| Raise (e : PyExc).

Arguments Ok {A} a.
Arguments Raise {A} e.

(** ** Python string operations *)

Module PyStr.

(** [c.isupper()] for an ASCII character. *)
Definition is_upper (c : ascii) : bool :=
  (65 <=? nat_of_ascii c)%nat && (nat_of_ascii c <=? 90)%nat.

Definition lower_char (c : ascii) : ascii :=
  if is_upper c then ascii_of_nat (nat_of_ascii c + 32) else c.

(** [s.lower()], for a text whose cased letters are ASCII. *)
Fixpoint lower (s : string) : string :=
  match s with
  | EmptyString => EmptyString
  | String c s' => String (lower_char c) (lower s')
  end.

(** [needle in hay] on two strings. *)
Fixpoint str_in (needle hay : string) : bool :=
  if prefix needle hay then true
  else match hay with
       | EmptyString => false
       | String _ hay' => str_in needle hay'
       end.

(** [sep.join(parts)] *)
Definition join (sep : string) (parts : list string) : string :=
  String.concat sep parts.

(** [c.isspace()] for an ASCII character: tab, line feed, vertical tab, form
    feed, carriage return, the four separators 28-31 and the space. *)
Definition isspace (c : ascii) : bool :=
  let n := nat_of_ascii c in
  ((9 <=? n) && (n <=? 13) || (28 <=? n) && (n <=? 32))%nat.

Fixpoint lstrip (s : string) : string :=
  match s with
  | EmptyString => EmptyString
  | String c s' => if isspace c then lstrip s' else s
  end.

Fixpoint rstrip (s : string) : string :=
  match s with
  | EmptyString => EmptyString
  | String c s' =>
      match rstrip s' with
      | EmptyString => if isspace c then EmptyString else String c EmptyString
      | t => String c t
      end
  end.

(** [s.strip()] *)
Definition strip (s : string) : string := rstrip (lstrip s).

Definition newline : string := String (ascii_of_nat 10) EmptyString.

(** The second alternative of the pattern of [calculator_func], a closing
    bracket followed by the end anchor: the anchor matches at the end of the
    string and before a line feed that ends it. *)
Fixpoint drop_closing_bracket (s : string) : string :=
  match s with
  | EmptyString => EmptyString
  | String c s' =>
      if (Ascii.eqb c "]" && (String.eqb s' EmptyString || String.eqb s' newline))%bool
      then s'
      else String c (drop_closing_bracket s')
  end.

(** [re.sub] with the pattern of [calculator_func] (an opening bracket at
    the start of the string, or a closing bracket at its end) and the empty
    replacement: the opening bracket is removed at the start only, and the
    scan goes on after it. *)
Definition re_sub_brackets (s : string) : string :=
  match s with
  | String c s' =>
      if Ascii.eqb c "[" then drop_closing_bracket s' else drop_closing_bracket s
  | EmptyString => EmptyString
  end.

(** What the claims mean by "contains as a substring". *)
Definition Substring (needle hay : string) : Prop :=
  exists pre post, hay = pre ++ needle ++ post.

(** Containment up to the case of the letters: some slice of [text] is
    [kw] once both are lowered. *)
Definition contains_ci (kw text : string) : Prop :=
  exists pre mid post, text = pre ++ mid ++ post /\ lower mid = lower kw.

End PyStr.

Import PyStr.

(** Every character of [s] is white space for [str.strip]. *)
Fixpoint all_space (s : string) : bool :=
  match s with
  | EmptyString => true
  | String c s' => isspace c && all_space s'
  end.

(** A triple-quoted Python text, line by line. *)
Definition py_lines (ls : list string) : string := String.concat newline ls.

(** [xs[-1]]: the last element, [None] where Python raises [IndexError]. *)
Fixpoint py_last {A : Type} (xs : list A) : option A :=
  match xs with
  | [] => None
  | [x] => Some x
  | _ :: xs' => py_last xs'
  end.

(** The truth value of a Python list: false when it is empty. *)
Definition truthy_list {A : Type} (xs : list A) : bool :=
  match xs with
  | [] => false
  | _ :: _ => true
  end.

(** [d.get(key)] on a dict with string keys, as an association list. *)
Fixpoint dict_get {V : Type} (d : list (string * V)) (key : string) : option V :=
  match d with
  | [] => None
  | (k, v) :: d' => if String.eqb k key then Some v else dict_get d' key
  end.

(** ** Messages and the conversation state *)

(** A tool call requested by the model: tool name, arguments and call id. *)
Record ToolCall : Type := {
  tc_name : string;
  tc_args : string;
  tc_id : string
}.

(** The fields of an [AIMessage] the supervisor reads or writes. *)
Record AIMsg : Type := {
  ai_id : option string;
  ai_content : string;
  ai_tool_calls : list ToolCall
}.

Inductive Message : Type :=
| HumanMessage (text : string)
| AIMessage (m : AIMsg)
| ToolMessage (text : string) (tool_call_id : string)
| SystemMessage (text : string).

(** [m.content], for the text contents the supervisor is written for. *)
Definition content (m : Message) : string :=
  match m with
  | HumanMessage text => text
  | AIMessage m => ai_content m
  | ToolMessage text _ => text
  | SystemMessage text => text
  end.

(** [isinstance(m, AIMessage)] *)
Definition is_AIMessage (m : Message) : bool :=
  match m with
  | AIMessage _ => true
  | _ => false
  end.

(** [AIMessage(content=text)]: no id, no tool call. *)
Definition AIMessage_of_content (text : string) : Message :=
  AIMessage {| ai_id := None; ai_content := text; ai_tool_calls := [] |}.

(** Modelled from the spec: [agents/llama_guard.py] is not among the sources.
    A safety assessment is a verdict, SAFE or UNSAFE, with the labels of the
    violated categories. *)
Inductive SafetyAssessment : Type := SAFE | UNSAFE.

Record LlamaGuardOutput : Type := {
  safety_assessment : SafetyAssessment;
  unsafe_categories : list string
}.

Definition is_UNSAFE (a : SafetyAssessment) : bool :=
  match a with
  | UNSAFE => true
  | SAFE => false
  end.

(** [AgentState] is a [TypedDict] with [total=False]: every key may be
    absent.  The supervisor also returns an [AgentState], holding only the
    keys it updates. *)
Record AgentState : Type := {
  messages : option (list Message);
  safety : option LlamaGuardOutput;
  remaining_steps : option Z;
  current_agent : option string;
  first_run : option bool
}.

Definition empty_state : AgentState :=
  {| messages := None; safety := None; remaining_steps := None;
     current_agent := None; first_run := None |}.

(** [state["current_agent"] = agent] *)
Definition set_current_agent (state : AgentState) (agent : string) : AgentState :=
  {| messages := messages state; safety := safety state;
     remaining_steps := remaining_steps state;
     current_agent := Some agent; first_run := first_run state |}.

(** [state["messages"]] *)
Definition get_messages (state : AgentState) : PyResult (list Message) :=
  match messages state with
  | Some ms => Ok ms
  | None => Raise (KeyError "messages")
  end.

(** [state["remaining_steps"]] *)
Definition get_remaining_steps (state : AgentState) : PyResult Z :=
  match remaining_steps state with
  | Some n => Ok n
  | None => Raise (KeyError "remaining_steps")
  end.

(** The run configuration: the [configurable] dict. *)
Record RunnableConfig : Type := {
  configurable : list (string * string)
}.

(** The names of [tools], in the order of the list. *)
Definition tools : list string :=
  [ "WebSearch"; "Calculator"; "Nearby_Places"; "Current_Location";
    "get_route"; "sos_alert" ].

(** ** The fixed texts *)

Definition greeting : string :=
  py_lines
    [ "Hello! I'm your travel safety companion. I'm here to support you and help ensure your safety during your travels. ";
      "                    I can help you with:";
      "                    - Location safety information and tips";
      "                    - Emergency guidance and resources";
      "                    - General travel safety advice and companionship";
      "                    ";
      "                    How can I assist you today? Feel free to ask any questions about your travel safety concerns." ].

Definition apology : string :=
  "I apologize, but I need more steps to process this request. Would you like me to help you with something else?".

Definition flagged_prefix : string :=
  "This conversation was flagged for unsafe content: ".

Section Instructions.

(** [datetime.now().strftime("%B %d, %Y")], taken when the module is loaded. *)
Variable current_date : string.

Definition base_instructions : string :=
  py_lines
    [ EmptyString;
      ("    You are a supportive and empathetic travel safety companion for women. Today's date is " ++ current_date ++ ".");
      "    ";
      "    Core principles:";
      "    1. Always maintain a friendly, supportive, and respectful tone";
      "    2. Prioritize safety and well-being in all responses";
      "    3. Be sensitive to the user's concerns and emotions";
      "    4. Provide practical, actionable safety advice";
      "    5. Use clear, simple language";
      "    6. Never make assumptions about the user's situation";
      "    7. Always offer to help further if needed";
      EmptyString ].

Definition location_agent_instructions : string :=
  base_instructions ++
  py_lines
    [ EmptyString;
      "    You are the Location Safety Agent. Your role is to:";
      "    1. Help users understand the safety profile of their destination";
      "    2. Provide specific safety tips for the location";
      "    3. Share information about safe areas and areas to avoid";
      "    4. Suggest safe transportation options";
      "    5. Recommend emergency contacts and resources";
      "    6. Be mindful of cultural context and local customs";
      EmptyString ].

Definition emergency_agent_instructions : string :=
  base_instructions ++
  py_lines
    [ EmptyString;
      "    You are the Emergency Response Agent. Your role is to:";
      "    1. Provide immediate guidance in emergency situations";
      "    2. Share emergency contact numbers and resources";
      "    3. Offer step-by-step safety protocols";
      "    4. Maintain calm and clear communication";
      "    5. Guide users to safe locations or help";
      "    6. Connect users with appropriate emergency services";
      EmptyString ].

Definition companion_agent_instructions : string :=
  base_instructions ++
  py_lines
    [ EmptyString;
      "    You are the Travel Companion Agent. Your role is to:";
      "    1. Engage in friendly, supportive conversation";
      "    2. Offer emotional support and reassurance";
      "    3. Share general travel tips and best practices";
      "    4. Help users plan safe travel routes";
      "    5. Suggest safety-focused travel companions";
      "    6. Provide check-in reminders and safety checklists";
      EmptyString ].

Definition nearby_places_agent_instructions : string :=
  base_instructions ++
  py_lines
    [ EmptyString;
      "    You are the Nearby Places Agent. Your role is to:";
      "    1. Provide information about nearby safe places";
      "    2. Share information about safe areas and areas to avoid";
      "    " ].

Definition get_route_agent_instructions : string :=
  base_instructions ++
  py_lines
    [ EmptyString;
      "    You are the route Agent. Your role is to:";
      "    1. route with start and destination inputs without country , state , pincode just city and area name is enough";
      "    2. provide the route with the best safety tips and information along the routes details";
      "    " ].

(** The dict lookup of [wrap_model], with [base_instructions] as default. *)
Definition instructions_for (agent_type : string) : string :=
  match
    dict_get
      [ ("location", location_agent_instructions);
        ("emergency", emergency_agent_instructions);
        ("companion", companion_agent_instructions);
        ("nearby_places", nearby_places_agent_instructions);
        ("get_route", get_route_agent_instructions) ]
      agent_type
  with
  | Some text => text
  | None => base_instructions
  end.

End Instructions.

(** ** Persona classification *)

Definition emergency_keywords : list string :=
  [ "emergency"; "help"; "danger"; "unsafe"; "threat"; "attack"; "harassment" ].

Definition location_keywords : list string :=
  [ "location"; "place"; "area"; "destination"; "neighborhood"; "region" ].

(** [any(keyword in text for keyword in keywords)] *)
Definition any_keyword_in (keywords : list string) (text : string) : bool :=
  existsb (fun keyword => str_in keyword text) keywords.

(** The two tests of [determine_agent] on the lowered content. *)
Definition classify (last_message : string) : string :=
  if any_keyword_in emergency_keywords last_message then "emergency"
  else if any_keyword_in location_keywords last_message then "location"
  else "companion".

Definition determine_agent (state : AgentState) : PyResult string :=
  match get_messages state with
  | Raise e => Raise e
  | Ok ms =>
      match py_last ms with
      | None => Raise (IndexError "list index out of range")
      | Some m =>
          let last_message := lower (content m) in
          Ok (classify last_message)
      end
  end.

Definition format_safety_message (safety : LlamaGuardOutput) : Message :=
  AIMessage_of_content (flagged_prefix ++ join ", " (unsafe_categories safety)).

(** ** The conditional edge *)

Definition route_next (state : AgentState) : PyResult string :=
  match get_messages state with
  | Raise e => Raise e
  | Ok ms =>
      match py_last ms with
      | None => Raise (IndexError "list index out of range")
      | Some (AIMessage m) =>
          if truthy_list (ai_tool_calls m) then Ok "tools" else Ok "done"
      | Some _ => Ok "supervisor"
      end
  end.

(** ** Programs over the external calls *)

(** The two awaited calls of the supervisor: the model runnable of
    [wrap_model] (the model named [model], bound to [bound_tools], on the
    preprocessed [input]) and the safety classifier. *)
Inductive Event : Type -> Type :=
| ModelInvoke (model : string) (bound_tools : list string) (input : list Message)
    : Event AIMsg
| GuardInvoke (role : string) (msgs : list Message) : Event LlamaGuardOutput.

Inductive prog (A : Type) : Type :=
| Ret (a : A)
| Throw (e : PyExc)
| Vis {X : Type} (e : Event X) (k : X -> prog A).

Arguments Ret {A} a.
Arguments Throw {A} e.
Arguments Vis {A X} e k.

Fixpoint bind {A B : Type} (p : prog A) (f : A -> prog B) : prog B :=
  match p with
  | Ret a => f a
  | Throw e => Throw e
  | Vis e k => Vis e (fun x => bind (k x) f)
  end.

Definition await {X : Type} (e : Event X) : prog X := Vis e Ret.

Definition lift {A : Type} (r : PyResult A) : prog A :=
  match r with
  | Ok a => Ret a
  | Raise e => Throw e
  end.

Notation "x <- p ;; q" := (bind p (fun x => q))
  (at level 61, p at next level, right associativity).

(** One answered call, as a trace records it. *)
Inductive Call : Type :=
| CallModel (model : string) (bound_tools : list string) (input : list Message)
    (answer : PyResult AIMsg)
| CallGuard (role : string) (msgs : list Message)
    (answer : PyResult LlamaGuardOutput).

(** The world outside the process: what the model and the classifier answer,
    or the exception their call raises. *)
Record Env : Type := {
  model_ainvoke : string -> list string -> list Message -> PyResult AIMsg;
  guard_ainvoke : string -> list Message -> PyResult LlamaGuardOutput
}.

Definition answer (env : Env) {X : Type} (e : Event X) : PyResult X :=
  match e in Event T return PyResult T with
  | ModelInvoke model bound input => model_ainvoke env model bound input
  | GuardInvoke role msgs => guard_ainvoke env role msgs
  end.

Definition record_call {X : Type} (e : Event X) : PyResult X -> Call :=
  match e in Event T return PyResult T -> Call with
  | ModelInvoke model bound input => CallModel model bound input
  | GuardInvoke role msgs => CallGuard role msgs
  end.

(** Running a program in an environment: the calls made, in order, and the
    value returned or the exception raised. *)
Fixpoint run {A : Type} (env : Env) (p : prog A) : list Call * PyResult A :=
  match p with
  | Ret a => ([], Ok a)
  | Throw e => ([], Raise e)
  | Vis e k =>
      let r := answer env e in
      match r with
      | Ok x => let (tr, out) := run env (k x) in (record_call e r :: tr, out)
      | Raise exc => ([record_call e r], Raise exc)
      end
  end.

(** ** The supervisor node *)

Section Supervisor.

Variable current_date : string.

(** [settings.DEFAULT_MODEL] *)
Variable DEFAULT_MODEL : string.

(** [config["configurable"].get("model", settings.DEFAULT_MODEL)] *)
Definition model_name (config : RunnableConfig) : string :=
  match dict_get (configurable config) "model" with
  | Some name => name
  | None => DEFAULT_MODEL
  end.

(** The input the runnable of [wrap_model m agent_type] gives the model:
    the instructions as a system message, then the history. *)
Definition preprocessor (agent_type : string) (state : AgentState)
  : PyResult (list Message) :=
  match get_messages state with
  | Raise e => Raise e
  | Ok ms => Ok (SystemMessage (instructions_for current_date agent_type) :: ms)
  end.

(** [not state.get("messages")] *)
Definition no_messages (state : AgentState) : bool :=
  match messages state with
  | None => true
  | Some [] => true
  | Some (_ :: _) => false
  end.

(** [state.get("first_run", True)] *)
Definition get_first_run (state : AgentState) : bool :=
  match first_run state with
  | Some b => b
  | None => true
  end.

(** The update of the first turn. *)
Definition greeting_update : AgentState :=
  {| messages := Some [AIMessage_of_content greeting];
     safety := None;
     remaining_steps := None;
     current_agent := Some "companion";
     first_run := Some false |}.

(** A returned dict that holds [messages] and, when given, [safety]. *)
Definition messages_update (ms : list Message) (s : option LlamaGuardOutput)
  : AgentState :=
  {| messages := Some ms; safety := s; remaining_steps := None;
     current_agent := None; first_run := None |}.

(** [supervisor state config] yields the state dict as the call leaves it
    (the assignment to [state["current_agent"]] is made on it) and the dict
    the call returns. *)
Definition supervisor (state : AgentState) (config : RunnableConfig)
  : prog (AgentState * AgentState) :=
  if no_messages state || get_first_run state then
    Ret (state, greeting_update)
  else
    current_agent <- lift (determine_agent state) ;;
    let state := set_current_agent state current_agent in
    let m := model_name config in
    input <- lift (preprocessor current_agent state) ;;
    response <- await (ModelInvoke m tools input) ;;
    history <- lift (get_messages state) ;;
    safety_output <- await (GuardInvoke "Agent" (history ++ [AIMessage response])) ;;
    if is_UNSAFE (safety_assessment safety_output) then
      Ret (state, messages_update [format_safety_message safety_output]
                    (Some safety_output))
    else
      steps <- lift (get_remaining_steps state) ;;
      if (steps <? 2)%Z && truthy_list (ai_tool_calls response) then
        Ret (state,
             messages_update
               [AIMessage {| ai_id := ai_id response;
                             ai_content := apology;
                             ai_tool_calls := [] |}]
               None)
      else
        Ret (state, messages_update [AIMessage response] None).

End Supervisor.

(** ** Turns *)

(** The history is absent or empty. *)
Definition no_history (state : AgentState) : Prop :=
  messages state = None \/ messages state = Some [].

(** A turn that is not the first: there is a history and the first-run
    flag is there and false. *)
Definition later_turn (state : AgentState) : Prop :=
  (exists ms, messages state = Some ms /\ ms <> []) /\ first_run state = Some false.

(** What a later turn returns once the model has answered [response] and
    the classifier [safety_output]. *)
Definition later_outcome (state : AgentState) (response : AIMsg)
  (safety_output : LlamaGuardOutput) : PyResult AgentState :=
  if is_UNSAFE (safety_assessment safety_output) then
    Ok (messages_update [format_safety_message safety_output] (Some safety_output))
  else
    match remaining_steps state with
    | None => Raise (KeyError "remaining_steps")
    | Some steps =>
        if (steps <? 2)%Z && truthy_list (ai_tool_calls response) then
          Ok (messages_update
                [AIMessage {| ai_id := ai_id response;
                              ai_content := apology;
                              ai_tool_calls := [] |}]
                None)
        else Ok (messages_update [AIMessage response] None)
    end.

(** ** The agent graph *)

(** The nodes of the graph; [END] ends the turn. *)
Inductive Node : Type := supervisor_node | tools_node | END.

(** The path map of the conditional edge. *)
Definition next_node (route : string) : option Node :=
  dict_get [ ("supervisor", supervisor_node); ("tools", tools_node); ("done", END) ]
    route.

(** A key of the update overwrites the key of the state. *)
Definition overwrite {A : Type} (old new : option A) : option A :=
  match new with
  | Some x => Some x
  | None => old
  end.

(** The messages of an update are added to the history (the reducer of
    [MessagesState], for messages whose ids are not in the history). *)
Definition add_messages (old new : option (list Message)) : option (list Message) :=
  match new with
  | Some ms =>
      Some ((match old with Some ms0 => ms0 | None => [] end) ++ ms)%list
  | None => old
  end.

(** Merging the dict a node returns into the state.  [remaining_steps] is
    managed by the framework and is not written by a node. *)
Definition apply_update (state update : AgentState) : AgentState :=
  {| messages := add_messages (messages state) (messages update);
     safety := overwrite (safety state) (safety update);
     remaining_steps := remaining_steps state;
     current_agent := overwrite (current_agent state) (current_agent update);
     first_run := overwrite (first_run state) (first_run update) |}.

(** The framework sets the step budget before each node runs. *)
Definition with_remaining_steps (state : AgentState) (steps : option Z) : AgentState :=
  {| messages := messages state; safety := safety state;
     remaining_steps := steps;
     current_agent := current_agent state; first_run := first_run state |}.

(** The tool node answers each pending call with one tool message carrying
    the id of the call; what a tool returns is not constrained. *)
Definition tool_results (calls : list ToolCall) (results : list Message) : Prop :=
  Forall2 (fun call m => exists text, m = ToolMessage text (tc_id call)) calls results.

Section Graph.

Variable current_date : string.
Variable DEFAULT_MODEL : string.
Variable config : RunnableConfig.

(** One step of the graph from a node about to run (or from [END], where
    the next user message starts a turn).  The supervisor's node may see
    its update merged into the state it was given or into the state dict
    it has assigned to: both are steps. *)
Inductive graph_step : Node * AgentState -> Node * AgentState -> Prop :=
| step_supervisor (env : Env) (state local update base state' : AgentState)
    (tr : list Call) (steps : option Z) (route : string) (n : Node) :
    run env (supervisor current_date DEFAULT_MODEL state config)
    = (tr, Ok (local, update)) ->
    base = state \/ base = local ->
    state' = with_remaining_steps (apply_update base update) steps ->
    route_next state' = Ok route ->
    next_node route = Some n ->
    graph_step (supervisor_node, state) (n, state')
| step_tools (state : AgentState) (ms : list Message) (m : AIMsg)
    (results : list Message) (steps : option Z) :
    messages state = Some ms ->
    py_last ms = Some (AIMessage m) ->
    tool_results (ai_tool_calls m) results ->
    graph_step (tools_node, state)
      (supervisor_node,
       with_remaining_steps
         (apply_update state (messages_update results None)) steps)
| step_input (state : AgentState) (text : string) (steps : option Z) :
    graph_step (END, state)
      (supervisor_node,
       with_remaining_steps
         (apply_update state (messages_update [HumanMessage text] None)) steps).

(** A conversation starts with no state; its first input starts the first
    turn. *)
Inductive reachable : Node * AgentState -> Prop :=
| reachable_start : reachable (END, empty_state)
| reachable_step (c c' : Node * AgentState) :
    reachable c -> graph_step c c' -> reachable c'.

End Graph.

(** The persona keys of [wrap_model]. *)
Definition personas : list string :=
  [ "location"; "emergency"; "companion"; "nearby_places"; "get_route" ].

(** The persona key is absent (the default) or one of [personas]. *)
Definition persona_ok (key : option string) : Prop :=
  match key with
  | None => True
  | Some agent => In agent personas
  end.

(** ** Conversations along the graph *)

(** The history of a state, empty when the key is absent. *)
Definition history (state : AgentState) : list Message :=
  match messages state with
  | Some ms => ms
  | None => []
  end.

(** The tool calls the last message of the history asks for. *)
Definition pending_calls (state : AgentState) : list ToolCall :=
  match py_last (history state) with
  | Some (AIMessage m) => ai_tool_calls m
  | _ => []
  end.

(** An assessment in the state is an UNSAFE one. *)
Definition safety_is_unsafe (state : AgentState) : Prop :=
  match safety state with
  | None => True
  | Some out => safety_assessment out = UNSAFE
  end.

(** ** The calculator tool *)

Section Calculator.

(** The array [numexpr.evaluate] returns, and [str] of it. *)
Variable ndarray : Type.
Variable str_of_ndarray : ndarray -> string.

(** Python floats, with [math.pi] and [math.e]. *)
Variable float : Type.
Variable math_pi math_e : float.

(** [numexpr.evaluate(expr, global_dict=g, local_dict=l)]: the array, or
    [str(e)] of the exception [e] it raises. *)
Variable numexpr_evaluate :
  string -> list (string * float) -> list (string * float) -> string + ndarray.

Definition double_quote : string := String (ascii_of_nat 34) EmptyString.

Definition calculator_func (expression : string) : PyResult string :=
  let local_dict := [ ("pi", math_pi); ("e", math_e) ] in
  match numexpr_evaluate (strip expression) [] local_dict with
  | inr value =>
      let output := str_of_ndarray value in
      Ok (re_sub_brackets output)
  | inl e =>
      Raise
        (ValueError
           ("calculator(" ++ double_quote ++ expression ++ double_quote
            ++ ") raised error: " ++ e ++ "."
            ++ " Please try again with a valid numerical expression"))
  end.

End Calculator.

(** ** The tools that call a server *)

Set Warnings "-register-all".

(** What [response.json()] returns.  A number is kept as its literal, a
    dict as the list of its items. *)
Inductive Json : Type :=
| JNull
| JBool (b : bool)
| JNum (literal : string)
| JStr (s : string)
| JList (items : list Json)
| JObj (fields : list (string * Json)).

(** A call of [requests]: method, url, headers and body. *)
Record Request : Type := {
  req_method : string;
  req_url : string;
  req_headers : list (string * string);
  req_data : option string
}.

(** The response: its status code, and what [response.json()] returns or
    raises. *)
Record Response : Type := {
  status_code : Z;
  json : PyResult Json
}.

(** What the tools take from the Python run time and from the process. *)
Record PyRuntime : Type := {
  (** [os.getenv('BACKEND_URL')], after [load_dotenv()] *)
  getenv_BACKEND_URL : option string;
  (** [json.dumps] *)
  json_dumps : Json -> string;
  (** [str] of the [TypeError] or [AttributeError] that the operation named
      raises on a value of a type that does not have it *)
  wrong_type : string -> Json -> string;
  (** [str] of the [ValueError] that unpacking a list of this length into
      two names raises *)
  unpack_message : nat -> string;
  (** [str] of a value that is not a string, as an f-string writes it *)
  str_of_value : Json -> string;
  (** [datetime.now().isoformat()] *)
  now_isoformat : string
}.

(** [str(e)] *)
Definition exc_str (e : PyExc) : string :=
  match e with
  | IndexError msg => msg
  | KeyError key => "'" ++ key ++ "'"
  | ValueError msg => msg
  | OtherError msg => msg
  end.

(** [str(n)] of an integer. *)
Definition Z_to_string (n : Z) : string := NilZero.string_of_int (Z.to_int n).

(** How an f-string writes a value. *)
Definition format_value (rt : PyRuntime) (v : Json) : string :=
  match v with
  | JStr s => s
  | _ => str_of_value rt v
  end.

Definition result_bind {A B : Type} (r : PyResult A) (f : A -> PyResult B)
  : PyResult B :=
  match r with
  | Ok a => f a
  | Raise e => Raise e
  end.

Notation "x <-? r ;; q" := (result_bind r (fun x => q))
  (at level 61, r at next level, right associativity).

(** [s.split(sep)] for a separator of one character. *)
Fixpoint split_char (sep : ascii) (s : string) : list string :=
  match s with
  | EmptyString => [EmptyString]
  | String c s' =>
      if Ascii.eqb c sep then EmptyString :: split_char sep s'
      else match split_char sep s' with
           | part :: parts => String c part :: parts
           | [] => [String c EmptyString]
           end
  end.

(** The characters of a string, as iterating over it gives them. *)
Fixpoint chars (s : string) : list Json :=
  match s with
  | EmptyString => []
  | String c s' => JStr (String c EmptyString) :: chars s'
  end.

(** [v == "text"] for a string literal. *)
Definition is_str (text : string) (v : Json) : bool :=
  match v with
  | JStr s => String.eqb s text
  | _ => false
  end.

Section PythonValues.

Variable rt : PyRuntime.

(** [v.get(key, default)]: only a dict has [get]. *)
Definition py_get (v : Json) (key : string) (default : Json) : PyResult Json :=
  match v with
  | JObj fields =>
      Ok (match dict_get fields key with
          | Some x => x
          | None => default
          end)
  | _ => Raise (OtherError (wrong_type rt "get" v))
  end.

(** [v[key]] for a string key. *)
Definition py_item (v : Json) (key : string) : PyResult Json :=
  match v with
  | JObj fields =>
      match dict_get fields key with
      | Some x => Ok x
      | None => Raise (KeyError key)
      end
  | _ => Raise (OtherError (wrong_type rt "getitem" v))
  end.

(** [v[0]]: the first item of a list, the first character of a string; a
    dict of a JSON text has no key [0], and its [KeyError] reads [0]. *)
Definition py_first (v : Json) : PyResult Json :=
  match v with
  | JList (x :: _) => Ok x
  | JList [] => Raise (IndexError "list index out of range")
  | JStr (String c _) => Ok (JStr (String c EmptyString))
  | JStr EmptyString => Raise (IndexError "string index out of range")
  | JObj _ => Raise (OtherError "0")
  | _ => Raise (OtherError (wrong_type rt "getitem" v))
  end.

(** The items a [for] loop over [v] sees: the items of a list, the keys of
    a dict, the characters of a string. *)
Definition py_iter (v : Json) : PyResult (list Json) :=
  match v with
  | JList items => Ok items
  | JObj fields => Ok (map (fun kv => JStr (fst kv)) fields)
  | JStr s => Ok (chars s)
  | _ => Raise (OtherError (wrong_type rt "iter" v))
  end.

(** [key in v] for a string literal [key]: a key of a dict, an item of a
    list, a part of a string. *)
Definition py_in (key : string) (v : Json) : PyResult bool :=
  match v with
  | JObj fields =>
      Ok (match dict_get fields key with Some _ => true | None => false end)
  | JList items => Ok (existsb (is_str key) items)
  | JStr s => Ok (str_in key s)
  | _ => Raise (OtherError (wrong_type rt "in" v))
  end.

(** [v.split(",")]: only a string has [split]. *)
Definition py_split_comma (v : Json) : PyResult (list string) :=
  match v with
  | JStr s => Ok (split_char "," s)
  | _ => Raise (OtherError (wrong_type rt "split" v))
  end.

End PythonValues.

(** A tool as a program: it returns, raises, or sends a request and goes on
    with the response or with the exception the request raised. *)
Inductive io (A : Type) : Type :=
| IoRet (a : A)
| IoRaise (e : PyExc)
| IoRequest (req : Request) (k : PyResult Response -> io A).

Arguments IoRet {A} a.
Arguments IoRaise {A} e.
Arguments IoRequest {A} req k.

Fixpoint io_bind {A B : Type} (p : io A) (f : A -> io B) : io B :=
  match p with
  | IoRet a => f a
  | IoRaise e => IoRaise e
  | IoRequest req k => IoRequest req (fun r => io_bind (k r) f)
  end.

Definition io_lift {A : Type} (r : PyResult A) : io A :=
  match r with
  | Ok a => IoRet a
  | Raise e => IoRaise e
  end.

(** [requests.request(...)], and [response.json()] of what comes back. *)
Definition request (req : Request) : io Response := IoRequest req io_lift.

Definition request_json (req : Request) : io Json :=
  io_bind (request req) (fun response => io_lift (json response)).

(** [try: p  except Exception as e: handler e] *)
Fixpoint try_except {A : Type} (p : io A) (handler : PyExc -> io A) : io A :=
  match p with
  | IoRet a => IoRet a
  | IoRaise e => handler e
  | IoRequest req k => IoRequest req (fun r => try_except (k r) handler)
  end.

Notation "x <~ p ;; q" := (io_bind p (fun x => q))
  (at level 61, p at next level, right associativity).

(** The server side: what the [n]-th request of a run is answered, or the
    exception it raises. *)
Definition Server : Type := nat -> Request -> PyResult Response.

(** Running a tool from its [n]-th request on: the requests sent with their
    answers, and the value returned or the exception raised. *)
Fixpoint run_io {A : Type} (server : Server) (n : nat) (p : io A)
  : list (Request * PyResult Response) * PyResult A :=
  match p with
  | IoRet a => ([], Ok a)
  | IoRaise e => ([], Raise e)
  | IoRequest req k =>
      let r := server n req in
      let (tr, out) := run_io server (S n) (k r) in
      ((req, r) :: tr, out)
  end.

Section Tools.

Variable rt : PyRuntime.

(** [f"{os.getenv('BACKEND_URL')}"]: an unset variable is written [None]. *)
Definition backend_url : string :=
  match getenv_BACKEND_URL rt with
  | Some url => url
  | None => "None"
  end.

Definition headers : list (string * string) :=
  [ ("Content-Type", "application/json"); ("Authorization", "Bearer asdasd") ].

(** [requests.request("POST", url, headers=headers, data=json.dumps(body))] *)
Definition post (url : string) (body : Json) : Request :=
  {| req_method := "POST"; req_url := url; req_headers := headers;
     req_data := Some (json_dumps rt body) |}.

Definition geocode_url : string := backend_url ++ "/api/maps/get-latitude-longitude".
Definition nearby_url : string := backend_url ++ "/api/maps/nearby-safe-spots".
Definition route_url : string := backend_url ++ "/api/maps/get-route".
Definition route_safety_url : string := backend_url ++ "/api/llm/route-safety".
Definition sos_url : string := backend_url ++ "/api/sos/send-alert".

(** The three lines that every backend tool starts with: the address is sent
    to the geocoder, and the latitude and the longitude are read from the
    answer, the empty string standing for a missing one. *)
Definition geocode (address : string) : io (Json * Json) :=
  response_json <~ request_json (post geocode_url (JObj [ ("address", JStr address) ])) ;;
  latitude <~ io_lift (py_get rt response_json "latitude" (JStr EmptyString)) ;;
  longitude <~ io_lift (py_get rt response_json "longitude" (JStr EmptyString)) ;;
  IoRet (latitude, longitude).

Definition get_nearby_safe_places (location : string) : io Json :=
  coordinates <~ geocode location ;;
  let (latitude, longitude) := coordinates in
  response_json <~
    request_json
      (post nearby_url
         (JObj [ ("current_location",
                  JObj [ ("latitude", latitude);
                         ("longitude", longitude);
                         ("address", JStr location) ]);
                 ("radius", JNum "5000");
                 ("rank_by", JStr "distance") ])) ;;
  nearby_places <~ io_lift (py_item rt response_json "predictions") ;;
  IoRet nearby_places.

Definition get_current_location : io Json :=
  try_except
    (response <~
       request {| req_method := "GET"; req_url := "https://ipinfo.io/json";
                  req_headers := []; req_data := None |} ;;
     if negb (status_code response =? 200)%Z then
       IoRaise (ValueError ("Failed to get location data: "
                            ++ Z_to_string (status_code response)))
     else
       ip_data <~ io_lift (json response) ;;
       has_loc <~ io_lift (py_in rt "loc" ip_data) ;;
       if has_loc then
         loc <~ io_lift (py_item rt ip_data "loc") ;;
         parts <~ io_lift (py_split_comma rt loc) ;;
         match parts with
         | [lat; lon] =>
             ip <~ io_lift (py_get rt ip_data "ip" (JStr EmptyString)) ;;
             city <~ io_lift (py_get rt ip_data "city" (JStr EmptyString)) ;;
             region <~ io_lift (py_get rt ip_data "region" (JStr EmptyString)) ;;
             country <~ io_lift (py_get rt ip_data "country" (JStr EmptyString)) ;;
             postal <~ io_lift (py_get rt ip_data "postal" (JStr EmptyString)) ;;
             city' <~ io_lift (py_get rt ip_data "city" (JStr EmptyString)) ;;
             region' <~ io_lift (py_get rt ip_data "region" (JStr EmptyString)) ;;
             country' <~ io_lift (py_get rt ip_data "country" (JStr EmptyString)) ;;
             IoRet
               (JObj [ ("ip", ip);
                       ("city", city);
                       ("region", region);
                       ("country", country);
                       ("postal", postal);
                       ("latitude", JStr lat);
                       ("longitude", JStr lon);
                       ("address",
                        JStr (format_value rt city' ++ ", "
                              ++ format_value rt region' ++ ", "
                              ++ format_value rt country')) ])
         | _ => IoRaise (ValueError (unpack_message rt (List.length parts)))
         end
       else
         IoRaise (ValueError "Location coordinates not found in the response"))
    (fun e =>
       IoRaise (ValueError ("Error getting current location: " ++ exc_str e))).

(** The dict made of one step of a leg. *)
Definition route_step (step : Json) : PyResult Json :=
  instructions <-? py_get rt step "instructions" (JStr EmptyString) ;;
  distance <-? py_get rt step "readable_distance" (JStr EmptyString) ;;
  duration <-? py_get rt step "readable_duration" (JStr EmptyString) ;;
  Ok (JObj [ ("instructions", instructions);
             ("distance", distance);
             ("duration", duration) ]).

(** The inner loop of [get_route], over the steps of one leg. *)
Fixpoint steps_loop (steps : list Json) : PyResult (list Json) :=
  match steps with
  | [] => Ok []
  | step :: rest =>
      first <-? route_step step ;;
      others <-? steps_loop rest ;;
      Ok (first :: others)
  end.

(** The outer loop of [get_route], over the legs of the route: what is
    appended to [route_steps]. *)
Fixpoint legs_loop (legs : list Json) : PyResult (list Json) :=
  match legs with
  | [] => Ok []
  | leg :: rest =>
      steps <-? py_get rt leg "steps" (JList []) ;;
      items <-? py_iter rt steps ;;
      first <-? steps_loop items ;;
      others <-? legs_loop rest ;;
      Ok (first ++ others)%list
  end.

Definition get_route (start destination : string) : io Json :=
  try_except
    (start_coordinates <~ geocode start ;;
     let (start_latitude, start_longitude) := start_coordinates in
     destination_coordinates <~ geocode destination ;;
     let (destination_latitude, destination_longitude) := destination_coordinates in
     response_json <~
       request_json
         (post route_url
            (JObj [ ("origin",
                     JObj [ ("latitude", start_latitude);
                            ("longitude", start_longitude);
                            ("address", JStr start) ]);
                    ("destination",
                     JObj [ ("latitude", destination_latitude);
                            ("longitude", destination_longitude);
                            ("address", JStr destination) ]) ])) ;;
     routes <~ io_lift (py_item rt response_json "routes") ;;
     route0 <~ io_lift (py_first rt routes) ;;
     legs <~ io_lift (py_get rt route0 "legs" (JList [])) ;;
     legs_items <~ io_lift (py_iter rt legs) ;;
     route_steps <~ io_lift (legs_loop legs_items) ;;
     response_json <~
       request_json
         (post route_safety_url (JObj [ ("route_steps", JList route_steps) ])) ;;
     safety_tips <~ io_lift (py_get rt response_json "safety_tips" (JStr EmptyString)) ;;
     IoRet (JObj [ ("route_steps", JList route_steps);
                   ("safety_tips", safety_tips) ]))
    (fun e => IoRaise (ValueError ("Error getting route: " ++ exc_str e))).

Definition send_sos_alert (location custom_message : string) : io Json :=
  try_except
    (coordinates <~ geocode location ;;
     let (latitude, longitude) := coordinates in
     response_json <~
       request_json
         (post sos_url
            (JObj [ ("user_id", JStr "67de72427e1f7f041d589ba7");
                    ("timestamp", JStr (now_isoformat rt));
                    ("location",
                     JObj [ ("latitude", latitude);
                            ("longitude", longitude);
                            ("address", JStr location) ]);
                    ("message", JStr custom_message) ])) ;;
     io_lift (py_get rt response_json "message" (JStr EmptyString)))
    (fun e => IoRaise (ValueError ("Error sending SOS alert: " ++ exc_str e))).

(** The default of the second argument of [send_sos_alert]. *)
Definition default_sos_message : string := "Help! I am in danger.".

End Tools.

(** What [geocode] makes of the answer to its request. *)
Definition geocode_result (rt : PyRuntime) (answer : PyResult Response)
  : PyResult (Json * Json) :=
  response <-? answer ;;
  response_json <-? json response ;;
  latitude <-? py_get rt response_json "latitude" (JStr EmptyString) ;;
  longitude <-? py_get rt response_json "longitude" (JStr EmptyString) ;;
  Ok (latitude, longitude).

(** [response.json()] of an answer. *)
Definition answer_json (answer : PyResult Response) : PyResult Json :=
  response <-? answer ;; json response.

(** The [except] clause of the tools: the exception becomes a [ValueError]
    that quotes it after [prefix]. *)
Definition wrapped (prefix : string) {A : Type} (r : PyResult A) : PyResult A :=
  match r with
  | Ok a => Ok a
  | Raise e => Raise (ValueError (prefix ++ exc_str e))
  end.

(** A dict with the three keys of a route step. *)
Definition is_route_step (v : Json) : Prop :=
  exists instructions distance duration,
    v = JObj [ ("instructions", instructions);
               ("distance", distance);
               ("duration", duration) ].

(** A leg whose [steps] are the dicts [steps]; a leg without the key has no
    step. *)
Definition leg_with_steps (leg : Json) (steps : list (list (string * Json))) : Prop :=
  exists fields,
    leg = JObj fields
    /\ (dict_get fields "steps" = Some (JList (map JObj steps))
        \/ (dict_get fields "steps" = None /\ steps = [])).

(** The paths of the requests of [get_route], in order. *)
Definition route_paths : list string :=
  [ "/api/maps/get-latitude-longitude"; "/api/maps/get-latitude-longitude";
    "/api/maps/get-route"; "/api/llm/route-safety" ].

(** [d.get(key, "")] on the items of a dict. *)
Definition field_or_empty (fields : list (string * Json)) (key : string) : Json :=
  match dict_get fields key with
  | Some v => v
  | None => JStr EmptyString
  end.

(** The route step made of the step with the items [fields]. *)
Definition route_step_of (fields : list (string * Json)) : Json :=
  JObj [ ("instructions", field_or_empty fields "instructions");
         ("distance", field_or_empty fields "readable_distance");
         ("duration", field_or_empty fields "readable_duration") ].

Section ToolRequests.

Variable rt : PyRuntime.

(** The requests of the tools, as they are built in the source. *)
Definition geocode_request (address : string) : Request :=
  post rt (geocode_url rt) (JObj [ ("address", JStr address) ]).

Definition nearby_request (location : string) (coordinates : Json * Json) : Request :=
  post rt (nearby_url rt)
    (JObj [ ("current_location",
             JObj [ ("latitude", fst coordinates);
                    ("longitude", snd coordinates);
                    ("address", JStr location) ]);
            ("radius", JNum "5000");
            ("rank_by", JStr "distance") ]).

Definition route_request (start destination : string)
  (start_coordinates destination_coordinates : Json * Json) : Request :=
  post rt (route_url rt)
    (JObj [ ("origin",
             JObj [ ("latitude", fst start_coordinates);
                    ("longitude", snd start_coordinates);
                    ("address", JStr start) ]);
            ("destination",
             JObj [ ("latitude", fst destination_coordinates);
                    ("longitude", snd destination_coordinates);
                    ("address", JStr destination) ]) ]).

Definition route_safety_request (route_steps : list Json) : Request :=
  post rt (route_safety_url rt) (JObj [ ("route_steps", JList route_steps) ]).

Definition sos_request (location custom_message : string)
  (coordinates : Json * Json) : Request :=
  post rt (sos_url rt)
    (JObj [ ("user_id", JStr "67de72427e1f7f041d589ba7");
            ("timestamp", JStr (now_isoformat rt));
            ("location",
             JObj [ ("latitude", fst coordinates);
                    ("longitude", snd coordinates);
                    ("address", JStr location) ]);
            ("message", JStr custom_message) ]).

(** What [get_route] makes of the answer of the route service: the route
    steps of the legs of the first route. *)
Definition route_steps_of (answer : PyResult Response) : PyResult (list Json) :=
  response_json <-? answer_json answer ;;
  routes <-? py_item rt response_json "routes" ;;
  route0 <-? py_first rt routes ;;
  legs <-? py_get rt route0 "legs" (JList []) ;;
  legs_items <-? py_iter rt legs ;;
  legs_loop rt legs_items.

End ToolRequests.

(** The request of [get_current_location]. *)
Definition ipinfo_request : Request :=
  {| req_method := "GET"; req_url := "https://ipinfo.io/json";
     req_headers := []; req_data := None |}.

(** A request as the backend tools send them: a POST to a path under the
    backend url, with the two fixed headers and a JSON text as body. *)
Definition is_backend_post (rt : PyRuntime) (req : Request) (path : string) : Prop :=
  req_method req = "POST"
  /\ req_url req = backend_url rt ++ path
  /\ req_headers req
     = [ ("Content-Type", "application/json"); ("Authorization", "Bearer asdasd") ]
  /\ exists body, req_data req = Some (json_dumps rt body).

(** ** The classifier on any content *)

(** The content of a message: a text, or a list of content blocks. *)
Inductive Content : Type :=
| TextContent (text : string)
| BlockContent (blocks : list Json).

(** [determine_agent] on the contents of [state["messages"]], with
    [str.lower] as the parameter [py_lower].  A Python text is the string of
    its UTF-8 bytes: a keyword, which is ASCII, occurs in a text exactly when
    its bytes occur in the bytes of the text.  A list has no [lower]. *)
Definition determine_agent_on (py_lower : string -> string)
  (contents : option (list Content)) : PyResult string :=
  match contents with
  | None => Raise (KeyError "messages")
  | Some cs =>
      match py_last cs with
      | None => Raise (IndexError "list index out of range")
      | Some (BlockContent _) =>
          Raise (OtherError "'list' object has no attribute 'lower'")
      | Some (TextContent text) =>
          let last_message := py_lower text in
          if any_keyword_in emergency_keywords last_message then Ok "emergency"
          else if any_keyword_in location_keywords last_message then Ok "location"
          else Ok "companion"
      end
  end.

(** The contents of the messages of a state of [AgentState], all texts. *)
Definition text_contents (state : AgentState) : option (list Content) :=
  option_map (map (fun m => TextContent (content m))) (messages state).

Section ToolBodies.

Variable rt : PyRuntime.

(** The [try] blocks of the three tools that have one, as they stand in the
    source before the [except] clause. *)
Definition get_current_location_body : io Json :=
  response <~
    request {| req_method := "GET"; req_url := "https://ipinfo.io/json";
               req_headers := []; req_data := None |} ;;
  if negb (status_code response =? 200)%Z then
    IoRaise (ValueError ("Failed to get location data: "
                         ++ Z_to_string (status_code response)))
  else
    ip_data <~ io_lift (json response) ;;
    has_loc <~ io_lift (py_in rt "loc" ip_data) ;;
    if has_loc then
      loc <~ io_lift (py_item rt ip_data "loc") ;;
      parts <~ io_lift (py_split_comma rt loc) ;;
      match parts with
      | [lat; lon] =>
          ip <~ io_lift (py_get rt ip_data "ip" (JStr EmptyString)) ;;
          city <~ io_lift (py_get rt ip_data "city" (JStr EmptyString)) ;;
          region <~ io_lift (py_get rt ip_data "region" (JStr EmptyString)) ;;
          country <~ io_lift (py_get rt ip_data "country" (JStr EmptyString)) ;;
          postal <~ io_lift (py_get rt ip_data "postal" (JStr EmptyString)) ;;
          city' <~ io_lift (py_get rt ip_data "city" (JStr EmptyString)) ;;
          region' <~ io_lift (py_get rt ip_data "region" (JStr EmptyString)) ;;
          country' <~ io_lift (py_get rt ip_data "country" (JStr EmptyString)) ;;
          IoRet
            (JObj [ ("ip", ip);
                    ("city", city);
                    ("region", region);
                    ("country", country);
                    ("postal", postal);
                    ("latitude", JStr lat);
                    ("longitude", JStr lon);
                    ("address",
                     JStr (format_value rt city' ++ ", "
                           ++ format_value rt region' ++ ", "
                           ++ format_value rt country')) ])
      | _ => IoRaise (ValueError (unpack_message rt (List.length parts)))
      end
    else
      IoRaise (ValueError "Location coordinates not found in the response").

Definition get_route_body (start destination : string) : io Json :=
  start_coordinates <~ geocode rt start ;;
  let (start_latitude, start_longitude) := start_coordinates in
  destination_coordinates <~ geocode rt destination ;;
  let (destination_latitude, destination_longitude) := destination_coordinates in
  response_json <~
    request_json
      (post rt (route_url rt)
         (JObj [ ("origin",
                  JObj [ ("latitude", start_latitude);
                         ("longitude", start_longitude);
                         ("address", JStr start) ]);
                 ("destination",
                  JObj [ ("latitude", destination_latitude);
                         ("longitude", destination_longitude);
                         ("address", JStr destination) ]) ])) ;;
  routes <~ io_lift (py_item rt response_json "routes") ;;
  route0 <~ io_lift (py_first rt routes) ;;
  legs <~ io_lift (py_get rt route0 "legs" (JList [])) ;;
  legs_items <~ io_lift (py_iter rt legs) ;;
  route_steps <~ io_lift (legs_loop rt legs_items) ;;
  response_json <~
    request_json
      (post rt (route_safety_url rt) (JObj [ ("route_steps", JList route_steps) ])) ;;
  safety_tips <~ io_lift (py_get rt response_json "safety_tips" (JStr EmptyString)) ;;
  IoRet (JObj [ ("route_steps", JList route_steps);
                ("safety_tips", safety_tips) ]).

Definition send_sos_alert_body (location custom_message : string) : io Json :=
  coordinates <~ geocode rt location ;;
  let (latitude, longitude) := coordinates in
  response_json <~
    request_json
      (post rt (sos_url rt)
         (JObj [ ("user_id", JStr "67de72427e1f7f041d589ba7");
                 ("timestamp", JStr (now_isoformat rt));
                 ("location",
                  JObj [ ("latitude", latitude);
                         ("longitude", longitude);
                         ("address", JStr location) ]);
                 ("message", JStr custom_message) ])) ;;
  io_lift (py_get rt response_json "message" (JStr EmptyString)).

End ToolBodies.

(** ** The latest user message *)

(** The text of the latest message of the user in a history, if any: what
    the docstring of [determine_agent] and the specification say is
    classified. *)
Fixpoint latest_user_message (ms : list Message) : option string :=
  match ms with
  | [] => None
  | m :: ms' =>
      match latest_user_message ms' with
      | Some text => Some text
      | None =>
          match m with
          | HumanMessage text => Some text
          | _ => None
          end
      end
  end.

(** ** Concrete conversations *)

(** A state whose history is the one message [text] of the user. *)
Definition user_says (text : string) : AgentState :=
  {| messages := Some [HumanMessage text]; safety := None;
     remaining_steps := Some 25%Z; current_agent := Some "companion";
     first_run := Some false |}.

Module Scenario.

Definition date : string := "November 04, 2026".
Definition default_model : string := "default-model".
Definition config : RunnableConfig := {| configurable := [] |}.

Definition nearby_call : ToolCall :=
  {| tc_name := "Nearby_Places"; tc_args := "Central Park"; tc_id := "call_1" |}.

(** A model response that asks for a tool. *)
Definition tool_response : AIMsg :=
  {| ai_id := Some "run-2"; ai_content := EmptyString;
     ai_tool_calls := [nearby_call] |}.

(** A model response with a text and no tool call. *)
Definition text_response : AIMsg :=
  {| ai_id := Some "run-1"; ai_content := "unsafe content";
     ai_tool_calls := [] |}.

Definition verdict_unsafe : LlamaGuardOutput :=
  {| safety_assessment := UNSAFE; unsafe_categories := [ "S1"; "S9" ] |}.

Definition verdict_safe : LlamaGuardOutput :=
  {| safety_assessment := SAFE; unsafe_categories := [] |}.

(** The model answers with a text, the classifier flags it. *)
Definition env_text_unsafe : Env :=
  {| model_ainvoke := fun _ _ _ => Ok text_response;
     guard_ainvoke := fun _ _ => Ok verdict_unsafe |}.

(** The model asks for a tool, the classifier flags it. *)
Definition env_tool_unsafe : Env :=
  {| model_ainvoke := fun _ _ _ => Ok tool_response;
     guard_ainvoke := fun _ _ => Ok verdict_unsafe |}.

(** The model asks for a tool, the classifier lets it pass. *)
Definition env_tool_safe : Env :=
  {| model_ainvoke := fun _ _ _ => Ok tool_response;
     guard_ainvoke := fun _ _ => Ok verdict_safe |}.

(** A later turn with one step left. *)
Definition last_step (text : string) : AgentState :=
  {| messages := Some [HumanMessage text]; safety := None;
     remaining_steps := Some 1%Z; current_agent := Some "companion";
     first_run := Some false |}.

(** A history with the first-run flag set. *)
Definition flag_set (text : string) : AgentState :=
  {| messages := Some [HumanMessage text]; safety := None;
     remaining_steps := Some 25%Z; current_agent := None;
     first_run := Some true |}.

(** A history with no first-run flag in the state. *)
Definition no_flag (text : string) : AgentState :=
  {| messages := Some [HumanMessage text]; safety := None;
     remaining_steps := Some 25%Z; current_agent := None;
     first_run := None |}.

(** A conversation: the user greets and is greeted; the user asks for
    help; the model asks for the places nearby; the tool answers. *)
Definition greeted : AgentState :=
  {| messages := Some [HumanMessage "hi"; AIMessage_of_content greeting];
     safety := None; remaining_steps := Some 24%Z;
     current_agent := Some "companion"; first_run := Some false |}.

Definition asked : AgentState :=
  {| messages := Some [HumanMessage "hi"; AIMessage_of_content greeting;
                       HumanMessage "I need help"];
     safety := None; remaining_steps := Some 25%Z;
     current_agent := Some "companion"; first_run := Some false |}.

Definition tool_pending : AgentState :=
  {| messages := Some [HumanMessage "hi"; AIMessage_of_content greeting;
                       HumanMessage "I need help"; AIMessage tool_response];
     safety := None; remaining_steps := Some 24%Z;
     current_agent := Some "companion"; first_run := Some false |}.

Definition after_tool : AgentState :=
  {| messages := Some [HumanMessage "hi"; AIMessage_of_content greeting;
                       HumanMessage "I need help"; AIMessage tool_response;
                       ToolMessage "Central Park area" "call_1"];
     safety := None; remaining_steps := Some 23%Z;
     current_agent := Some "companion"; first_run := Some false |}.

(** A stand-in for [numexpr]: it knows one sum and rejects the rest. *)
Definition evaluate (expr : string) (_ _ : list (string * unit))
  : string + Z :=
  if String.eqb expr "2 + 2" then inr 4%Z else inl "invalid syntax".

Definition str_of (value : Z) : string :=
  if Z.eqb value 4 then "4" else "?".

End Scenario.

(** ** The registry of agents *)

Section Registry.

(** The compiled graph, as [agents.py] holds it. *)
Variable CompiledStateGraph : Type.
Variable research_assistant : CompiledStateGraph.

Record Agent : Type := {
  description : string;
  graph : CompiledStateGraph
}.

(** The two fields of [AgentInfo] that [get_all_agent_info] fills. *)
Record AgentInfo : Type := {
  info_key : string;
  info_description : string
}.

Definition DEFAULT_AGENT : string := "travel-chatbot-assistant".

Definition agents : list (string * Agent) :=
  [ ("travel-chatbot-assistant",
     {| description := "A travel chatbot assistant";
        graph := research_assistant |}) ].

(** [agents[agent_id].graph] *)
Definition get_agent (agent_id : string) : PyResult CompiledStateGraph :=
  match dict_get agents agent_id with
  | Some agent => Ok (graph agent)
  | None => Raise (KeyError agent_id)
  end.

Definition get_all_agent_info : list AgentInfo :=
  map (fun item => {| info_key := fst item;
                      info_description := description (snd item) |})
    agents.

End Registry.

(** ** More concrete cases *)

Module Cases.

(** The model cannot be reached. *)
Definition env_model_down : Env :=
  {| model_ainvoke := fun _ _ _ => Raise (OtherError "connection refused");
     guard_ainvoke := fun _ _ => Ok Scenario.verdict_safe |}.

(** The third turn of the conversation of [Scenario], flagged. *)
Definition flagged : AgentState :=
  {| messages :=
       Some [HumanMessage "hi"; AIMessage_of_content greeting;
             HumanMessage "I need help";
             AIMessage_of_content
               "This conversation was flagged for unsafe content: S1, S9"];
     safety := Some Scenario.verdict_unsafe;
     remaining_steps := Some 24%Z;
     current_agent := Some "companion"; first_run := Some false |}.

(** A stand-in for [numexpr] that knows one array. *)
Definition evaluate_array (expr : string) (_ _ : list (string * unit))
  : string + unit :=
  if String.eqb expr "arange(3) + 1" then inr tt else inl "invalid syntax".

Definition str_of_array (_ : unit) : string := "[1 2 3]".

(** A run time for the tools. *)
Definition rt : PyRuntime :=
  {| getenv_BACKEND_URL := Some "http://backend";
     json_dumps := fun _ => "{...}";
     wrong_type := fun operation _ => "no " ++ operation;
     unpack_message := fun _ => "cannot unpack";
     str_of_value := fun _ => "None";
     now_isoformat := "2026-11-04T12:00:00" |}.

Definition ok (status : Z) (body : Json) : PyResult Response :=
  Ok {| status_code := status; json := Ok body |}.

Definition found : list (string * Json) :=
  [ ("latitude", JNum "13.08"); ("longitude", JNum "80.27") ].

Definition one_route : Json :=
  JObj [ ("routes",
          JList [ JObj [ ("legs",
                          JList [ JObj [ ("steps",
                                          JList [ JObj [ ("instructions", JStr "Head north");
                                                         ("readable_distance", JStr "1 km") ];
                                                  JObj [ ("instructions", JStr "Turn left");
                                                         ("readable_duration", JStr "2 mins") ] ]) ];
                                  JObj [ ("summary", JStr "no steps here") ] ]) ];
                  JObj [ ("legs", JList []) ] ]) ].

(** No server answers. *)
Definition server_down : Server :=
  fun _ _ => Raise (OtherError "connection refused").

(** A backend that knows the addresses and one route. *)
Definition server_route : Server :=
  fun n _ =>
    match n with
    | 0%nat | 1%nat => ok 200 (JObj found)
    | 2%nat => ok 200 one_route
    | _ => ok 200 (JObj [ ("safety_tips", JStr "Stay on lit streets") ])
    end.

(** A backend that finds the addresses and no route. *)
Definition server_no_route : Server :=
  fun n _ =>
    match n with
    | 0%nat | 1%nat => ok 200 (JObj found)
    | _ => ok 200 (JObj [ ("routes", JList []) ])
    end.

(** A backend that answers every request with an error status and an empty
    dict. *)
Definition server_errors : Server :=
  fun n _ =>
    match n with
    | 0%nat => ok 404 (JObj [])
    | _ => ok 500 (JObj [])
    end.

(** The geolocation service. *)
Definition server_ipinfo : Server :=
  fun _ _ =>
    ok 200 (JObj [ ("ip", JStr "203.0.113.7"); ("city", JStr "Chennai");
                   ("region", JStr "Tamil Nadu"); ("country", JStr "IN");
                   ("loc", JStr "13.08,80.27") ]).

End Cases.

(** * Properties *)

(** ** Strings *)

Lemma append_assoc (a b c : string) : (a ++ b) ++ c = a ++ (b ++ c).
Proof.
  induction a as [|ch a IH]; simpl; [reflexivity | now rewrite IH].
Qed.

Lemma append_empty_r (a : string) : a ++ EmptyString = a.
Proof.
  induction a as [|ch a IH]; simpl; [reflexivity | now rewrite IH].
Qed.

Lemma prefix_spec (needle hay : string) :
  prefix needle hay = true <-> exists post, hay = needle ++ post.
Proof.
  revert hay; induction needle as [|c needle IH]; intros hay.
  - split; [intros _; now exists hay | now destruct hay].
  - destruct hay as [|d hay]; simpl.
    + split; [discriminate | intros [post H]; discriminate].
    + destruct (ascii_dec c d) as [->|Hne].
      * rewrite IH. split; intros [post H]; exists post.
        -- now rewrite H.
        -- now injection H.
      * split; [discriminate | intros [post H]; injection H; congruence].
Qed.

Lemma str_in_spec (needle hay : string) :
  str_in needle hay = true <-> Substring needle hay.
Proof.
  unfold Substring.
  induction hay as [|c hay IH]; cbn [str_in].
  - destruct (prefix needle EmptyString) eqn:Hp.
    + split; [intros _ | reflexivity].
      apply prefix_spec in Hp. destruct Hp as [post Hp].
      now exists EmptyString, post.
    + split; [discriminate|].
      intros (pre & post & H).
      destruct pre; [|discriminate]. cbn [append] in H.
      assert (prefix needle EmptyString = true) by (apply prefix_spec; eauto).
      congruence.
  - destruct (prefix needle (String c hay)) eqn:Hp.
    + split; [intros _ | reflexivity].
      apply prefix_spec in Hp. destruct Hp as [post Hp].
      now exists EmptyString, post.
    + rewrite IH. split.
      * intros (pre & post & H). exists (String c pre), post.
        cbn [append]. now rewrite H.
      * intros (pre & post & H). destruct pre as [|d pre]; cbn [append] in H.
        -- assert (prefix needle (String c hay) = true) by (apply prefix_spec; eauto).
           congruence.
        -- injection H as _ H. eauto.
Qed.

Lemma lower_app (a b : string) : lower (a ++ b) = lower a ++ lower b.
Proof.
  induction a as [|c a IH]; simpl; [reflexivity | now rewrite IH].
Qed.

(** A split of the lowered text is the image of a split of the text. *)
Lemma lower_split (s a b : string) :
  lower s = a ++ b ->
  exists s1 s2, s = s1 ++ s2 /\ lower s1 = a /\ lower s2 = b.
Proof.
  revert s; induction a as [|c a IH]; intros s H; simpl in H.
  - now exists EmptyString, s.
  - destruct s as [|d s]; [discriminate|]. simpl in H.
    injection H as Hc H.
    destruct (IH _ H) as (s1 & s2 & -> & H1 & H2).
    exists (String d s1), s2. simpl. now rewrite Hc, H1.
Qed.

(** Containment up to case is containment of the lowered keyword in the
    lowered text: what [determine_agent] tests. *)
Lemma contains_ci_lower (kw text : string) :
  contains_ci kw text <-> Substring (lower kw) (lower text).
Proof.
  unfold contains_ci, Substring. split.
  - intros (pre & mid & post & -> & H).
    exists (lower pre), (lower post). now rewrite !lower_app, H.
  - intros (pre & post & H).
    destruct (lower_split _ _ _ H) as (s1 & s2 & -> & H1 & H2).
    destruct (lower_split _ _ _ H2) as (s3 & s4 & -> & H3 & H4).
    now exists s1, s3, s4.
Qed.

Lemma any_keyword_in_true (keywords : list string) (text : string) :
  any_keyword_in keywords text = true <->
  exists kw, In kw keywords /\ Substring kw text.
Proof.
  unfold any_keyword_in. rewrite existsb_exists.
  split; intros (kw & Hin & H); exists kw; split; trivial;
    now apply str_in_spec.
Qed.

Lemma any_keyword_in_false (keywords : list string) (text : string) :
  (forall kw, In kw keywords -> ~ Substring kw text) ->
  any_keyword_in keywords text = false.
Proof.
  intros H. destruct (any_keyword_in keywords text) eqn:E; [|reflexivity].
  apply any_keyword_in_true in E. destruct E as (kw & Hin & Hs).
  now destruct (H kw Hin).
Qed.

(** The keywords are written in lower case. *)
Lemma keywords_lower (kw : string) :
  In kw (emergency_keywords ++ location_keywords) -> lower kw = kw.
Proof.
  simpl. intros H.
  repeat (destruct H as [<-|H]; [reflexivity|]). contradiction.
Qed.

Lemma keyword_ci_in_lowered (keywords : list string) (kw text : string) :
  incl keywords (emergency_keywords ++ location_keywords) ->
  In kw keywords -> contains_ci kw text ->
  any_keyword_in keywords (lower text) = true.
Proof.
  intros Hincl Hin Hci. apply any_keyword_in_true. exists kw. split; trivial.
  apply contains_ci_lower in Hci.
  now rewrite (keywords_lower kw (Hincl _ Hin)) in Hci.
Qed.

(** ** Persona classification *)

Lemma determine_agent_last (state : AgentState) (ms : list Message) (m : Message) :
  messages state = Some ms -> py_last ms = Some m ->
  determine_agent state = Ok (classify (lower (content m))).
Proof.
  intros Hms Hlast. unfold determine_agent, get_messages.
  now rewrite Hms, Hlast.
Qed.

Lemma classify_cases (text : string) :
  classify text = "emergency" \/ classify text = "location"
  \/ classify text = "companion".
Proof.
  unfold classify.
  destruct (any_keyword_in emergency_keywords text); [now left|].
  destruct (any_keyword_in location_keywords text); [right; now left|].
  right; now right.
Qed.

(** C1. Whenever the content of the last message contains an emergency
    keyword, in any case of the letters, [determine_agent] answers
    "emergency": nothing is assumed about location keywords, so the answer
    is the same when the content holds some of them too. *)
Theorem determine_agent_emergency_first
  (state : AgentState) (ms : list Message) (m : Message) (kw : string) :
  messages state = Some ms ->
  py_last ms = Some m ->
  In kw emergency_keywords ->
  contains_ci kw (content m) ->
  determine_agent state = Ok "emergency".
Proof.
  intros Hms Hlast Hkw Hci.
  rewrite (determine_agent_last state ms m Hms Hlast).
  unfold classify.
  rewrite (keyword_ci_in_lowered emergency_keywords kw (content m)); trivial.
  apply incl_appl, incl_refl.
Qed.

Lemma py_last_map {A B : Type} (f : A -> B) (xs : list A) :
  py_last (map f xs) = option_map f (py_last xs).
Proof.
  induction xs as [|x xs IH]; [reflexivity|].
  destruct xs as [|y xs]; [reflexivity | exact IH].
Qed.

(** The two embeddings of [determine_agent] agree on a state whose
    contents are texts, with [lower] for [str.lower]. *)
Lemma determine_agent_on_lower (state : AgentState) :
  determine_agent state = determine_agent_on lower (text_contents state).
Proof.
  unfold determine_agent, determine_agent_on, text_contents, get_messages, classify.
  destruct (messages state) as [ms|]; [|reflexivity]. cbn [option_map].
  rewrite py_last_map.
  destruct (py_last ms) as [m|]; cbn [option_map]; [|reflexivity].
  cbv zeta.
  destruct (any_keyword_in emergency_keywords (lower (content m))); [reflexivity|].
  now destruct (any_keyword_in location_keywords (lower (content m))).
Qed.

(** C7. A last message whose text contains no emergency keyword and no
    location keyword, in any case of the letters, is given to the
    companion.  The code makes the test insensitive to case by [str.lower]:
    the hypothesis is that no keyword occurs in the lowered text, whatever
    [str.lower] does to the letters outside ASCII; or, for a text that
    [str.lower] lowers as ASCII, that no keyword occurs in the text up to
    the case of the ASCII letters.  The messages before the last one do not
    matter. *)
Theorem determine_agent_default_companion
  (py_lower : string -> string) (contents : list Content) (text : string) :
  py_last contents = Some (TextContent text) ->
  (forall kw, In kw (emergency_keywords ++ location_keywords) ->
              ~ Substring kw (py_lower text))
  \/ (py_lower text = lower text
      /\ forall kw, In kw (emergency_keywords ++ location_keywords) ->
                    ~ contains_ci kw text) ->
  determine_agent_on py_lower (Some contents) = Ok "companion".
Proof.
  intros Hlast Hnone.
  assert (Hsub : forall kw, In kw (emergency_keywords ++ location_keywords) ->
                            ~ Substring kw (py_lower text)).
  { destruct Hnone as [H|[Heq H]]; [exact H|].
    intros kw Hin Hsub. apply (H kw Hin).
    apply contains_ci_lower. rewrite (keywords_lower kw Hin).
    now rewrite <- Heq. }
  unfold determine_agent_on. rewrite Hlast. cbv zeta.
  rewrite !any_keyword_in_false; trivial; intros kw Hin;
    apply Hsub, in_or_app; [now right | now left].
Qed.


(** Between the two: a location keyword and no emergency keyword. *)
Lemma determine_agent_location
  (state : AgentState) (ms : list Message) (m : Message) (kw : string) :
  messages state = Some ms ->
  py_last ms = Some m ->
  (forall kw', In kw' emergency_keywords -> ~ contains_ci kw' (content m)) ->
  In kw location_keywords ->
  contains_ci kw (content m) ->
  determine_agent state = Ok "location".
Proof.
  intros Hms Hlast Hnone Hkw Hci.
  rewrite (determine_agent_last state ms m Hms Hlast).
  unfold classify.
  rewrite any_keyword_in_false.
  - rewrite (keyword_ci_in_lowered location_keywords kw (content m)); trivial.
    apply incl_appr, incl_refl.
  - intros kw' Hin Hsub. apply (Hnone kw' Hin).
    apply contains_ci_lower.
    rewrite keywords_lower; [trivial | apply in_or_app; now left].
Qed.

(** Without a last message there is nothing to classify: Python raises. *)
Lemma determine_agent_empty (state : AgentState) :
  messages state = Some [] ->
  determine_agent state = Raise (IndexError "list index out of range").
Proof.
  intros H. unfold determine_agent, get_messages. now rewrite H.
Qed.

(** The three examples of the specification. *)
Example determine_agent_example_emergency :
  determine_agent (user_says "I feel unsafe, there's a threat nearby")
  = Ok "emergency".
Proof. reflexivity. Qed.

Example determine_agent_example_location :
  determine_agent (user_says "What's this neighborhood like?") = Ok "location".
Proof. reflexivity. Qed.

Example determine_agent_example_companion :
  determine_agent (user_says "Just chatting, how are you?") = Ok "companion".
Proof. reflexivity. Qed.

Lemma determine_agent_emergency_first_witness :
  determine_agent (user_says "Which AREA is Unsafe at night?") = Ok "emergency".
Proof.
  apply (determine_agent_emergency_first
           (user_says "Which AREA is Unsafe at night?")
           [HumanMessage "Which AREA is Unsafe at night?"]
           (HumanMessage "Which AREA is Unsafe at night?")
           "unsafe").
  - reflexivity.
  - reflexivity.
  - simpl. tauto.
  - exists "Which AREA is ", "Unsafe", " at night?". split; reflexivity.
Defined.

Lemma determine_agent_default_companion_witness :
  determine_agent_on lower
    (Some [TextContent "I feel unsafe"; TextContent "Just chatting, how are you?"])
  = Ok "companion".
Proof.
  apply (determine_agent_default_companion lower
           [TextContent "I feel unsafe"; TextContent "Just chatting, how are you?"]
           "Just chatting, how are you?").
  - reflexivity.
  - right. split; [reflexivity|].
    intros kw Hin Hci.
    apply contains_ci_lower in Hci. apply str_in_spec in Hci.
    simpl in Hin.
    repeat (destruct Hin as [<-|Hin]; [discriminate Hci|]).
    exact Hin.
Defined.

(** ** The conditional edge *)

(** C6. On a history that is not empty, [route_next] answers "supervisor"
    when the last message is not an assistant message, "tools" when it is an
    assistant message with pending tool calls, and "done" when it is an
    assistant message with none. *)
Theorem route_next_cases
  (state : AgentState) (ms : list Message) (last : Message) :
  messages state = Some ms ->
  py_last ms = Some last ->
  (is_AIMessage last = false -> route_next state = Ok "supervisor")
  /\ (forall m, last = AIMessage m -> ai_tool_calls m <> [] ->
                route_next state = Ok "tools")
  /\ (forall m, last = AIMessage m -> ai_tool_calls m = [] ->
                route_next state = Ok "done").
Proof.
  intros Hms Hlast. unfold route_next, get_messages. rewrite Hms, Hlast.
  repeat split.
  - destruct last; simpl; intros H; try reflexivity; discriminate.
  - intros m -> Hcalls. destruct (ai_tool_calls m); [contradiction | reflexivity].
  - intros m -> Hcalls. now rewrite Hcalls.
Qed.

(** ** The supervisor *)

Section SupervisorFacts.

Variable current_date : string.
Variable DEFAULT_MODEL : string.

Lemma no_messages_true (state : AgentState) :
  no_messages state = true <-> no_history state.
Proof.
  unfold no_messages, no_history.
  destruct (messages state) as [[|m ms]|]; split; intros H;
    try reflexivity; try discriminate; auto;
    destruct H as [H|H]; discriminate.
Qed.

Lemma py_last_some {A : Type} (xs : list A) :
  xs <> [] -> exists x, py_last xs = Some x.
Proof.
  induction xs as [|x xs IH]; [contradiction|]. intros _.
  destruct xs as [|y xs]; [now exists x|].
  destruct IH as [z Hz]; [discriminate|]. exists z. exact Hz.
Qed.

Lemma py_last_app {A : Type} (xs : list A) (x : A) :
  py_last (xs ++ [x]) = Some x.
Proof.
  induction xs as [|y xs IH]; [reflexivity|].
  simpl. destruct (xs ++ [x])%list eqn:E; [now destruct xs | exact IH].
Qed.

Lemma supervisor_first (state : AgentState) (config : RunnableConfig) :
  no_history state \/ first_run state <> Some false ->
  supervisor current_date DEFAULT_MODEL state config = Ret (state, greeting_update).
Proof.
  intros H. unfold supervisor.
  destruct (no_messages state) eqn:Hn; [reflexivity|].
  destruct H as [H|H].
  - apply no_messages_true in H. congruence.
  - unfold get_first_run. destruct (first_run state) as [[|]|]; try reflexivity.
    now destruct H.
Qed.

(** A later turn, run: the calls it makes and what it returns, by what
    the model and the classifier answer. *)
Lemma run_supervisor_later (env : Env) (state : AgentState)
  (config : RunnableConfig) (ms : list Message) (m : Message) :
  messages state = Some ms -> py_last ms = Some m ->
  first_run state = Some false ->
  let agent := classify (lower (content m)) in
  let model := model_name DEFAULT_MODEL config in
  let input := SystemMessage (instructions_for current_date agent) :: ms in
  run env (supervisor current_date DEFAULT_MODEL state config)
  = match model_ainvoke env model tools input with
    | Raise e => ([CallModel model tools input (Raise e)], Raise e)
    | Ok response =>
        let msgs := (ms ++ [AIMessage response])%list in
        match guard_ainvoke env "Agent" msgs with
        | Raise e =>
            ([CallModel model tools input (Ok response);
              CallGuard "Agent" msgs (Raise e)], Raise e)
        | Ok safety_output =>
            ([CallModel model tools input (Ok response);
              CallGuard "Agent" msgs (Ok safety_output)],
             match later_outcome state response safety_output with
             | Ok update => Ok (set_current_agent state agent, update)
             | Raise e => Raise e
             end)
        end
    end.
Proof.
  destruct state as [msgs saf rem cur fr]. simpl. intros -> Hlast ->.
  unfold supervisor, determine_agent, preprocessor, later_outcome,
    get_messages, get_remaining_steps, no_messages, get_first_run.
  simpl. rewrite Hlast.
  destruct ms as [|m0 ms]; [discriminate|].
  simpl.
  destruct (model_ainvoke env _ _ _) as [response|e]; [|reflexivity].
  simpl.
  destruct (guard_ainvoke env _ _) as [safety_output|e]; [|reflexivity].
  simpl.
  destruct (is_UNSAFE (safety_assessment safety_output)); [reflexivity|].
  destruct rem as [steps|]; [|reflexivity]. simpl.
  now destruct ((steps <? 2)%Z && truthy_list (ai_tool_calls response)).
Qed.

Lemma later_turn_last (state : AgentState) :
  later_turn state ->
  exists ms m, messages state = Some ms /\ py_last ms = Some m
               /\ first_run state = Some false.
Proof.
  intros [(ms & Hms & Hne) Hfr].
  destruct (py_last_some ms Hne) as [m Hm]. now exists ms, m.
Qed.

(** Every turn is a first turn or a later one. *)
Lemma first_or_later (state : AgentState) :
  (no_history state \/ first_run state <> Some false) \/ later_turn state.
Proof.
  unfold no_history, later_turn.
  destruct (messages state) as [[|m ms]|]; auto.
  destruct (first_run state) as [[|]|]; try (left; right; discriminate).
  right. split; [|reflexivity]. exists (m :: ms). split; [reflexivity | discriminate].
Qed.

(** C4. With no history, or with the first-run flag set, the supervisor
    returns at once, whatever the messages hold: it makes no call to the
    model or to the classifier, its update is the greeting with the
    persona "companion" and the flag cleared, and the conditional edge
    then ends the turn, so the tool node does not run. *)
Theorem supervisor_first_turn (state : AgentState) (config : RunnableConfig) :
  no_history state \/ first_run state = Some true ->
  exists update,
    supervisor current_date DEFAULT_MODEL state config = Ret (state, update)
    /\ (forall env,
           run env (supervisor current_date DEFAULT_MODEL state config)
           = ([], Ok (state, update)))
    /\ messages update = Some [AIMessage_of_content greeting]
    /\ current_agent update = Some "companion"
    /\ first_run update = Some false
    /\ current_agent (apply_update state update) = Some "companion"
    /\ first_run (apply_update state update) = Some false
    /\ route_next (apply_update state update) = Ok "done"
    /\ next_node "done" = Some END.
Proof.
  intros H. exists greeting_update.
  assert (Hsup : supervisor current_date DEFAULT_MODEL state config
                 = Ret (state, greeting_update)).
  { apply supervisor_first. destruct H as [H|H]; [now left|].
    right. rewrite H. discriminate. }
  split; [exact Hsup|].
  split; [intros env; now rewrite Hsup|].
  repeat split.
  unfold route_next, get_messages, apply_update, add_messages. simpl.
  destruct (messages state) as [ms|]; simpl; [|reflexivity].
  now rewrite py_last_app.
Qed.

(** C10. An absent first-run flag counts as set: the supervisor greets and
    sets the persona "companion" even on a history that is not empty.
    So whenever the supervisor does anything but return the greeting, and
    whenever it makes a call at all, the flag is in the state and false. *)
Theorem supervisor_absent_first_run (state : AgentState) (config : RunnableConfig) :
  (first_run state = None ->
   supervisor current_date DEFAULT_MODEL state config
   = Ret (state,
          {| messages := Some [AIMessage_of_content greeting];
             safety := None; remaining_steps := None;
             current_agent := Some "companion";
             first_run := Some false |}))
  /\ (supervisor current_date DEFAULT_MODEL state config
      <> Ret (state, greeting_update) ->
      first_run state = Some false)
  /\ (forall env call,
         In call (fst (run env (supervisor current_date DEFAULT_MODEL state config))) ->
         first_run state = Some false).
Proof.
  assert (Hgreet : first_run state <> Some false ->
                   supervisor current_date DEFAULT_MODEL state config
                   = Ret (state, greeting_update)).
  { intros H. apply supervisor_first. now right. }
  split; [|split].
  - intros H. apply Hgreet. rewrite H. discriminate.
  - intros Hne. destruct (first_run state) as [[|]|] eqn:E; trivial;
      destruct Hne; apply Hgreet; discriminate.
  - intros env call Hin.
    destruct (first_run state) as [[|]|] eqn:E; trivial;
      rewrite Hgreet in Hin by discriminate; destruct Hin.
Qed.

(** What a later turn's trace holds: one call to the model, then at most
    one to the classifier, on the history followed by the model's
    response. *)
Lemma later_turn_trace (env : Env) (state : AgentState) (config : RunnableConfig)
  (ms : list Message) (m : Message) (tr : list Call)
  (result : PyResult (AgentState * AgentState)) :
  messages state = Some ms -> py_last ms = Some m ->
  first_run state = Some false ->
  run env (supervisor current_date DEFAULT_MODEL state config) = (tr, result) ->
  (forall model bound input response,
      In (CallModel model bound input (Ok response)) tr ->
      model_ainvoke env (model_name DEFAULT_MODEL config) tools
        (SystemMessage
           (instructions_for current_date (classify (lower (content m)))) :: ms)
      = Ok response)
  /\ (forall role msgs safety_output,
         In (CallGuard role msgs (Ok safety_output)) tr ->
         exists response,
           tr = [CallModel (model_name DEFAULT_MODEL config) tools
                   (SystemMessage
                      (instructions_for current_date
                         (classify (lower (content m)))) :: ms)
                   (Ok response);
                 CallGuard "Agent" (ms ++ [AIMessage response]) (Ok safety_output)]
           /\ role = "Agent"
           /\ msgs = (ms ++ [AIMessage response])%list
           /\ result
              = match later_outcome state response safety_output with
                | Ok update =>
                    Ok (set_current_agent state (classify (lower (content m))),
                        update)
                | Raise e => Raise e
                end).
Proof.
  intros Hms Hlast Hfr Hrun.
  rewrite (run_supervisor_later env state config ms m Hms Hlast Hfr) in Hrun.
  cbv zeta in Hrun.
  destruct (model_ainvoke env _ _ _) as [response|e] eqn:Hmodel.
  - destruct (guard_ainvoke env _ _) as [out|e] eqn:Hguard;
      injection Hrun as <- <-; split.
    + intros model bound input r [H|[H|[]]]; [congruence | discriminate].
    + intros role msgs out' [H|[H|[]]]; [discriminate|].
      injection H as <- <- <-. now exists response.
    + intros model bound input r [H|[H|[]]]; [congruence | discriminate].
    + intros role msgs out' [H|[H|[]]]; discriminate.
  - injection Hrun as <- <-; split.
    + intros model bound input r [H|[]]. discriminate.
    + intros role msgs out' [H|[]]. discriminate.
Qed.

(** What a later turn returns when the classifier answers UNSAFE: the
    update is made from the assessment, and from nothing else. *)
Lemma later_turn_unsafe (env : Env) (state : AgentState) (config : RunnableConfig)
  (tr : list Call) (result : PyResult (AgentState * AgentState))
  (role : string) (msgs : list Message) (safety_output : LlamaGuardOutput) :
  later_turn state ->
  run env (supervisor current_date DEFAULT_MODEL state config) = (tr, result) ->
  In (CallGuard role msgs (Ok safety_output)) tr ->
  safety_assessment safety_output = UNSAFE ->
  exists ms response local,
    messages state = Some ms
    /\ msgs = (ms ++ [AIMessage response])%list
    /\ (exists input,
           In (CallModel (model_name DEFAULT_MODEL config) tools input
                 (Ok response)) tr)
    /\ result
       = Ok (local,
             messages_update [format_safety_message safety_output]
               (Some safety_output)).
Proof.
  intros Hlater Hrun Hin Hunsafe.
  destruct (later_turn_last state Hlater) as (ms & m & Hms & Hlast & Hfr).
  destruct (later_turn_trace env state config ms m tr result Hms Hlast Hfr Hrun)
    as [_ Hguard].
  destruct (Hguard role msgs safety_output Hin)
    as (response & Htr & -> & -> & Hres).
  unfold later_outcome in Hres. rewrite Hunsafe in Hres. simpl in Hres.
  exists ms, response, (set_current_agent state (classify (lower (content m)))).
  split; [exact Hms|]. split; [reflexivity|].
  split; [eexists; rewrite Htr; now left|].
  exact Hres.
Qed.

(** C2. On a later turn in which the classifier answers UNSAFE for the
    history followed by the model's response, the supervisor returns one
    message: the fixed prefix followed by the category labels joined by a
    comma and a space, so that its content contains the joined labels.  The
    message is built from the assessment alone, and the response of the model
    has no part in it: any other later turn, on any history and with any
    response of the model, in which the classifier gives the same
    assessment, returns the same message.  That message is the only one the
    update holds, so the response of the model is not among the messages
    handed to the history; and the update records the assessment under
    [safety], where the state holds it once the update is merged. *)
Theorem supervisor_unsafe_emits_flag
  (env : Env) (state : AgentState) (config : RunnableConfig)
  (tr : list Call) (result : PyResult (AgentState * AgentState))
  (role : string) (msgs : list Message) (safety_output : LlamaGuardOutput) :
  later_turn state ->
  run env (supervisor current_date DEFAULT_MODEL state config) = (tr, result) ->
  In (CallGuard role msgs (Ok safety_output)) tr ->
  safety_assessment safety_output = UNSAFE ->
  exists ms response local update flagged,
    messages state = Some ms
    /\ msgs = (ms ++ [AIMessage response])%list
    /\ (exists input,
           In (CallModel (model_name DEFAULT_MODEL config) tools input
                 (Ok response)) tr)
    /\ result = Ok (local, update)
    /\ flagged
       = AIMessage
           {| ai_id := None;
              ai_content :=
                "This conversation was flagged for unsafe content: "
                ++ join ", " (unsafe_categories safety_output);
              ai_tool_calls := [] |}
    /\ messages update = Some [flagged]
    /\ Substring (join ", " (unsafe_categories safety_output)) (content flagged)
    /\ safety update = Some safety_output
    /\ (forall base, safety (apply_update base update) = Some safety_output)
    /\ (forall env' state' config' tr' result' role' msgs',
           later_turn state' ->
           run env' (supervisor current_date DEFAULT_MODEL state' config')
           = (tr', result') ->
           In (CallGuard role' msgs' (Ok safety_output)) tr' ->
           exists local' update',
             result' = Ok (local', update')
             /\ messages update' = Some [flagged]
             /\ safety update' = Some safety_output).
Proof.
  intros Hlater Hrun Hin Hunsafe.
  destruct (later_turn_unsafe env state config tr result role msgs safety_output
              Hlater Hrun Hin Hunsafe)
    as (ms & response & local & Hms & Hmsgs & Hmodel & Hres).
  exists ms, response, local. eexists. eexists.
  split; [exact Hms|]. split; [exact Hmsgs|]. split; [exact Hmodel|].
  split; [exact Hres|]. split; [reflexivity|].
  split; [reflexivity|].
  split; [now exists "This conversation was flagged for unsafe content: ",
                     EmptyString; simpl; rewrite append_empty_r|].
  split; [reflexivity|]. split; [reflexivity|].
  intros env' state' config' tr' result' role' msgs' Hlater' Hrun' Hin'.
  destruct (later_turn_unsafe env' state' config' tr' result' role' msgs'
              safety_output Hlater' Hrun' Hin' Hunsafe)
    as (ms' & response' & local' & _ & _ & _ & Hres').
  exists local'. eexists. split; [exact Hres'|]. now split.
Qed.


(** C3, as the code has it. On a later turn with fewer than two steps
    left whose model response asks for tool calls, the classifier is asked
    first.  When it answers SAFE the supervisor returns the fixed apology,
    under the id of the response and with no tool call; when it answers
    UNSAFE it returns the flagged-content message.  Either way the one
    message returned asks for no tool, and on every history that ends with
    it the conditional edge ends the turn: the tool node does not run. *)
Theorem supervisor_out_of_steps
  (env : Env) (state : AgentState) (config : RunnableConfig)
  (tr : list Call) (result : PyResult (AgentState * AgentState))
  (steps : Z) (model : string) (bound : list string) (input : list Message)
  (response : AIMsg) (role : string) (msgs : list Message)
  (safety_output : LlamaGuardOutput) :
  later_turn state ->
  remaining_steps state = Some steps ->
  (steps < 2)%Z ->
  run env (supervisor current_date DEFAULT_MODEL state config) = (tr, result) ->
  In (CallModel model bound input (Ok response)) tr ->
  ai_tool_calls response <> [] ->
  In (CallGuard role msgs (Ok safety_output)) tr ->
  exists local update emitted,
    result = Ok (local, update)
    /\ messages update = Some [AIMessage emitted]
    /\ (safety_assessment safety_output <> UNSAFE ->
        emitted
        = {| ai_id := ai_id response;
             ai_content :=
               "I apologize, but I need more steps to process this request. Would you like me to help you with something else?";
             ai_tool_calls := [] |})
    /\ (safety_assessment safety_output = UNSAFE ->
        AIMessage emitted = format_safety_message safety_output)
    /\ ai_tool_calls emitted = []
    /\ (forall state' history,
           messages state' = Some history ->
           py_last history = Some (AIMessage emitted) ->
           route_next state' = Ok "done")
    /\ next_node "done" = Some END.
Proof.
  intros Hlater Hsteps Hlt Hrun Hmodel Hcalls Hguard.
  destruct (later_turn_last state Hlater) as (ms & m & Hms & Hlast & Hfr).
  destruct (later_turn_trace env state config ms m tr result Hms Hlast Hfr Hrun)
    as [Hm Hg].
  destruct (Hg role msgs safety_output Hguard)
    as (response' & Htr & -> & -> & Hres).
  assert (response' = response) as ->.
  { rewrite Htr in Hmodel. destruct Hmodel as [H|[H|[]]]; [|discriminate].
    now injection H. }
  unfold later_outcome in Hres. rewrite Hsteps in Hres.
  assert (Hcond : ((steps <? 2)%Z && truthy_list (ai_tool_calls response)) = true).
  { apply andb_true_iff. split; [now apply Z.ltb_lt|].
    destruct (ai_tool_calls response); [contradiction | reflexivity]. }
  rewrite Hcond in Hres.
  exists (set_current_agent state (classify (lower (content m)))).
  assert (Hroute : forall emitted state' history,
             ai_tool_calls emitted = [] ->
             messages state' = Some history ->
             py_last history = Some (AIMessage emitted) ->
             route_next state' = Ok "done").
  { intros emitted state' history Hnone Hhist Hend.
    unfold route_next, get_messages. now rewrite Hhist, Hend, Hnone. }
  destruct (safety_assessment safety_output) eqn:Hverdict; simpl in Hres;
    eexists; eexists; (split; [exact Hres|]);
    (split; [reflexivity|]);
    (split; [intros Hv; first [reflexivity | now destruct Hv]|]);
    (split; [intros; first [reflexivity | discriminate]|]);
    (split; [reflexivity|]);
    (split; [|reflexivity]); intros state' history; now apply Hroute.
Qed.


End SupervisorFacts.

(** ** The persona key along the graph *)

Section GraphFacts.

Variable current_date : string.
Variable DEFAULT_MODEL : string.
Variable config : RunnableConfig.

Lemma later_outcome_keys (state : AgentState) (response : AIMsg)
  (safety_output : LlamaGuardOutput) (update : AgentState) :
  later_outcome state response safety_output = Ok update ->
  current_agent update = None /\ first_run update = None.
Proof.
  unfold later_outcome.
  destruct (is_UNSAFE (safety_assessment safety_output)).
  - intros H. injection H as <-. now split.
  - destruct (remaining_steps state) as [steps|]; [|discriminate].
    destruct ((steps <? 2)%Z && truthy_list (ai_tool_calls response));
      intros H; injection H as <-; now split.
Qed.

(** What one call of the supervisor does to the persona key: the dict it
    returns holds no persona or "companion", and the state dict it was
    given keeps its persona or gets one of the three that
    [determine_agent] answers. *)
Lemma supervisor_persona (env : Env) (state local update : AgentState)
  (tr : list Call) :
  run env (supervisor current_date DEFAULT_MODEL state config)
  = (tr, Ok (local, update)) ->
  (current_agent update = None \/ current_agent update = Some "companion")
  /\ (current_agent local = current_agent state
      \/ exists agent, current_agent local = Some agent
                       /\ In agent [ "emergency"; "location"; "companion" ]).
Proof.
  intros Hrun.
  destruct (first_or_later state) as [Hfirst|Hlater].
  - rewrite (supervisor_first current_date DEFAULT_MODEL state config Hfirst)
      in Hrun.
    simpl in Hrun. injection Hrun as _ <- <-. split; [now right | now left].
  - destruct (later_turn_last state Hlater) as (ms & m & Hms & Hlast & Hfr).
    rewrite (run_supervisor_later current_date DEFAULT_MODEL env state config
               ms m Hms Hlast Hfr) in Hrun.
    cbv zeta in Hrun.
    destruct (model_ainvoke env _ _ _) as [response|e]; [|discriminate].
    destruct (guard_ainvoke env _ _) as [out|e]; [|discriminate].
    destruct (later_outcome state response out) as [u|e] eqn:Hout;
      [|discriminate].
    injection Hrun as _ <- <-.
    split; [left; now apply (later_outcome_keys state response out)|].
    right. exists (classify (lower (content m))). split; [reflexivity|].
    simpl. destruct (classify_cases (lower (content m))) as [-> | [-> | ->]]; tauto.
Qed.

Lemma persona_ok_overwrite (old new : option string) :
  persona_ok old ->
  new = None \/ new = Some "companion" ->
  persona_ok (overwrite old new).
Proof.
  intros Hold [->| ->]; simpl; [exact Hold | tauto].
Qed.

(** C8. Along the graph the persona key stays absent or within
    [personas]: in every reachable state; across every step, from whatever
    state has it so; in the dict the supervisor
    returns and in the state dict it assigns to, where the key is only ever
    set to "companion", "emergency" or "location"; and the tool node and a
    new user message leave the key as it is. *)
Theorem persona_always_enumerated :
  (forall c, reachable current_date DEFAULT_MODEL config c ->
             persona_ok (current_agent (snd c)))
  /\ (forall c c', graph_step current_date DEFAULT_MODEL config c c' ->
                   persona_ok (current_agent (snd c)) ->
                   persona_ok (current_agent (snd c')))
  /\ (forall env state local update tr,
         run env (supervisor current_date DEFAULT_MODEL state config)
         = (tr, Ok (local, update)) ->
         persona_ok (current_agent update)
         /\ (current_agent local = current_agent state
             \/ persona_ok (current_agent local)))
  /\ (forall state ms budget,
         current_agent
           (with_remaining_steps (apply_update state (messages_update ms None))
              budget)
         = current_agent state).
Proof.
  assert (Hsup : forall env state local update tr,
             run env (supervisor current_date DEFAULT_MODEL state config)
             = (tr, Ok (local, update)) ->
             persona_ok (current_agent update)
             /\ (current_agent local = current_agent state
                 \/ persona_ok (current_agent local))).
  { intros env state local update tr Hrun.
    destruct (supervisor_persona env state local update tr Hrun) as [Hu Hl].
    split.
    - destruct Hu as [-> | ->]; simpl; tauto.
    - destruct Hl as [Hl|(agent & -> & Hin)]; [now left|].
      right. simpl in *. tauto. }
  assert (Hstep : forall c c',
             graph_step current_date DEFAULT_MODEL config c c' ->
             persona_ok (current_agent (snd c)) ->
             persona_ok (current_agent (snd c'))).
  { intros c c' Hstep IH.
    destruct Hstep as
      [env state local update base state' tr steps route n Hrun Hbase -> _ _
      | state ms m results steps _ _ _
      | state text steps]; simpl in *; trivial.
    apply persona_ok_overwrite.
    - destruct (Hsup env state local update tr Hrun) as [_ [Heq|Hok]];
        destruct Hbase as [-> | ->]; trivial. now rewrite Heq.
    - now destruct (supervisor_persona env state local update tr Hrun). }
  split; [|split; [exact Hstep | split; [exact Hsup | reflexivity]]].
  intros c Hreach. induction Hreach as [|c c' Hreach IH Hstep']; [exact I|].
  exact (Hstep c c' Hstep' IH).
Qed.

End GraphFacts.

(** ** The claims on concrete conversations *)

Import Scenario.

Lemma later_turn_user_says (text : string) : later_turn (user_says text).
Proof.
  split; [|reflexivity].
  exists [HumanMessage text]. split; [reflexivity | discriminate].
Defined.

Lemma later_turn_last_step (text : string) : later_turn (last_step text).
Proof.
  split; [|reflexivity].
  exists [HumanMessage text]. split; [reflexivity | discriminate].
Defined.

Lemma supervisor_unsafe_emits_flag_witness :
  exists update update',
    snd (run env_text_unsafe
           (supervisor date default_model (user_says "what is it?") config))
    = Ok (user_says "what is it?", update)
    /\ snd (run env_tool_unsafe
              (supervisor date default_model (last_step "where can I go?") config))
       = Ok (last_step "where can I go?", update')
    /\ messages update
       = Some [AIMessage_of_content
                 "This conversation was flagged for unsafe content: S1, S9"]
    /\ messages update' = messages update
    /\ safety update = Some verdict_unsafe.
Proof.
  destruct (supervisor_unsafe_emits_flag date default_model env_text_unsafe
              (user_says "what is it?") config
              (fst (run env_text_unsafe
                      (supervisor date default_model (user_says "what is it?")
                         config)))
              (snd (run env_text_unsafe
                      (supervisor date default_model (user_says "what is it?")
                         config)))
              "Agent" [HumanMessage "what is it?"; AIMessage text_response]
              verdict_unsafe)
    as (ms & response & local & update & flagged & _ & _ & _ & Hres & Hflag
        & Hmsgs & _ & Hsafety & _ & Hsame).
  - apply later_turn_user_says.
  - reflexivity.
  - vm_compute. tauto.
  - reflexivity.
  - destruct (Hsame env_tool_unsafe (last_step "where can I go?") config
                (fst (run env_tool_unsafe
                        (supervisor date default_model
                           (last_step "where can I go?") config)))
                (snd (run env_tool_unsafe
                        (supervisor date default_model
                           (last_step "where can I go?") config)))
                "Agent"
                [HumanMessage "where can I go?"; AIMessage tool_response])
      as (local' & update' & Hres' & Hmsgs' & _).
    + apply later_turn_last_step.
    + reflexivity.
    + vm_compute. tauto.
    + exists update, update'. rewrite Hmsgs, Hmsgs', Hflag.
      split; [|split; [|repeat split; trivial]].
      * rewrite Hres. vm_compute in Hres. injection Hres as <- _. reflexivity.
      * rewrite Hres'. vm_compute in Hres'. injection Hres' as <- _. reflexivity.
Defined.

(** C3 as stated fails when the classifier flags the response: with one
    step left and a response that asks for a tool, the message returned is
    the flagged-content message, not the apology. *)
Lemma out_of_steps_unsafe_is_flagged :
  later_turn (last_step "where can I go?")
  /\ remaining_steps (last_step "where can I go?") = Some 1%Z
  /\ ai_tool_calls tool_response = [nearby_call]
  /\ (exists input,
         fst (run env_tool_unsafe
                (supervisor date default_model (last_step "where can I go?") config))
         = [CallModel default_model tools input (Ok tool_response);
            CallGuard "Agent"
              [HumanMessage "where can I go?"; AIMessage tool_response]
              (Ok verdict_unsafe)])
  /\ snd (run env_tool_unsafe
            (supervisor date default_model (last_step "where can I go?") config))
     = Ok (last_step "where can I go?",
           messages_update
             [AIMessage_of_content
                "This conversation was flagged for unsafe content: S1, S9"]
             (Some verdict_unsafe))
  /\ String.eqb "This conversation was flagged for unsafe content: S1, S9"
       apology = false.
Proof.
  split; [apply later_turn_last_step|].
  split; [reflexivity|].
  split; [reflexivity|].
  split; [eexists; reflexivity|].
  split; reflexivity.
Qed.

Lemma supervisor_out_of_steps_witness :
  exists local update,
    snd (run env_tool_safe
           (supervisor date default_model (last_step "where can I go?") config))
    = Ok (local, update)
    /\ messages update
       = Some [AIMessage {| ai_id := Some "run-2"; ai_content := apology;
                            ai_tool_calls := [] |}]
    /\ route_next
         {| messages :=
              Some [HumanMessage "where can I go?";
                    AIMessage {| ai_id := Some "run-2"; ai_content := apology;
                                 ai_tool_calls := [] |}];
            safety := None; remaining_steps := Some 0%Z;
            current_agent := Some "companion"; first_run := Some false |}
       = Ok "done".
Proof.
  destruct (supervisor_out_of_steps date default_model env_tool_safe
              (last_step "where can I go?") config
              (fst (run env_tool_safe
                      (supervisor date default_model
                         (last_step "where can I go?") config)))
              (snd (run env_tool_safe
                      (supervisor date default_model
                         (last_step "where can I go?") config)))
              1%Z default_model tools
              (SystemMessage (instructions_for date "companion")
                 :: [HumanMessage "where can I go?"])
              tool_response "Agent"
              [HumanMessage "where can I go?"; AIMessage tool_response]
              verdict_safe)
    as (local & update & emitted & Hres & Hmsgs & Hsafe & _ & _ & Hroute & _).
  - apply later_turn_last_step.
  - reflexivity.
  - lia.
  - reflexivity.
  - vm_compute. tauto.
  - discriminate.
  - vm_compute. tauto.
  - exists local, update. split; [exact Hres|].
    rewrite Hmsgs, (Hsafe ltac:(discriminate)).
    split; [reflexivity|].
    eapply Hroute; [reflexivity|].
    rewrite (Hsafe ltac:(discriminate)). reflexivity.
Defined.

Lemma supervisor_first_turn_witness :
  exists update,
    supervisor date default_model (flag_set "I need help") config
    = Ret (flag_set "I need help", update)
    /\ messages update = Some [AIMessage_of_content greeting]
    /\ current_agent update = Some "companion"
    /\ first_run update = Some false.
Proof.
  destruct (supervisor_first_turn date default_model (flag_set "I need help")
              config)
    as (update & Hsup & _ & Hmsgs & Hagent & Hflag & _).
  - right. reflexivity.
  - exists update. auto.
Defined.

Lemma route_next_cases_witness :
  route_next (user_says "hello") = Ok "supervisor"
  /\ route_next tool_pending = Ok "tools"
  /\ route_next greeted = Ok "done".
Proof.
  split; [|split].
  - apply (proj1 (route_next_cases (user_says "hello") [HumanMessage "hello"]
                    (HumanMessage "hello") eq_refl eq_refl)).
    reflexivity.
  - apply (proj1 (proj2 (route_next_cases tool_pending
                           [HumanMessage "hi"; AIMessage_of_content greeting;
                            HumanMessage "I need help"; AIMessage tool_response]
                           (AIMessage tool_response) eq_refl eq_refl))
             tool_response eq_refl).
    discriminate.
  - apply (proj2 (proj2 (route_next_cases greeted
                           [HumanMessage "hi"; AIMessage_of_content greeting]
                           (AIMessage_of_content greeting) eq_refl eq_refl))
             {| ai_id := None; ai_content := greeting; ai_tool_calls := [] |}
             eq_refl).
    reflexivity.
Defined.

Lemma supervisor_absent_first_run_witness :
  supervisor date default_model (no_flag "I need help") config
  = Ret (no_flag "I need help", greeting_update).
Proof.
  apply (proj1 (supervisor_absent_first_run date default_model
                  (no_flag "I need help") config)).
  reflexivity.
Defined.

(** The conversation of [Scenario], step by step along the graph. *)
Lemma greeted_reachable :
  reachable date default_model config (END, greeted).
Proof.
  apply reachable_step with (c := (supervisor_node, (no_flag "hi"))).
  - apply reachable_step with (c := (END, empty_state)).
    + apply reachable_start.
    + exact (step_input date default_model config empty_state "hi" (Some 25%Z)).
  - apply (step_supervisor date default_model config env_tool_safe
             (no_flag "hi") (no_flag "hi") greeting_update (no_flag "hi") greeted
             [] (Some 24%Z) "done" END); try reflexivity.
    now left.
Qed.

Lemma tool_pending_reachable :
  reachable date default_model config (tools_node, tool_pending).
Proof.
  apply reachable_step with (c := (supervisor_node, asked)).
  - apply reachable_step with (c := (END, greeted)).
    + apply greeted_reachable.
    + exact (step_input date default_model config greeted "I need help"
               (Some 25%Z)).
  - apply (step_supervisor date default_model config env_tool_safe
             asked (set_current_agent asked "emergency")
             (messages_update [AIMessage tool_response] None) asked tool_pending
             (fst (run env_tool_safe (supervisor date default_model asked config)))
             (Some 24%Z) "tools" tools_node); try reflexivity.
    now left.
Qed.

Lemma after_tool_reachable :
  reachable date default_model config (supervisor_node, after_tool).
Proof.
  apply reachable_step with (c := (tools_node, tool_pending)).
  - apply tool_pending_reachable.
  - apply (step_tools date default_model config tool_pending
             [HumanMessage "hi"; AIMessage_of_content greeting;
              HumanMessage "I need help"; AIMessage tool_response]
             tool_response [ToolMessage "Central Park area" "call_1"]
             (Some 23%Z)); try reflexivity.
    constructor; [|constructor]. now exists "Central Park area".
Qed.

(** C5. The supervisor classifies the last message of the history, of
    whatever kind.  When the tool node has run, the last message is a tool
    result: in the reachable state [after_tool] the latest user message,
    "I need help", is an emergency, and [determine_agent] answers "location"
    from the text the tool returned. *)
Theorem determine_agent_classifies_tool_result :
  reachable date default_model config (supervisor_node, after_tool)
  /\ later_turn after_tool
  /\ (exists ms,
         messages after_tool = Some ms
         /\ py_last ms = Some (ToolMessage "Central Park area" "call_1")
         /\ latest_user_message ms = Some "I need help")
  /\ classify (lower "I need help") = "emergency"
  /\ determine_agent after_tool = Ok "location".
Proof.
  split; [apply after_tool_reachable|].
  split.
  { split; [|reflexivity]. eexists. split; [reflexivity | discriminate]. }
  split; [eexists; repeat split|].
  split; reflexivity.
Qed.

(** Where the last message is the user's, it is the latest user message,
    and it is the one classified. *)
Lemma determine_agent_on_user_message
  (state : AgentState) (ms : list Message) (text : string) :
  messages state = Some ms ->
  py_last ms = Some (HumanMessage text) ->
  latest_user_message ms = Some text
  /\ determine_agent state = Ok (classify (lower text)).
Proof.
  intros Hms Hlast. split.
  - clear Hms. induction ms as [|m ms IH]; [discriminate|].
    destruct ms as [|m' ms].
    + simpl in Hlast. injection Hlast as ->. reflexivity.
    + change (py_last (m' :: ms) = Some (HumanMessage text)) in Hlast.
      cbn [latest_user_message] in *. now rewrite (IH Hlast).
  - apply (determine_agent_last state ms (HumanMessage text) Hms Hlast).
Qed.

Lemma persona_always_enumerated_witness :
  persona_ok (current_agent after_tool).
Proof.
  exact (proj1 (persona_always_enumerated date default_model config)
           (supervisor_node, after_tool) after_tool_reachable).
Defined.

(** ** The calculator tool *)

Lemma substring_middle (pre mid post : string) :
  Substring mid (pre ++ mid ++ post).
Proof. now exists pre, post. Qed.

Lemma str_in_char (a c : ascii) (s : string) :
  str_in (String a EmptyString) (String c s)
  = if Ascii.eqb a c then true else str_in (String a EmptyString) s.
Proof.
  cbn [str_in prefix].
  destruct (ascii_dec a c) as [->|Hne].
  - rewrite Ascii.eqb_refl. now destruct s.
  - destruct (Ascii.eqb_spec a c) as [->|_]; [now destruct Hne | reflexivity].
Qed.

Lemma drop_closing_bracket_plain (s : string) :
  str_in "]" s = false -> drop_closing_bracket s = s.
Proof.
  induction s as [|c s IH]; [reflexivity|].
  rewrite str_in_char. cbn [drop_closing_bracket].
  rewrite (Ascii.eqb_sym c "]").
  destruct (Ascii.eqb "]" c); [discriminate|].
  intros H. simpl. now rewrite (IH H).
Qed.

Section CalculatorFacts.

Variable ndarray : Type.
Variable str_of_ndarray : ndarray -> string.
Variable float : Type.
Variable math_pi math_e : float.
Variable numexpr_evaluate :
  string -> list (string * float) -> list (string * float) -> string + ndarray.

(** C9. When the evaluation of the stripped expression, with no globals
    and with [pi] and [e] as the only locals, raises, [calculator_func]
    raises a [ValueError] whose message contains the expression as it was
    given (and the text of the error); when the evaluation returns, it
    returns a string, [str] of the result without an opening bracket at
    its start and a closing bracket at its end, which is [str] of the
    result itself when that holds no bracket. *)
Theorem calculator_func_result (expression : string) :
  (forall e,
      numexpr_evaluate (strip expression) [] [ ("pi", math_pi); ("e", math_e) ]
      = inl e ->
      exists msg,
        calculator_func ndarray str_of_ndarray float math_pi math_e
          numexpr_evaluate expression
        = Raise (ValueError msg)
        /\ Substring expression msg
        /\ Substring e msg)
  /\ (forall value,
         numexpr_evaluate (strip expression) [] [ ("pi", math_pi); ("e", math_e) ]
         = inr value ->
         calculator_func ndarray str_of_ndarray float math_pi math_e
           numexpr_evaluate expression
         = Ok (re_sub_brackets (str_of_ndarray value))
         /\ (str_in "[" (str_of_ndarray value) = false ->
             str_in "]" (str_of_ndarray value) = false ->
             calculator_func ndarray str_of_ndarray float math_pi math_e
               numexpr_evaluate expression
             = Ok (str_of_ndarray value))).
Proof.
  unfold calculator_func. split.
  - intros e ->. eexists. split; [reflexivity|]. split.
    + apply (substring_middle ("calculator(" ++ double_quote) expression).
    + exists ("calculator(" ++ double_quote ++ expression ++ double_quote
              ++ ") raised error: "),
        ("." ++ " Please try again with a valid numerical expression").
      now rewrite !append_assoc.
  - intros value ->. split; [reflexivity|].
    intros Hopen Hclose. f_equal.
    unfold re_sub_brackets.
    destruct (str_of_ndarray value) as [|c s] eqn:E; [reflexivity|].
    rewrite str_in_char, (Ascii.eqb_sym "[" c) in Hopen.
    destruct (Ascii.eqb c "["); [discriminate|].
    now apply drop_closing_bracket_plain.
Qed.

End CalculatorFacts.

Lemma calculator_func_result_witness :
  calculator_func Z str_of unit tt tt evaluate "2 +"
  = Raise
      (ValueError
         ("calculator(" ++ double_quote ++ "2 +" ++ double_quote
          ++ ") raised error: invalid syntax. Please try again with a valid numerical expression"))
  /\ calculator_func Z str_of unit tt tt evaluate " 2 + 2 " = Ok "4".
Proof.
  split.
  - destruct (proj1 (calculator_func_result Z str_of unit tt tt evaluate "2 +")
                "invalid syntax" eq_refl)
      as (msg & Hraise & _).
    rewrite Hraise. vm_compute in Hraise. injection Hraise as <-. reflexivity.
  - exact (proj1 (proj2 (calculator_func_result Z str_of unit tt tt evaluate
                          " 2 + 2 ") 4%Z eq_refl)).
Defined.

(** * Further properties of the supervisor and of the graph *)

Section SupervisorRuns.

Variable current_date : string.
Variable DEFAULT_MODEL : string.

(** Every way a call of the supervisor can go: the greeting, or a later turn
    that ends at the model's call, at the classifier's call, or with the
    outcome of the turn. *)
Lemma supervisor_run_cases (env : Env) (state : AgentState)
  (config : RunnableConfig) (tr : list Call)
  (result : PyResult (AgentState * AgentState)) :
  run env (supervisor current_date DEFAULT_MODEL state config) = (tr, result) ->
  ((no_history state \/ first_run state <> Some false)
   /\ tr = [] /\ result = Ok (state, greeting_update))
  \/ exists ms m,
      messages state = Some ms /\ py_last ms = Some m
      /\ first_run state = Some false
      /\ ((exists e,
              tr = [CallModel (model_name DEFAULT_MODEL config) tools
                      (SystemMessage
                         (instructions_for current_date
                            (classify (lower (content m)))) :: ms)
                      (Raise e)]
              /\ result = Raise e)
          \/ (exists response e,
                 tr = [CallModel (model_name DEFAULT_MODEL config) tools
                         (SystemMessage
                            (instructions_for current_date
                               (classify (lower (content m)))) :: ms)
                         (Ok response);
                       CallGuard "Agent" (ms ++ [AIMessage response]) (Raise e)]
                 /\ result = Raise e)
          \/ (exists response safety_output,
                 tr = [CallModel (model_name DEFAULT_MODEL config) tools
                         (SystemMessage
                            (instructions_for current_date
                               (classify (lower (content m)))) :: ms)
                         (Ok response);
                       CallGuard "Agent" (ms ++ [AIMessage response])
                         (Ok safety_output)]
                 /\ result
                    = match later_outcome state response safety_output with
                      | Ok update =>
                          Ok (set_current_agent state
                                (classify (lower (content m))), update)
                      | Raise e => Raise e
                      end)).
Proof.
  intros Hrun.
  destruct (first_or_later state) as [Hfirst|Hlater].
  - left. split; [exact Hfirst|].
    rewrite (supervisor_first current_date DEFAULT_MODEL state config Hfirst)
      in Hrun.
    simpl in Hrun. injection Hrun as <- <-. now split.
  - right.
    destruct (later_turn_last state Hlater) as (ms & m & Hms & Hlast & Hfr).
    exists ms, m. repeat (split; [assumption|]).
    rewrite (run_supervisor_later current_date DEFAULT_MODEL env state config
               ms m Hms Hlast Hfr) in Hrun.
    cbv zeta in Hrun.
    destruct (model_ainvoke env _ _ _) as [response|e].
    + destruct (guard_ainvoke env _ _) as [out|e]; injection Hrun as <- <-.
      * right; right. now exists response, out.
      * right; left. now exists response, e.
    + injection Hrun as <- <-. left. now exists e.
Qed.

(** X1. On a later turn that the classifier does not flag, with two steps or more
    left or with no tool call asked for, the supervisor returns the model's
    response as it is, as the one message of its update, and records no
    assessment.  On every history that ends with that response the
    conditional edge goes to the tool node exactly when the response asks
    for a tool, and ends the turn otherwise. *)
Theorem supervisor_passes_response
  (env : Env) (state : AgentState) (config : RunnableConfig)
  (tr : list Call) (result : PyResult (AgentState * AgentState))
  (steps : Z) (model : string) (bound : list string) (input : list Message)
  (response : AIMsg) (role : string) (msgs : list Message)
  (safety_output : LlamaGuardOutput) :
  later_turn state ->
  remaining_steps state = Some steps ->
  run env (supervisor current_date DEFAULT_MODEL state config) = (tr, result) ->
  In (CallModel model bound input (Ok response)) tr ->
  In (CallGuard role msgs (Ok safety_output)) tr ->
  safety_assessment safety_output <> UNSAFE ->
  (2 <= steps)%Z \/ ai_tool_calls response = [] ->
  exists local update ms,
    result = Ok (local, update)
    /\ messages state = Some ms
    /\ messages update = Some [AIMessage response]
    /\ safety update = None
    /\ (forall state' history,
           messages state' = Some history ->
           py_last history = Some (AIMessage response) ->
           route_next state'
           = Ok (if truthy_list (ai_tool_calls response) then "tools" else "done")).
Proof.
  intros Hlater Hsteps Hrun Hmodel Hguard Hsafe Hbudget.
  destruct (later_turn_last state Hlater) as (ms & m & Hms & Hlast & Hfr).
  destruct (later_turn_trace current_date DEFAULT_MODEL env state config ms m
              tr result Hms Hlast Hfr Hrun) as [_ Hg].
  destruct (Hg role msgs safety_output Hguard)
    as (response' & Htr & -> & -> & Hres).
  assert (response' = response) as ->.
  { rewrite Htr in Hmodel. destruct Hmodel as [H|[H|[]]]; [|discriminate].
    now injection H. }
  unfold later_outcome in Hres. rewrite Hsteps in Hres.
  destruct (safety_assessment safety_output); [|now destruct Hsafe].
  simpl in Hres.
  assert (Hcond : ((steps <? 2)%Z && truthy_list (ai_tool_calls response)) = false).
  { destruct Hbudget as [H|H].
    - apply andb_false_iff. left. now apply Z.ltb_ge.
    - rewrite H. apply andb_false_r. }
  rewrite Hcond in Hres.
  eexists. eexists. exists ms.
  split; [exact Hres|]. split; [exact Hms|].
  split; [reflexivity|]. split; [reflexivity|].
  intros state' history Hhist Hend.
  unfold route_next, get_messages. rewrite Hhist, Hend.
  now destruct (ai_tool_calls response).
Qed.

(** X2. From the call of the model on, the supervisor handles no exception.
    A call of the supervisor that has reached the model and raises is
    a later turn, and it raises what the model's call raised (the classifier
    is then not called), what the classifier's call raised, or [KeyError]
    for a missing [remaining_steps], read only after both calls and only
    when the verdict is not UNSAFE. *)
Theorem supervisor_raises
  (env : Env) (state : AgentState) (config : RunnableConfig)
  (tr : list Call) (e : PyExc) :
  run env (supervisor current_date DEFAULT_MODEL state config) = (tr, Raise e) ->
  tr <> [] ->
  later_turn state
  /\ ((exists model bound input, tr = [CallModel model bound input (Raise e)])
      \/ (exists model bound input response role msgs,
             tr = [CallModel model bound input (Ok response);
                   CallGuard role msgs (Raise e)])
      \/ (exists model bound input response role msgs safety_output,
             tr = [CallModel model bound input (Ok response);
                   CallGuard role msgs (Ok safety_output)]
             /\ safety_assessment safety_output <> UNSAFE
             /\ remaining_steps state = None
             /\ e = KeyError "remaining_steps")).
Proof.
  intros Hrun _.
  destruct (supervisor_run_cases env state config tr (Raise e) Hrun)
    as [(_ & _ & H)|(ms & m & Hms & Hlast & Hfr & Hcases)]; [discriminate|].
  split.
  { split; [|exact Hfr]. exists ms. split; [exact Hms|].
    intros ->. discriminate. }
  destruct Hcases as [(e' & -> & He)|[(response & e' & -> & He)
                                     |(response & out & -> & Hres)]].
  - injection He as ->. left. eauto.
  - injection He as ->. right; left. do 6 eexists. reflexivity.
  - right; right. do 7 eexists. split; [reflexivity|].
    unfold later_outcome in Hres.
    destruct (safety_assessment out) eqn:Hv; simpl in Hres; [|discriminate].
    split; [discriminate|].
    destruct (remaining_steps state) as [steps|]; simpl in Hres.
    + destruct ((steps <? 2)%Z && truthy_list (ai_tool_calls response));
        discriminate.
    + injection Hres as <-. now split.
Qed.

(** X3. What the supervisor shows the model and the classifier.  The model is
    called with the six tools bound, on one system message (the
    instructions of the persona that [determine_agent] has just answered,
    which the state dict now holds) followed by the history as it is.  The
    classifier is called in the role "Agent" on the history followed by the
    response the model gave, with no system message added.  There are at
    most two calls, the model's first. *)
Theorem supervisor_calls
  (env : Env) (state : AgentState) (config : RunnableConfig)
  (tr : list Call) (result : PyResult (AgentState * AgentState)) :
  run env (supervisor current_date DEFAULT_MODEL state config) = (tr, result) ->
  (List.length tr <= 2)%nat
  /\ (forall model bound input answer,
         In (CallModel model bound input answer) tr ->
         exists ms agent rest,
           messages state = Some ms
           /\ determine_agent state = Ok agent
           /\ model = model_name DEFAULT_MODEL config
           /\ bound = tools
           /\ input = SystemMessage (instructions_for current_date agent) :: ms
           /\ tr = CallModel model bound input answer :: rest
           /\ (forall local update, result = Ok (local, update) ->
                                    current_agent local = Some agent))
  /\ (forall role msgs answer,
         In (CallGuard role msgs answer) tr ->
         exists ms model bound input response,
           messages state = Some ms
           /\ role = "Agent"
           /\ msgs = (ms ++ [AIMessage response])%list
           /\ tr = [CallModel model bound input (Ok response);
                    CallGuard role msgs answer]).
Proof.
  intros Hrun.
  destruct (supervisor_run_cases env state config tr result Hrun)
    as [(_ & -> & _)|(ms & m & Hms & Hlast & Hfr & Hcases)].
  { split; [simpl; lia|]. split; intros; contradiction. }
  assert (Hagent : determine_agent state = Ok (classify (lower (content m))))
    by exact (determine_agent_last state ms m Hms Hlast).
  destruct Hcases as [(e' & -> & ->)|[(response & e' & -> & ->)
                                     |(response & out & -> & ->)]];
    (split; [simpl; lia|]); split.
  - intros model bound input answer [H|[]]. injection H as <- <- <- <-.
    exists ms, (classify (lower (content m))), [].
    repeat (split; [trivial|]). discriminate.
  - intros role msgs answer [H|[]]. discriminate.
  - intros model bound input answer [H|[H|[]]]; [|discriminate].
    injection H as <- <- <- <-.
    exists ms, (classify (lower (content m))). eexists.
    repeat (split; [trivial; reflexivity|]). discriminate.
  - intros role msgs answer [H|[H|[]]]; [discriminate|].
    injection H as <- <- <-. exists ms. do 4 eexists.
    repeat (split; [trivial; reflexivity|]). reflexivity.
  - intros model bound input answer [H|[H|[]]]; [|discriminate].
    injection H as <- <- <- <-.
    exists ms, (classify (lower (content m))). eexists.
    repeat (split; [trivial; reflexivity|]).
    intros local update H.
    destruct (later_outcome state response out); [|discriminate].
    now injection H as <- _.
  - intros role msgs answer [H|[H|[]]]; [discriminate|].
    injection H as <- <- <-. exists ms. do 4 eexists.
    repeat (split; [trivial; reflexivity|]). reflexivity.
Qed.

End SupervisorRuns.

(** ** The instructions of the personas *)

Lemma append_inj_l (a b c : string) : a ++ b = a ++ c -> b = c.
Proof.
  induction a as [|ch a IH]; simpl; intros H; [exact H|].
  injection H as H. exact (IH H).
Qed.

Lemma append_longer (a b : string) : a ++ b = a -> b = EmptyString.
Proof.
  intros H. apply (append_inj_l a). now rewrite append_empty_r.
Qed.

Section InstructionFacts.

Variable current_date : string.

(** X4. The lookup of [wrap_model]: each of the five persona keys gets the base
    instructions followed by a text of its own, two different keys get two
    different texts, and every other key gets the base instructions alone,
    which no persona key gets. *)
Theorem instructions_for_personas :
  (forall agent, In agent personas ->
     exists own, own <> EmptyString
       /\ instructions_for current_date agent
          = base_instructions current_date ++ own)
  /\ (forall a b, In a personas -> In b personas ->
        instructions_for current_date a = instructions_for current_date b ->
        a = b)
  /\ (forall agent, ~ In agent personas ->
        instructions_for current_date agent = base_instructions current_date)
  /\ (forall agent, In agent personas ->
        instructions_for current_date agent <> base_instructions current_date).
Proof.
  assert (Hown : forall agent, In agent personas ->
            exists own, own <> EmptyString
              /\ instructions_for current_date agent
                 = base_instructions current_date ++ own).
  { intros agent Hin. simpl in Hin.
    repeat (destruct Hin as [<-|Hin];
            [eexists; split; [|reflexivity]; discriminate|]).
    contradiction. }
  split; [exact Hown|]. split; [|split].
  - intros a b Ha Hb. simpl in Ha, Hb.
    repeat (destruct Ha as [<-|Ha]; [|]); try contradiction;
      repeat (destruct Hb as [<-|Hb]; [|]); try contradiction;
      trivial; intros H; apply append_inj_l in H; discriminate H.
  - intros agent Hnot. unfold instructions_for. cbn [dict_get].
    repeat match goal with
           | |- context [String.eqb ?k agent] =>
               destruct (String.eqb_spec k agent) as [<-|_];
               [exfalso; apply Hnot; simpl; tauto|]
           end.
    reflexivity.
  - intros agent Hin H. destruct (Hown agent Hin) as (own & Hne & Heq).
    rewrite Heq in H. apply append_longer in H. contradiction.
Qed.

End InstructionFacts.

Section UnusedPersonas.

Variable current_date : string.
Variable DEFAULT_MODEL : string.

(** X5. The supervisor gives the model the instructions of "emergency",
    "location" or "companion" only: the texts of "nearby_places" and
    "get_route", and the base instructions alone, are never what the model
    is called with. *)
Theorem supervisor_never_uses_tool_personas
  (env : Env) (state : AgentState) (config : RunnableConfig)
  (tr : list Call) (result : PyResult (AgentState * AgentState))
  (model : string) (bound : list string) (input : list Message)
  (answer : PyResult AIMsg) :
  run env (supervisor current_date DEFAULT_MODEL state config) = (tr, result) ->
  In (CallModel model bound input answer) tr ->
  exists agent ms,
    In agent [ "emergency"; "location"; "companion" ]
    /\ input = SystemMessage (instructions_for current_date agent) :: ms
    /\ instructions_for current_date agent
       <> nearby_places_agent_instructions current_date
    /\ instructions_for current_date agent
       <> get_route_agent_instructions current_date
    /\ instructions_for current_date agent <> base_instructions current_date.
Proof.
  intros Hrun Hin.
  destruct (supervisor_run_cases current_date DEFAULT_MODEL env state config
              tr result Hrun)
    as [(_ & -> & _)|(ms & m & Hms & Hlast & Hfr & Hcases)]; [contradiction|].
  exists (classify (lower (content m))), ms.
  assert (Hinput : input = SystemMessage
                             (instructions_for current_date
                                (classify (lower (content m)))) :: ms).
  { destruct Hcases as [(e' & -> & _)|[(response & e' & -> & _)
                                      |(response & out & -> & _)]];
      simpl in Hin;
      repeat (destruct Hin as [Hin|Hin];
              [first [discriminate Hin
                     | injection Hin as _ _ <- _; reflexivity]|]);
      contradiction. }
  split.
  { simpl. destruct (classify_cases (lower (content m))) as [-> | [-> | ->]]; tauto. }
  split; [exact Hinput|].
  destruct (classify_cases (lower (content m))) as [-> | [-> | ->]];
    repeat split; intros H;
    first [ apply append_inj_l in H; discriminate H
          | apply append_longer in H; discriminate H ].
Qed.

End UnusedPersonas.

(** ** Conversations along the graph *)

Section GraphRuns.

Variable current_date : string.
Variable DEFAULT_MODEL : string.
Variable config : RunnableConfig.

(** What a call of the supervisor that returns has returned. *)
Lemma supervisor_returns (env : Env) (state local update : AgentState)
  (tr : list Call) :
  run env (supervisor current_date DEFAULT_MODEL state config)
  = (tr, Ok (local, update)) ->
  (local = state /\ update = greeting_update
   /\ (no_history state \/ first_run state <> Some false))
  \/ (later_turn state
      /\ (exists agent, local = set_current_agent state agent)
      /\ exists m s,
          update = messages_update [AIMessage m] s
          /\ (s = None
              \/ exists out, s = Some out /\ safety_assessment out = UNSAFE
                             /\ ai_tool_calls m = [])
          /\ (ai_tool_calls m <> [] ->
              exists k, remaining_steps state = Some k /\ (2 <= k)%Z)).
Proof.
  intros Hrun.
  destruct (supervisor_run_cases current_date DEFAULT_MODEL env state config
              tr _ Hrun)
    as [(Hfirst & _ & H)|(ms & m & Hms & Hlast & Hfr & Hcases)].
  { injection H as <- <-. left. now repeat split. }
  right. split.
  { split; [|exact Hfr]. exists ms. split; [exact Hms|]. intros ->. discriminate. }
  destruct Hcases as [(e' & _ & H)|[(response & e' & _ & H)
                                   |(response & out & _ & H)]];
    try discriminate.
  unfold later_outcome in H.
  destruct (safety_assessment out) eqn:Hv; simpl in H.
  - destruct (remaining_steps state) as [k|] eqn:Hk; [|discriminate].
    destruct ((k <? 2)%Z && truthy_list (ai_tool_calls response)) eqn:Hc;
      injection H as Hl Hu; subst local update;
      (split; [eexists; reflexivity|]);
      eexists; eexists; (split; [reflexivity|]); (split; [now left|]).
    + intros Hcalls. now destruct Hcalls.
    + intros Hcalls. exists k. split; [reflexivity|].
      apply andb_false_iff in Hc. destruct Hc as [Hc|Hc].
      * now apply Z.ltb_ge.
      * destruct (ai_tool_calls response); [now destruct Hcalls | discriminate].
  - injection H as Hl Hu. subst local update. split; [eexists; reflexivity|].
    eexists; eexists. split; [reflexivity|]. split.
    + right. exists out. now repeat split.
    + intros Hcalls. now destruct Hcalls.
Qed.

(** What one step of the graph does to the state. *)
Lemma graph_step_inv (c c' : Node * AgentState) :
  graph_step current_date DEFAULT_MODEL config c c' ->
  exists added,
    messages (snd c') = Some (history (snd c) ++ added)%list
    /\ match fst c with
       | supervisor_node =>
           exists m, added = [AIMessage m]
             /\ fst c' = (if truthy_list (ai_tool_calls m) then tools_node else END)
             /\ ((first_run (snd c') = Some false /\ safety (snd c') = safety (snd c)
                  /\ (ai_tool_calls m <> [] ->
                      later_turn (snd c)
                      /\ exists k, remaining_steps (snd c) = Some k /\ (2 <= k)%Z))
                 \/ (first_run (snd c') = Some false /\ later_turn (snd c)
                     /\ ai_tool_calls m = []
                     /\ exists out, safety (snd c') = Some out
                                    /\ safety_assessment out = UNSAFE))
       | tools_node =>
           fst c' = supervisor_node
           /\ tool_results (pending_calls (snd c)) added
           /\ first_run (snd c') = first_run (snd c)
           /\ safety (snd c') = safety (snd c)
       | END =>
           fst c' = supervisor_node
           /\ (exists text, added = [HumanMessage text])
           /\ first_run (snd c') = first_run (snd c)
           /\ safety (snd c') = safety (snd c)
       end.
Proof.
  intros Hstep.
  destruct Hstep as
    [env state local update base state' tr steps route n Hrun Hbase -> Hroute Hn
    | state ms m results steps Hms Hlast Hres
    | state text steps]; cbn [fst snd].
  - assert (Hspec : exists m,
               messages update = Some [AIMessage m]
               /\ history base = history state
               /\ overwrite (first_run base) (first_run update) = Some false
               /\ ((overwrite (safety base) (safety update) = safety state
                    /\ (ai_tool_calls m <> [] ->
                        later_turn state
                        /\ exists k, remaining_steps state = Some k /\ (2 <= k)%Z))
                   \/ (later_turn state /\ ai_tool_calls m = []
                       /\ exists out,
                           overwrite (safety base) (safety update) = Some out
                           /\ safety_assessment out = UNSAFE))).
    { destruct (supervisor_returns env state local update tr Hrun)
        as [(-> & -> & _)|(Hlater & (agent & ->) & m & s & -> & Hs & Hcalls)].
      - exists {| ai_id := None; ai_content := greeting; ai_tool_calls := [] |}.
        assert (base = state) as -> by (destruct Hbase; assumption).
        split; [reflexivity|]. split; [reflexivity|]. split; [reflexivity|].
        left. split; [reflexivity|]. intros H. now destruct H.
      - exists m. split; [reflexivity|].
        assert (Hfr : first_run base = Some false).
        { destruct Hlater as [_ Hfr]. destruct Hbase as [-> | ->]; exact Hfr. }
        assert (Hsaf : safety base = safety state)
          by (destruct Hbase as [-> | ->]; reflexivity).
        split; [destruct Hbase as [-> | ->]; reflexivity|].
        split; [exact Hfr|].
        destruct Hs as [->|(out & -> & Hv & Hnil)].
        + left. split; [exact Hsaf|].
          intros H. split; [exact Hlater | exact (Hcalls H)].
        + right. split; [exact Hlater|]. split; [exact Hnil|]. now exists out. }
    destruct Hspec as (m & Hupd & Hhist & Hfr & Hs).
    exists [AIMessage m]. simpl.
    assert (Hmsgs : add_messages (messages base) (messages update)
                    = Some (history state ++ [AIMessage m])%list).
    { rewrite Hupd, <- Hhist. unfold add_messages, history.
      now destruct (messages base). }
    split; [exact Hmsgs|]. exists m. split; [reflexivity|].
    split.
    + unfold route_next, get_messages in Hroute. simpl in Hroute.
      rewrite Hmsgs, py_last_app in Hroute.
      destruct (truthy_list (ai_tool_calls m)); injection Hroute as <-;
        now injection Hn as <-.
    + destruct Hs as [[Hsaf Hcalls]|(Hlater & Hnil & out & Hsaf & Hv)].
      * left. split; [exact Hfr|]. split; [exact Hsaf | exact Hcalls].
      * right. split; [exact Hfr|]. split; [exact Hlater|].
        split; [exact Hnil|]. now exists out.
  - exists results. simpl. unfold history, pending_calls, history.
    rewrite Hms, Hlast. now repeat split.
  - exists [HumanMessage text]. simpl. unfold history, add_messages.
    split; [now destruct (messages state)|]. repeat split. now exists text.
Qed.

(** X7. What the supervisor returns never sends the graph back to the
    supervisor.  Its update holds one message, an assistant message, so on
    every history that ends with it the conditional edge answers "tools"
    when the message asks for tools and "done" when it asks for none, which
    the path map takes to the tool node and to the end of the turn.  A
    returned message asks for tools only on a later turn with at least two
    steps left, and no assessment is returned with it. *)
Theorem supervisor_message_target (env : Env) (state local update : AgentState)
  (tr : list Call) :
  run env (supervisor current_date DEFAULT_MODEL state config)
  = (tr, Ok (local, update)) ->
  exists m,
    messages update = Some [AIMessage m]
    /\ (forall state' history,
           messages state' = Some history ->
           py_last history = Some (AIMessage m) ->
           route_next state'
           = Ok (if truthy_list (ai_tool_calls m) then "tools" else "done")
           /\ route_next state' <> Ok "supervisor")
    /\ next_node "tools" = Some tools_node
    /\ next_node "done" = Some END
    /\ (ai_tool_calls m <> [] ->
        later_turn state
        /\ (exists k, remaining_steps state = Some k /\ (2 <= k)%Z)
        /\ safety update = None).
Proof.
  intros Hrun.
  assert (Hroute : forall m state' history,
             messages state' = Some history ->
             py_last history = Some (AIMessage m) ->
             route_next state'
             = Ok (if truthy_list (ai_tool_calls m) then "tools" else "done")
             /\ route_next state' <> Ok "supervisor").
  { intros m state' history Hhist Hend.
    unfold route_next, get_messages. rewrite Hhist, Hend.
    destruct (truthy_list (ai_tool_calls m)); split;
      [reflexivity | discriminate | reflexivity | discriminate]. }
  destruct (supervisor_returns env state local update tr Hrun)
    as [(-> & -> & _)|(Hlater & _ & m & s & -> & Hs & Hcalls)].
  - exists {| ai_id := None; ai_content := greeting; ai_tool_calls := [] |}.
    split; [reflexivity|]. split; [apply Hroute|].
    split; [reflexivity|]. split; [reflexivity|].
    intros H. now destruct H.
  - exists m. split; [reflexivity|]. split; [apply Hroute|].
    split; [reflexivity|]. split; [reflexivity|].
    intros H. split; [exact Hlater|]. split; [exact (Hcalls H)|].
    destruct Hs as [->|(out & _ & _ & Hnil)]; [reflexivity | now destruct H].
Qed.

(** X9. The [safety] key.  The supervisor writes it only with an UNSAFE
    assessment, so a state never holds a SAFE one; and no step removes or
    resets what is there: after a flagged turn the assessment stays in the
    state through the turns that follow, until a later one is flagged. *)
Theorem safety_key_kept :
  (forall c, reachable current_date DEFAULT_MODEL config c ->
             safety_is_unsafe (snd c))
  /\ (forall c c',
         graph_step current_date DEFAULT_MODEL config c c' ->
         safety (snd c') = safety (snd c)
         \/ (fst c = supervisor_node
             /\ exists out, safety (snd c') = Some out
                            /\ safety_assessment out = UNSAFE))
  /\ (forall c c',
         graph_step current_date DEFAULT_MODEL config c c' ->
         safety (snd c) <> None -> safety (snd c') <> None).
Proof.
  assert (Hstep : forall c c',
             graph_step current_date DEFAULT_MODEL config c c' ->
             safety (snd c') = safety (snd c)
             \/ (fst c = supervisor_node
                 /\ exists out, safety (snd c') = Some out
                                /\ safety_assessment out = UNSAFE)).
  { intros c c' H.
    destruct (graph_step_inv c c' H) as (added & _ & Hkind).
    destruct (fst c).
    - destruct Hkind as (m & _ & _ & [(_ & Hs & _)|(_ & _ & _ & Hs)]);
        [now left | right; now split].
    - left. now destruct Hkind as (_ & _ & _ & Hs).
    - left. now destruct Hkind as (_ & _ & _ & Hs). }
  split; [|split; [exact Hstep|]].
  - intros c Hreach. induction Hreach as [|c c' Hreach IH H]; [exact I|].
    unfold safety_is_unsafe in *.
    destruct (Hstep c c' H) as [-> |(_ & out & -> & Hv)]; trivial.
  - intros c c' H Hsome.
    destruct (Hstep c c' H) as [-> |(_ & out & -> & _)]; [exact Hsome | discriminate].
Qed.

End GraphRuns.

(** ** The flagged-content message and the classifier of personas *)

Lemma join_in (sep label : string) (labels : list string) :
  In label labels -> Substring label (join sep labels).
Proof.
  unfold join. induction labels as [|x xs IH]; [contradiction|].
  intros [->|Hin].
  - destruct xs as [|y ys]; cbn [String.concat].
    + exists EmptyString, EmptyString. now rewrite append_empty_r.
    + now exists EmptyString, (sep ++ String.concat sep (y :: ys)).
  - destruct (IH Hin) as (pre & post & Heq).
    destruct xs as [|y ys]; [contradiction|].
    change (String.concat sep (x :: y :: ys))
      with (x ++ sep ++ String.concat sep (y :: ys)).
    rewrite Heq.
    exists (x ++ sep ++ pre), post. now rewrite !append_assoc.
Qed.

(** X10. The flagged-content message names every label of the assessment: each
    one occurs in its content, after the fixed prefix; with no label the
    content is the prefix alone.  The message has no id and asks for no
    tool. *)
Theorem format_safety_message_labels (safety_output : LlamaGuardOutput) :
  (forall label, In label (unsafe_categories safety_output) ->
     exists rest,
       content (format_safety_message safety_output)
       = "This conversation was flagged for unsafe content: " ++ rest
       /\ Substring label rest)
  /\ (unsafe_categories safety_output = [] ->
      content (format_safety_message safety_output)
      = "This conversation was flagged for unsafe content: ")
  /\ (forall label, unsafe_categories safety_output = [label] ->
      content (format_safety_message safety_output)
      = "This conversation was flagged for unsafe content: " ++ label)
  /\ exists m, format_safety_message safety_output = AIMessage m
              /\ ai_id m = None /\ ai_tool_calls m = [].
Proof.
  split; [|split; [|split]].
  - intros label Hin. eexists. split; [reflexivity|]. now apply join_in.
  - intros H. simpl. now rewrite H.
  - intros label H. simpl. now rewrite H.
  - eexists. now repeat split.
Qed.

(** X11. The outcomes of [determine_agent]: [KeyError] without the [messages]
    key, [IndexError] on an empty history, [AttributeError] when the content
    of the last message is a list of blocks, which has no [lower], and on a
    text one of the three personas, which depends on the lowered text of the
    last message and on nothing else: not on the messages before it, and not
    on what [str.lower] does elsewhere. *)
Theorem determine_agent_outcomes (py_lower : string -> string) :
  determine_agent_on py_lower None = Raise (KeyError "messages")
  /\ determine_agent_on py_lower (Some [])
     = Raise (IndexError "list index out of range")
  /\ (forall contents blocks,
         py_last contents = Some (BlockContent blocks) ->
         determine_agent_on py_lower (Some contents)
         = Raise (OtherError "'list' object has no attribute 'lower'"))
  /\ (forall contents text,
         py_last contents = Some (TextContent text) ->
         exists agent,
           determine_agent_on py_lower (Some contents) = Ok agent
           /\ In agent [ "emergency"; "location"; "companion" ])
  /\ (forall py_lower' contents1 contents2 text1 text2,
         py_last contents1 = Some (TextContent text1) ->
         py_last contents2 = Some (TextContent text2) ->
         py_lower text1 = py_lower' text2 ->
         determine_agent_on py_lower (Some contents1)
         = determine_agent_on py_lower' (Some contents2)).
Proof.
  split; [reflexivity|]. split; [reflexivity|]. split; [|split].
  - intros contents blocks Hlast. unfold determine_agent_on. now rewrite Hlast.
  - intros contents text Hlast. unfold determine_agent_on. rewrite Hlast.
    cbv zeta.
    destruct (any_keyword_in emergency_keywords (py_lower text));
      [eexists; split; [reflexivity | simpl; tauto]|].
    destruct (any_keyword_in location_keywords (py_lower text));
      eexists; (split; [reflexivity | simpl; tauto]).
  - intros py_lower' contents1 contents2 text1 text2 H1 H2 Heq.
    unfold determine_agent_on. now rewrite H1, H2, Heq.
Qed.

(** ** The calculator tool, further *)

Lemma lstrip_all_space (s : string) : all_space s = true -> lstrip s = EmptyString.
Proof.
  induction s as [|c s IH]; [reflexivity|]. simpl.
  destruct (isspace c); [exact IH | discriminate].
Qed.

Lemma lstrip_app_space (pre s : string) :
  all_space pre = true -> lstrip (pre ++ s) = lstrip s.
Proof.
  induction pre as [|c pre IH]; [reflexivity|]. simpl.
  destruct (isspace c); [exact IH | discriminate].
Qed.

Lemma lstrip_app (s post : string) :
  lstrip (s ++ post) = if all_space s then lstrip post else lstrip s ++ post.
Proof.
  induction s as [|c s IH]; [reflexivity|]. simpl.
  destruct (isspace c); [exact IH | reflexivity].
Qed.

Lemma rstrip_all_space (s : string) : all_space s = true -> rstrip s = EmptyString.
Proof.
  induction s as [|c s IH]; [reflexivity|]. simpl.
  destruct (isspace c); [|discriminate]. intros H. now rewrite (IH H).
Qed.

Lemma rstrip_app_space (s post : string) :
  all_space post = true -> rstrip (s ++ post) = rstrip s.
Proof.
  intros H. induction s as [|c s IH]; simpl.
  - now apply rstrip_all_space.
  - now rewrite IH.
Qed.

(** White space around the expression does not count. *)
Lemma strip_padding (pre s post : string) :
  all_space pre = true -> all_space post = true ->
  strip (pre ++ s ++ post) = strip s.
Proof.
  intros Hpre Hpost. unfold strip.
  rewrite (lstrip_app_space pre _ Hpre), lstrip_app.
  destruct (all_space s) eqn:Hs.
  - rewrite (lstrip_all_space post Hpost), (lstrip_all_space s Hs). reflexivity.
  - now apply rstrip_app_space.
Qed.

Lemma append_not_empty (body tail : string) :
  tail <> EmptyString -> String.eqb (body ++ tail) EmptyString = false.
Proof.
  intros H. destruct body; simpl; [|reflexivity].
  destruct tail; [now destruct H | reflexivity].
Qed.

Lemma drop_closing_bracket_app (body : string) :
  drop_closing_bracket (body ++ "]") = body.
Proof.
  induction body as [|c body IH]; [reflexivity|].
  cbn [append drop_closing_bracket]. rewrite IH.
  rewrite append_not_empty by discriminate.
  assert (Hnl : String.eqb (body ++ "]") newline = false).
  { destruct body as [|d body]; [reflexivity|]. cbn [append].
    unfold newline. cbn [String.eqb].
    destruct (Ascii.eqb d (ascii_of_nat 10)); [|reflexivity].
    now apply append_not_empty. }
  rewrite Hnl. now rewrite andb_false_r.
Qed.

Section CalculatorMore.

Variable ndarray : Type.
Variable str_of_ndarray : ndarray -> string.
Variable float : Type.
Variable math_pi math_e : float.
Variable numexpr_evaluate :
  string -> list (string * float) -> list (string * float) -> string + ndarray.

(** X12. [calculator_func] evaluates the expression without the white space
    around it: padding an expression changes neither whether it evaluates nor
    the string returned.  (The padding shows only in the text of the error,
    which quotes the expression as given.) *)
Theorem calculator_func_ignores_padding (pre expression post : string) :
  all_space pre = true ->
  all_space post = true ->
  (forall out,
      calculator_func ndarray str_of_ndarray float math_pi math_e
        numexpr_evaluate (pre ++ expression ++ post) = Ok out
      <-> calculator_func ndarray str_of_ndarray float math_pi math_e
            numexpr_evaluate expression = Ok out)
  /\ ((exists e,
          calculator_func ndarray str_of_ndarray float math_pi math_e
            numexpr_evaluate (pre ++ expression ++ post) = Raise e)
      <-> (exists e,
              calculator_func ndarray str_of_ndarray float math_pi math_e
                numexpr_evaluate expression = Raise e)).
Proof.
  intros Hpre Hpost. unfold calculator_func.
  rewrite (strip_padding pre expression post Hpre Hpost).
  destruct (numexpr_evaluate (strip expression) _ _) as [e|value].
  - split; [split; discriminate|]. split; intros _; eexists; reflexivity.
  - split; [reflexivity|]. split; intros [e H]; discriminate.
Qed.

(** X13. An array result is returned without the brackets around it: when [str]
    of the result is a text between an opening and a closing bracket, the
    calculator returns that text, whatever it holds (the brackets of inner
    rows stay). *)
Theorem calculator_func_unwraps_array (expression : string) (value : ndarray)
  (body : string) :
  numexpr_evaluate (strip expression) [] [ ("pi", math_pi); ("e", math_e) ]
  = inr value ->
  str_of_ndarray value = "[" ++ body ++ "]" ->
  calculator_func ndarray str_of_ndarray float math_pi math_e numexpr_evaluate
    expression
  = Ok body.
Proof.
  intros Heval Hstr. unfold calculator_func. rewrite Heval, Hstr.
  cbn [append re_sub_brackets]. simpl Ascii.eqb.
  now rewrite drop_closing_bracket_app.
Qed.

End CalculatorMore.

(** * The tools that call a server *)

(** ** Running a tool *)

Lemma run_io_bind {A B : Type} (server : Server) (p : io A) (f : A -> io B) :
  forall n,
    run_io server n (io_bind p f)
    = match run_io server n p with
      | (tr, Ok a) =>
          let (tr', out) := run_io server (n + List.length tr) (f a) in
          ((tr ++ tr')%list, out)
      | (tr, Raise e) => (tr, Raise e)
      end.
Proof.
  induction p as [a|e|req k IH]; intros n; simpl.
  - rewrite Nat.add_0_r. now destruct (run_io server n (f a)).
  - reflexivity.
  - rewrite IH. destruct (run_io server (S n) (k (server n req))) as [tr [a|e]].
    + simpl. rewrite <- plus_n_Sm.
      now destruct (run_io server (S (n + List.length tr)) (f a)).
    + reflexivity.
Qed.

(** The [except] clause of the tools changes what is raised and nothing
    else: the requests sent are the same, and so is a value returned. *)
Lemma run_io_try_except {A : Type} (server : Server) (p : io A) (prefix : string) :
  forall n,
    run_io server n
      (try_except p (fun e => IoRaise (ValueError (prefix ++ exc_str e))))
    = (fst (run_io server n p), wrapped prefix (snd (run_io server n p))).
Proof.
  induction p as [a|e|req k IH]; intros n; simpl; try reflexivity.
  rewrite IH. now destruct (run_io server (S n) (k (server n req))).
Qed.

Lemma run_io_lift {A : Type} (server : Server) (n : nat) (r : PyResult A) :
  run_io server n (io_lift r) = ([], r).
Proof. now destruct r. Qed.

Lemma run_io_request_json (server : Server) (n : nat) (req : Request) :
  run_io server n (request_json req)
  = ([(req, server n req)], answer_json (server n req)).
Proof.
  unfold request_json, request, answer_json. simpl.
  destruct (server n req) as [response|e]; simpl; [|reflexivity].
  now destruct (json response).
Qed.

(** ** Splitting at a separator *)

Lemma split_char_not_nil (sep : ascii) (s : string) : split_char sep s <> [].
Proof.
  destruct s as [|c s]; cbn [split_char]; [discriminate|].
  destruct (Ascii.eqb c sep); [discriminate|].
  destruct (split_char sep s); discriminate.
Qed.

Lemma concat_cons (sep x : string) (l : list string) :
  l <> [] -> String.concat sep (x :: l) = x ++ sep ++ String.concat sep l.
Proof. destruct l; [now intros H | reflexivity]. Qed.

Lemma concat_head (sep : string) (c : ascii) (x : string) (l : list string) :
  String.concat sep (String c x :: l) = String c (String.concat sep (x :: l)).
Proof. destruct l; reflexivity. Qed.

(** Joining the parts with the separator gives the text back. *)
Lemma split_char_join (sep : ascii) (s : string) :
  String.concat (String sep EmptyString) (split_char sep s) = s.
Proof.
  induction s as [|c s IH]; [reflexivity|]. cbn [split_char].
  pose proof (split_char_not_nil sep s) as Hne.
  destruct (Ascii.eqb_spec c sep) as [->|_].
  - rewrite (concat_cons _ _ _ Hne), IH. reflexivity.
  - destruct (split_char sep s) as [|part parts]; [now destruct Hne|].
    now rewrite concat_head, IH.
Qed.

(** No part holds the separator. *)
Lemma split_char_parts (sep : ascii) (s : string) :
  Forall (fun part => str_in (String sep EmptyString) part = false)
    (split_char sep s).
Proof.
  induction s as [|c s IH]; cbn [split_char].
  - constructor; [reflexivity | constructor].
  - pose proof (split_char_not_nil sep s) as Hne.
    destruct (Ascii.eqb c sep) eqn:Hc.
    + constructor; [reflexivity | exact IH].
    + destruct (split_char sep s) as [|part parts]; [now destruct Hne|].
      apply Forall_cons_iff in IH. destruct IH as [Hpart Hparts].
      constructor; [|exact Hparts].
      rewrite str_in_char, (Ascii.eqb_sym sep c), Hc. exact Hpart.
Qed.

Section ToolRuns.

Variable rt : PyRuntime.

Lemma run_io_geocode (server : Server) (n : nat) (address : string) :
  run_io server n (geocode rt address)
  = ([(post rt (geocode_url rt) (JObj [ ("address", JStr address) ]),
       server n (post rt (geocode_url rt) (JObj [ ("address", JStr address) ])))],
     geocode_result rt
       (server n (post rt (geocode_url rt) (JObj [ ("address", JStr address) ])))).
Proof.
  unfold geocode, geocode_result.
  rewrite run_io_bind, run_io_request_json. unfold answer_json.
  destruct (server n _) as [response|e]; simpl; [|reflexivity].
  destruct (json response) as [response_json|e]; simpl; [|reflexivity].
  destruct (py_get rt response_json "latitude" _) as [latitude|e]; simpl;
    [|reflexivity].
  now destruct (py_get rt response_json "longitude" _).
Qed.

Ltac run_step :=
  repeat first
    [ rewrite run_io_bind
    | rewrite run_io_geocode
    | rewrite run_io_request_json
    | rewrite run_io_lift
    | rewrite run_io_try_except ].

(** [get_nearby_safe_places], run: two requests, and whatever goes wrong is
    raised as it is. *)
Lemma run_get_nearby_safe_places (server : Server) (location : string) :
  let a1 := server 0%nat (geocode_request rt location) in
  run_io server 0 (get_nearby_safe_places rt location)
  = match geocode_result rt a1 with
    | Raise e => ([(geocode_request rt location, a1)], Raise e)
    | Ok coordinates =>
        let a2 := server 1%nat (nearby_request rt location coordinates) in
        ([(geocode_request rt location, a1);
          (nearby_request rt location coordinates, a2)],
         response_json <-? answer_json a2 ;;
         py_item rt response_json "predictions")
    end.
Proof.
  cbv zeta. unfold get_nearby_safe_places, geocode_request. run_step.
  destruct (geocode_result rt _) as [[latitude longitude]|e]; [|reflexivity].
  cbn [List.length Nat.add]. run_step. unfold nearby_request. cbn [fst snd].
  destruct (answer_json _) as [response_json|e]; [|reflexivity].
  cbn [List.length Nat.add app result_bind]. run_step.
  destruct (py_item rt response_json "predictions"); reflexivity.
Qed.

(** [send_sos_alert], run. *)
Lemma run_send_sos_alert (server : Server) (location custom_message : string) :
  let a1 := server 0%nat (geocode_request rt location) in
  run_io server 0 (send_sos_alert rt location custom_message)
  = match geocode_result rt a1 with
    | Raise e =>
        ([(geocode_request rt location, a1)],
         Raise (ValueError ("Error sending SOS alert: " ++ exc_str e)))
    | Ok coordinates =>
        let a2 := server 1%nat (sos_request rt location custom_message coordinates) in
        ([(geocode_request rt location, a1);
          (sos_request rt location custom_message coordinates, a2)],
         wrapped "Error sending SOS alert: "
           (response_json <-? answer_json a2 ;;
            py_get rt response_json "message" (JStr EmptyString)))
    end.
Proof.
  cbv zeta. unfold send_sos_alert, geocode_request. run_step.
  destruct (geocode_result rt _) as [[latitude longitude]|e]; [|reflexivity].
  cbn [List.length Nat.add]. run_step. unfold sos_request. cbn [fst snd].
  destruct (answer_json _) as [response_json|e]; [|reflexivity].
  cbn [List.length Nat.add app result_bind fst snd]. run_step.
  destruct (py_get rt response_json "message" _); reflexivity.
Qed.

(** [get_route], run. *)
Lemma run_get_route (server : Server) (start destination : string) :
  let a1 := server 0%nat (geocode_request rt start) in
  let a2 := server 1%nat (geocode_request rt destination) in
  run_io server 0 (get_route rt start destination)
  = match geocode_result rt a1 with
    | Raise e =>
        ([(geocode_request rt start, a1)],
         Raise (ValueError ("Error getting route: " ++ exc_str e)))
    | Ok start_coordinates =>
        match geocode_result rt a2 with
        | Raise e =>
            ([(geocode_request rt start, a1);
              (geocode_request rt destination, a2)],
             Raise (ValueError ("Error getting route: " ++ exc_str e)))
        | Ok destination_coordinates =>
            let req3 := route_request rt start destination start_coordinates
                          destination_coordinates in
            let a3 := server 2%nat req3 in
            match route_steps_of rt a3 with
            | Raise e =>
                ([(geocode_request rt start, a1);
                  (geocode_request rt destination, a2);
                  (req3, a3)],
                 Raise (ValueError ("Error getting route: " ++ exc_str e)))
            | Ok route_steps =>
                let a4 := server 3%nat (route_safety_request rt route_steps) in
                ([(geocode_request rt start, a1);
                  (geocode_request rt destination, a2);
                  (req3, a3);
                  (route_safety_request rt route_steps, a4)],
                 wrapped "Error getting route: "
                   (response_json <-? answer_json a4 ;;
                    safety_tips <-?
                      py_get rt response_json "safety_tips" (JStr EmptyString) ;;
                    Ok (JObj [ ("route_steps", JList route_steps);
                               ("safety_tips", safety_tips) ])))
            end
        end
    end.
Proof.
  cbv zeta. unfold get_route, geocode_request. run_step.
  destruct (geocode_result rt _) as [[lat1 lon1]|e]; [|reflexivity].
  cbn [List.length Nat.add]. run_step.
  destruct (geocode_result rt _) as [[lat2 lon2]|e]; [|reflexivity].
  cbn [List.length Nat.add app]. run_step.
  unfold route_request, route_steps_of. cbn [fst snd].
  destruct (answer_json _) as [response_json|e]; [|reflexivity].
  cbn [List.length Nat.add app result_bind fst snd]. run_step.
  destruct (py_item rt response_json "routes") as [routes|e]; [|reflexivity].
  cbn [List.length Nat.add app result_bind fst snd]. run_step.
  destruct (py_first rt routes) as [route0|e]; [|reflexivity].
  cbn [List.length Nat.add app result_bind fst snd]. run_step.
  destruct (py_get rt route0 "legs" _) as [legs|e]; [|reflexivity].
  cbn [List.length Nat.add app result_bind fst snd]. run_step.
  destruct (py_iter rt legs) as [legs_items|e]; [|reflexivity].
  cbn [List.length Nat.add app result_bind fst snd]. run_step.
  destruct (legs_loop rt legs_items) as [route_steps|e]; [|reflexivity].
  cbn [List.length Nat.add app result_bind fst snd]. run_step.
  unfold route_safety_request.
  destruct (answer_json _) as [response_json'|e]; [|reflexivity].
  cbn [List.length Nat.add app result_bind fst snd]. run_step.
  destruct (py_get rt response_json' "safety_tips" _); reflexivity.
Qed.

(** ** What the tools raise *)

(** The three tools written with [try] are their [try] blocks under their
    [except] clauses. *)
Lemma tools_try_except :
  get_current_location rt
  = try_except (get_current_location_body rt)
      (fun e => IoRaise (ValueError ("Error getting current location: "
                                     ++ exc_str e)))
  /\ (forall start destination,
        get_route rt start destination
        = try_except (get_route_body rt start destination)
            (fun e => IoRaise (ValueError ("Error getting route: " ++ exc_str e))))
  /\ (forall location custom_message,
        send_sos_alert rt location custom_message
        = try_except (send_sos_alert_body rt location custom_message)
            (fun e => IoRaise (ValueError ("Error sending SOS alert: "
                                           ++ exc_str e)))).
Proof. split; [|split]; reflexivity. Qed.

(** X14. The three tools written with [try] send the requests of their [try]
    block and return what it returns; when the block raises, whatever the
    exception, the tool raises a [ValueError] whose text is the tool's own
    prefix followed by [str] of that very exception.  So they raise nothing
    but such a [ValueError]. *)
Theorem tools_raise_value_error (server : Server) :
  (fst (run_io server 0 (get_current_location rt))
   = fst (run_io server 0 (get_current_location_body rt))
   /\ (forall v,
         snd (run_io server 0 (get_current_location_body rt)) = Ok v ->
         snd (run_io server 0 (get_current_location rt)) = Ok v)
   /\ (forall cause,
         snd (run_io server 0 (get_current_location_body rt)) = Raise cause ->
         snd (run_io server 0 (get_current_location rt))
         = Raise (ValueError ("Error getting current location: "
                              ++ exc_str cause)))
   /\ (forall e,
         snd (run_io server 0 (get_current_location rt)) = Raise e ->
         exists cause,
           snd (run_io server 0 (get_current_location_body rt)) = Raise cause
           /\ e = ValueError ("Error getting current location: "
                              ++ exc_str cause)))
  /\ (forall start destination,
        fst (run_io server 0 (get_route rt start destination))
        = fst (run_io server 0 (get_route_body rt start destination))
        /\ (forall v,
              snd (run_io server 0 (get_route_body rt start destination)) = Ok v ->
              snd (run_io server 0 (get_route rt start destination)) = Ok v)
        /\ (forall cause,
              snd (run_io server 0 (get_route_body rt start destination))
              = Raise cause ->
              snd (run_io server 0 (get_route rt start destination))
              = Raise (ValueError ("Error getting route: " ++ exc_str cause)))
        /\ (forall e,
              snd (run_io server 0 (get_route rt start destination)) = Raise e ->
              exists cause,
                snd (run_io server 0 (get_route_body rt start destination))
                = Raise cause
                /\ e = ValueError ("Error getting route: " ++ exc_str cause)))
  /\ (forall location custom_message,
        fst (run_io server 0 (send_sos_alert rt location custom_message))
        = fst (run_io server 0 (send_sos_alert_body rt location custom_message))
        /\ (forall v,
              snd (run_io server 0 (send_sos_alert_body rt location custom_message))
              = Ok v ->
              snd (run_io server 0 (send_sos_alert rt location custom_message))
              = Ok v)
        /\ (forall cause,
              snd (run_io server 0 (send_sos_alert_body rt location custom_message))
              = Raise cause ->
              snd (run_io server 0 (send_sos_alert rt location custom_message))
              = Raise (ValueError ("Error sending SOS alert: " ++ exc_str cause)))
        /\ (forall e,
              snd (run_io server 0 (send_sos_alert rt location custom_message))
              = Raise e ->
              exists cause,
                snd (run_io server 0
                       (send_sos_alert_body rt location custom_message))
                = Raise cause
                /\ e = ValueError ("Error sending SOS alert: " ++ exc_str cause))).
Proof.
  assert (H : forall (A : Type) (p : io A) prefix,
             fst (run_io server 0
                    (try_except p
                       (fun x => IoRaise (ValueError (prefix ++ exc_str x)))))
             = fst (run_io server 0 p)
             /\ (forall v,
                   snd (run_io server 0 p) = Ok v ->
                   snd (run_io server 0
                          (try_except p
                             (fun x => IoRaise (ValueError (prefix ++ exc_str x)))))
                   = Ok v)
             /\ (forall cause,
                   snd (run_io server 0 p) = Raise cause ->
                   snd (run_io server 0
                          (try_except p
                             (fun x => IoRaise (ValueError (prefix ++ exc_str x)))))
                   = Raise (ValueError (prefix ++ exc_str cause)))
             /\ (forall e,
                   snd (run_io server 0
                          (try_except p
                             (fun x => IoRaise (ValueError (prefix ++ exc_str x)))))
                   = Raise e ->
                   exists cause,
                     snd (run_io server 0 p) = Raise cause
                     /\ e = ValueError (prefix ++ exc_str cause))).
  { intros A p prefix. rewrite run_io_try_except. cbn [fst snd].
    split; [reflexivity|].
    destruct (snd (run_io server 0 p)) as [a|cause]; simpl.
    - split; [trivial|]. split; discriminate.
    - split; [discriminate|]. split.
      + intros cause' Hc. now injection Hc as ->.
      + intros e He. injection He as <-. now exists cause. }
  destruct tools_try_except as (Hloc & Hroute & Hsos).
  split; [|split].
  - rewrite Hloc. apply H.
  - intros start destination. rewrite Hroute. apply H.
  - intros location custom_message. rewrite Hsos. apply H.
Qed.

(** X15. [get_nearby_safe_places] has no [try]: what goes wrong is raised as it
    is.  An exception of the first request or of its answer comes out
    unchanged and the second request is not sent; an answer of the second
    request without the key [predictions] is a [KeyError], not a
    [ValueError]; and with that key its value is returned, whatever the
    status codes. *)
Theorem get_nearby_safe_places_runs (server : Server) (location : string)
  (tr : list (Request * PyResult Response)) (result : PyResult Json) :
  run_io server 0 (get_nearby_safe_places rt location) = (tr, result) ->
  (forall e,
      geocode_result rt (server 0%nat (geocode_request rt location)) = Raise e ->
      tr = [(geocode_request rt location,
             server 0%nat (geocode_request rt location))]
      /\ result = Raise e)
  /\ (forall coordinates,
        geocode_result rt (server 0%nat (geocode_request rt location))
        = Ok coordinates ->
        tr = [(geocode_request rt location,
               server 0%nat (geocode_request rt location));
              (nearby_request rt location coordinates,
               server 1%nat (nearby_request rt location coordinates))]
        /\ (forall e,
               server 1%nat (nearby_request rt location coordinates) = Raise e ->
               result = Raise e)
        /\ (forall status fields,
               server 1%nat (nearby_request rt location coordinates)
               = Ok {| status_code := status; json := Ok (JObj fields) |} ->
               result = match dict_get fields "predictions" with
                        | Some places => Ok places
                        | None => Raise (KeyError "predictions")
                        end)).
Proof.
  intros Hrun. rewrite run_get_nearby_safe_places in Hrun. cbv zeta in Hrun.
  split.
  - intros e He. rewrite He in Hrun. injection Hrun as <- <-. now split.
  - intros coordinates Hc. rewrite Hc in Hrun. injection Hrun as <- <-.
    split; [reflexivity|]. split.
    + intros e ->. reflexivity.
    + intros status fields ->. reflexivity.
Qed.

(** ** The SOS alert *)

(** X16. The alert depends on the geocoder: when the request for the coordinates
    raises, when its answer is not JSON, or when that JSON is not a dict, the
    alert is never sent; the tool has made one request and raises. *)
Theorem send_sos_alert_needs_geocode (server : Server)
  (location custom_message : string) (e : PyExc) :
  geocode_result rt (server 0%nat (geocode_request rt location)) = Raise e ->
  run_io server 0 (send_sos_alert rt location custom_message)
  = ([(geocode_request rt location, server 0%nat (geocode_request rt location))],
     Raise (ValueError ("Error sending SOS alert: " ++ exc_str e))).
Proof.
  intros He. rewrite run_send_sos_alert. cbv zeta. now rewrite He.
Qed.

(** X17. When the geocoder answers with a dict, whatever its status code and its
    keys, the alert is sent: a POST to the alert path that carries the fixed
    user id, the time, the message, the address as given and the coordinates
    of the answer, the empty string standing for a missing one.  When the
    alert service answers with a dict, whatever its status code, the tool
    returns the [message] of the answer, or the empty string when there is
    none: it does not raise. *)
Theorem send_sos_alert_sent (server : Server) (location custom_message : string)
  (status1 status2 : Z) (found reply : list (string * Json)) :
  let coordinates :=
    (field_or_empty found "latitude", field_or_empty found "longitude") in
  server 0%nat (geocode_request rt location)
  = Ok {| status_code := status1; json := Ok (JObj found) |} ->
  server 1%nat (sos_request rt location custom_message coordinates)
  = Ok {| status_code := status2; json := Ok (JObj reply) |} ->
  run_io server 0 (send_sos_alert rt location custom_message)
  = ([(geocode_request rt location,
       Ok {| status_code := status1; json := Ok (JObj found) |});
      (sos_request rt location custom_message coordinates,
       Ok {| status_code := status2; json := Ok (JObj reply) |})],
     Ok (field_or_empty reply "message"))
  /\ is_backend_post rt (sos_request rt location custom_message coordinates)
       "/api/sos/send-alert"
  /\ req_data (sos_request rt location custom_message coordinates)
     = Some
         (json_dumps rt
            (JObj [ ("user_id", JStr "67de72427e1f7f041d589ba7");
                    ("timestamp", JStr (now_isoformat rt));
                    ("location",
                     JObj [ ("latitude", field_or_empty found "latitude");
                            ("longitude", field_or_empty found "longitude");
                            ("address", JStr location) ]);
                    ("message", JStr custom_message) ])).
Proof.
  intros coordinates H1 H2. split; [|split].
  - rewrite run_send_sos_alert. cbv zeta. rewrite H1.
    unfold geocode_result. cbn [result_bind json py_get].
    fold (field_or_empty found "latitude") (field_or_empty found "longitude").
    fold coordinates. rewrite H2. reflexivity.
  - unfold is_backend_post, sos_request, post, sos_url. cbn.
    repeat split. eexists. reflexivity.
  - reflexivity.
Qed.

(** ** The route *)

Lemma steps_loop_dicts (steps : list (list (string * Json))) :
  steps_loop rt (map JObj steps) = Ok (map route_step_of steps).
Proof.
  induction steps as [|fields steps IH]; [reflexivity|].
  cbn [map steps_loop]. rewrite IH. reflexivity.
Qed.

Lemma steps_loop_shape (items out : list Json) :
  steps_loop rt items = Ok out -> Forall is_route_step out.
Proof.
  revert out. induction items as [|step items IH]; intros out H.
  - injection H as <-. constructor.
  - cbn [steps_loop] in H. unfold route_step in H.
    destruct (py_get rt step "instructions" _) as [i|e]; [|discriminate].
    destruct (py_get rt step "readable_distance" _) as [d|e]; [|discriminate].
    destruct (py_get rt step "readable_duration" _) as [u|e]; [|discriminate].
    cbn [result_bind] in H.
    destruct (steps_loop rt items) as [others|e]; [|discriminate].
    injection H as <-. constructor; [now exists i, d, u | now apply IH].
Qed.

Lemma legs_loop_shape (legs out : list Json) :
  legs_loop rt legs = Ok out -> Forall is_route_step out.
Proof.
  revert out. induction legs as [|leg legs IH]; intros out H.
  - injection H as <-. constructor.
  - cbn [legs_loop] in H.
    destruct (py_get rt leg "steps" _) as [steps|e]; [|discriminate].
    cbn [result_bind] in H.
    destruct (py_iter rt steps) as [items|e]; [|discriminate].
    cbn [result_bind] in H.
    destruct (steps_loop rt items) as [first|e] eqn:Hfirst; [|discriminate].
    cbn [result_bind] in H.
    destruct (legs_loop rt legs) as [others|e]; [|discriminate].
    injection H as <-. apply Forall_app. split.
    + exact (steps_loop_shape items first Hfirst).
    + now apply IH.
Qed.

Lemma legs_loop_flatten (legs : list Json)
  (steps : list (list (list (string * Json)))) :
  Forall2 leg_with_steps legs steps ->
  legs_loop rt legs = Ok (flat_map (map route_step_of) steps).
Proof.
  intros Hsteps.
  induction Hsteps as [|leg s legs' steps' Hleg _ IH]; [reflexivity|].
  destruct Hleg as (fields & -> & Hfield).
  cbn [legs_loop py_get flat_map].
  destruct Hfield as [Hfield|[Hfield ->]]; rewrite Hfield;
    cbn [result_bind py_iter].
  - rewrite steps_loop_dicts. cbn [result_bind]. rewrite IH. reflexivity.
  - cbn [steps_loop result_bind map]. rewrite IH. reflexivity.
Qed.

(** X18. The route steps are the steps of the legs of the first route, leg after
    leg and in the order of each leg: one dict for each step, with its
    [instructions], its [readable_distance] and its [readable_duration], the
    empty string standing for a missing one.  A leg without [steps] gives
    none.  The other routes of the answer, the other keys and the status
    code play no part. *)
Theorem route_steps_flatten (status : Z) (top route : list (string * Json))
  (others legs : list Json) (steps : list (list (list (string * Json)))) :
  dict_get top "routes" = Some (JList (JObj route :: others)) ->
  dict_get route "legs" = Some (JList legs) ->
  Forall2 leg_with_steps legs steps ->
  route_steps_of rt (Ok {| status_code := status; json := Ok (JObj top) |})
  = Ok (flat_map (map route_step_of) steps)
  /\ List.length (flat_map (map route_step_of) steps)
     = list_sum (map (@List.length _) steps).
Proof.
  intros Hroutes Hlegs Hsteps. split.
  - unfold route_steps_of, answer_json.
    cbn [result_bind json py_item py_first py_get py_iter].
    rewrite Hroutes. cbn [result_bind py_first py_get]. rewrite Hlegs.
    cbn [result_bind py_iter]. exact (legs_loop_flatten legs steps Hsteps).
  - clear. induction steps as [|s steps IH]; [reflexivity|].
    cbn [flat_map map list_sum]. now rewrite length_app, length_map, IH.
Qed.

Ltac posts :=
  repeat (apply Forall2_cons;
          [cbn [fst];
           unfold geocode_request, route_request, route_safety_request,
             nearby_request, sos_request;
           match goal with H : forall url body path, _ |- _ => apply H end;
           reflexivity|]);
  apply Forall2_nil.

Ltac answers :=
  repeat (apply Forall2_cons; [reflexivity|]); apply Forall2_nil.

(** X19. The requests of [get_route]: at most four, always to the same paths in
    the same order (the start is geocoded, then the destination, then the
    route is asked for, then the safety tips), each a POST with the fixed
    headers.  The tool returns only after the fourth; an unset
    [BACKEND_URL] is not noticed, the urls then start with [None]. *)
Theorem get_route_requests (server : Server) (start destination : string)
  (tr : list (Request * PyResult Response)) (result : PyResult Json) :
  run_io server 0 (get_route rt start destination) = (tr, result) ->
  (1 <= List.length tr <= 4)%nat
  /\ Forall2 (fun entry path => is_backend_post rt (fst entry) path)
       tr (firstn (List.length tr) route_paths)
  /\ (forall i req answer, nth_error tr i = Some (req, answer) ->
                           answer = server i req)
  /\ (forall v, result = Ok v -> List.length tr = 4%nat)
  /\ (getenv_BACKEND_URL rt = None ->
      exists first rest,
        tr = first :: rest
        /\ req_url (fst first) = "None/api/maps/get-latitude-longitude").
Proof.
  intros Hrun. rewrite run_get_route in Hrun. cbv zeta in Hrun.
  assert (Hpost : forall url body path,
             url = backend_url rt ++ path ->
             is_backend_post rt (post rt url body) path).
  { intros url body path ->. unfold is_backend_post, post. cbn.
    repeat split. now exists body. }
  assert (Hnth : forall (l : list (Request * PyResult Response)),
             Forall2 (fun entry i => snd entry = server i (fst entry))
               l (seq 0 (List.length l)) ->
             forall i req answer, nth_error l i = Some (req, answer) ->
                                  answer = server i req).
  { intros l Hl i req answer Hi.
    assert (Hgen : forall k (l' : list (Request * PyResult Response)),
               Forall2 (fun entry i => snd entry = server i (fst entry))
                 l' (seq k (List.length l')) ->
               forall j, nth_error l' j = Some (req, answer) ->
                         answer = server (k + j)%nat req).
    { intros k l'. revert k. induction l' as [|x l' IH']; intros k H j Hj.
      - destruct j; discriminate.
      - cbn [List.length seq] in H.
        apply Forall2_cons_iff in H. destruct H as [Hx Hrest].
        destruct j as [|j]; cbn [nth_error] in Hj.
        + injection Hj as ->. cbn [fst snd] in Hx. now rewrite Nat.add_0_r.
        + rewrite <- plus_n_Sm. exact (IH' (S k) Hrest j Hj). }
    exact (Hgen 0%nat l Hl i Hi). }
  assert (Hnone : getenv_BACKEND_URL rt = None ->
                  req_url (geocode_request rt start)
                  = "None/api/maps/get-latitude-longitude").
  { intros H. unfold geocode_request, post, geocode_url, backend_url.
    now rewrite H. }
  destruct (geocode_result rt _) as [c1|e].
  2: { injection Hrun as <- <-. cbn [List.length firstn route_paths].
       split; [lia|]. split; [posts|].
       split; [apply Hnth; answers|].
       split; [discriminate|]. intros H. do 2 eexists.
       split; [reflexivity | exact (Hnone H)]. }
  destruct (geocode_result rt _) as [c2|e].
  2: { injection Hrun as <- <-. cbn [List.length firstn route_paths].
       split; [lia|]. split; [posts|].
       split; [apply Hnth; answers|].
       split; [discriminate|]. intros H. do 2 eexists.
       split; [reflexivity | exact (Hnone H)]. }
  destruct (route_steps_of rt _) as [steps|e].
  2: { injection Hrun as <- <-. cbn [List.length firstn route_paths].
       split; [lia|]. split; [posts|].
       split; [apply Hnth; answers|].
       split; [discriminate|]. intros H. do 2 eexists.
       split; [reflexivity | exact (Hnone H)]. }
  injection Hrun as <- <-. cbn [List.length firstn route_paths].
  split; [lia|]. split; [posts|].
  split; [apply Hnth; answers|].
  split; [reflexivity|]. intros H. do 2 eexists.
  split; [reflexivity | exact (Hnone H)].
Qed.

(** X20. What [get_route] returns: a dict of [route_steps] and [safety_tips].
    The route steps returned are the ones that were sent for the safety
    tips, in the body of the fourth request, and each is a dict of
    [instructions], [distance] and [duration]; the tips are the
    [safety_tips] of the last answer, or the empty string. *)
Theorem get_route_returns (server : Server) (start destination : string)
  (tr : list (Request * PyResult Response)) (v : Json) :
  run_io server 0 (get_route rt start destination) = (tr, Ok v) ->
  exists route_steps reply answer,
    v = JObj [ ("route_steps", JList route_steps);
               ("safety_tips", field_or_empty reply "safety_tips") ]
    /\ Forall is_route_step route_steps
    /\ nth_error tr 3 = Some (route_safety_request rt route_steps, answer)
    /\ req_data (route_safety_request rt route_steps)
       = Some (json_dumps rt (JObj [ ("route_steps", JList route_steps) ]))
    /\ answer_json answer = Ok (JObj reply).
Proof.
  intros Hrun. rewrite run_get_route in Hrun. cbv zeta in Hrun.
  destruct (geocode_result rt _) as [c1|e]; [|discriminate].
  destruct (geocode_result rt _) as [c2|e]; [|discriminate].
  destruct (route_steps_of rt _) as [steps|e] eqn:Hsteps; [|discriminate].
  injection Hrun as <- Hres.
  destruct (answer_json _) as [response_json|e] eqn:Hjson; [|discriminate].
  cbn [result_bind wrapped] in Hres.
  destruct response_json as [| | | | |reply]; try discriminate.
  cbn [py_get result_bind wrapped] in Hres. injection Hres as <-.
  exists steps, reply. eexists.
  split; [reflexivity|]. split.
  - unfold route_steps_of in Hsteps.
    destruct (answer_json _) as [j|e]; [|discriminate].
    cbn [result_bind] in Hsteps.
    destruct (py_item rt j "routes") as [routes|e]; [|discriminate].
    cbn [result_bind] in Hsteps.
    destruct (py_first rt routes) as [route0|e]; [|discriminate].
    cbn [result_bind] in Hsteps.
    destruct (py_get rt route0 "legs" _) as [legs|e]; [|discriminate].
    cbn [result_bind] in Hsteps.
    destruct (py_iter rt legs) as [items|e]; [|discriminate].
    exact (legs_loop_shape items steps Hsteps).
  - split; [reflexivity|]. split; [reflexivity | exact Hjson].
Qed.

(** X21. Without a route there are no safety tips: when the answer of the route
    service has no [routes] key, or an empty list of routes, [get_route]
    raises after its third request, with the text of the [KeyError] or of
    the [IndexError] after its prefix. *)
Theorem get_route_no_route (server : Server) (start destination : string)
  (c1 c2 : Json * Json) (status : Z) (top : list (string * Json)) :
  geocode_result rt (server 0%nat (geocode_request rt start)) = Ok c1 ->
  geocode_result rt (server 1%nat (geocode_request rt destination)) = Ok c2 ->
  server 2%nat (route_request rt start destination c1 c2)
  = Ok {| status_code := status; json := Ok (JObj top) |} ->
  (dict_get top "routes" = None ->
   List.length (fst (run_io server 0 (get_route rt start destination))) = 3%nat
   /\ snd (run_io server 0 (get_route rt start destination))
      = Raise (ValueError "Error getting route: 'routes'"))
  /\ (dict_get top "routes" = Some (JList []) ->
      List.length (fst (run_io server 0 (get_route rt start destination))) = 3%nat
      /\ snd (run_io server 0 (get_route rt start destination))
         = Raise (ValueError "Error getting route: list index out of range")).
Proof.
  intros H1 H2 H3. rewrite run_get_route. cbv zeta. rewrite H1, H2, H3.
  unfold route_steps_of, answer_json. cbn [result_bind json py_item].
  split; intros ->; cbn; now split.
Qed.

(** ** The current location *)

(** X22. [get_current_location] sends one request.  When it returns, the answer
    had the status 200 and was a dict whose [loc] is a text with exactly one
    comma: the latitude and the longitude returned are what stands before
    and after that comma, so that joined by a comma they give [loc] back, and
    neither holds a comma.  The other keys are copied, the empty string
    standing for a missing one, and the address is the city, the region and
    the country joined by a comma and a space. *)
Theorem get_current_location_returns (server : Server)
  (tr : list (Request * PyResult Response)) (v : Json) :
  run_io server 0 (get_current_location rt) = (tr, Ok v) ->
  exists response fields lat lon,
    tr = [(ipinfo_request, Ok response)]
    /\ server 0%nat ipinfo_request = Ok response
    /\ status_code response = 200%Z
    /\ json response = Ok (JObj fields)
    /\ dict_get fields "loc" = Some (JStr (lat ++ "," ++ lon))
    /\ str_in "," lat = false
    /\ str_in "," lon = false
    /\ v = JObj [ ("ip", field_or_empty fields "ip");
                  ("city", field_or_empty fields "city");
                  ("region", field_or_empty fields "region");
                  ("country", field_or_empty fields "country");
                  ("postal", field_or_empty fields "postal");
                  ("latitude", JStr lat);
                  ("longitude", JStr lon);
                  ("address",
                   JStr (format_value rt (field_or_empty fields "city") ++ ", "
                         ++ format_value rt (field_or_empty fields "region")
                         ++ ", "
                         ++ format_value rt (field_or_empty fields "country"))) ].
Proof.
  unfold get_current_location. fold ipinfo_request.
  rewrite run_io_try_except, run_io_bind. unfold request.
  cbn [run_io]. intros Hrun.
  destruct (server 0%nat ipinfo_request) as [response|e] eqn:Hanswer;
    cbn [io_lift run_io fst snd wrapped] in Hrun; [|discriminate].
  destruct (status_code response =? 200)%Z eqn:Hstatus;
    cbn [negb run_io List.length Nat.add] in Hrun; [|discriminate].
  rewrite run_io_bind, run_io_lift in Hrun.
  destruct (json response) as [ip_data|e] eqn:Hjson; [|discriminate].
  cbn [List.length Nat.add] in Hrun. rewrite run_io_bind, run_io_lift in Hrun.
  destruct (py_in rt "loc" ip_data) as [has_loc|e] eqn:Hin; [|discriminate].
  cbn [List.length Nat.add] in Hrun.
  destruct has_loc; [|discriminate].
  rewrite run_io_bind, run_io_lift in Hrun.
  destruct (py_item rt ip_data "loc") as [loc|e] eqn:Hloc; [|discriminate].
  cbn [List.length Nat.add] in Hrun. rewrite run_io_bind, run_io_lift in Hrun.
  destruct (py_split_comma rt loc) as [parts|e] eqn:Hsplit; [|discriminate].
  cbn [List.length Nat.add] in Hrun.
  destruct ip_data as [| | | | |fields]; try discriminate Hloc.
  cbn [py_item] in Hloc.
  destruct (dict_get fields "loc") as [x|] eqn:Hfield; [|discriminate].
  injection Hloc as ->.
  destruct loc as [| | |s| |]; try discriminate Hsplit.
  injection Hsplit as <-.
  pose proof (split_char_join "," s) as Hjoin.
  pose proof (split_char_parts "," s) as Hparts.
  destruct (split_char "," s) as [|lat [|lon [|third parts]]];
    try discriminate Hrun.
  cbn [py_get io_lift io_bind run_io app fst snd wrapped] in Hrun.
  injection Hrun as <- <-.
  apply Forall_cons_iff in Hparts. destruct Hparts as [Hlat Hparts].
  apply Forall_cons_iff in Hparts. destruct Hparts as [Hlon _].
  exists response, fields, lat, lon.
  split; [reflexivity|]. split; [first [exact Hanswer | reflexivity]|].
  split; [now apply Z.eqb_eq|]. split; [exact Hjson|].
  split; [cbn [String.concat] in Hjoin; now rewrite Hjoin|].
  split; [exact Hlat|]. split; [exact Hlon | reflexivity].
Qed.

(** X23. How [get_current_location] fails, each time after its one request and
    with a [ValueError] that starts with its prefix: on the exception of the
    request; on a status other than 200, which is then quoted, whatever the
    body holds; on a dict without [loc]; and on a [loc] that does not split
    at commas into two parts. *)
Theorem get_current_location_fails (server : Server) :
  fst (run_io server 0 (get_current_location rt))
  = [(ipinfo_request, server 0%nat ipinfo_request)]
  /\ (forall e,
        server 0%nat ipinfo_request = Raise e ->
        snd (run_io server 0 (get_current_location rt))
        = Raise (ValueError ("Error getting current location: " ++ exc_str e)))
  /\ (forall response,
        server 0%nat ipinfo_request = Ok response ->
        status_code response <> 200%Z ->
        snd (run_io server 0 (get_current_location rt))
        = Raise (ValueError
                   ("Error getting current location: Failed to get location data: "
                    ++ Z_to_string (status_code response))))
  /\ (forall response fields,
        server 0%nat ipinfo_request = Ok response ->
        status_code response = 200%Z ->
        json response = Ok (JObj fields) ->
        dict_get fields "loc" = None ->
        snd (run_io server 0 (get_current_location rt))
        = Raise (ValueError
                   "Error getting current location: Location coordinates not found in the response"))
  /\ (forall response fields loc,
        server 0%nat ipinfo_request = Ok response ->
        status_code response = 200%Z ->
        json response = Ok (JObj fields) ->
        dict_get fields "loc" = Some (JStr loc) ->
        List.length (split_char "," loc) <> 2%nat ->
        snd (run_io server 0 (get_current_location rt))
        = Raise (ValueError
                   ("Error getting current location: "
                    ++ unpack_message rt (List.length (split_char "," loc))))).
Proof.
  unfold get_current_location. fold ipinfo_request.
  rewrite run_io_try_except, run_io_bind. unfold request. cbn [run_io].
  split.
  { destruct (server 0%nat ipinfo_request) as [response|e];
      cbn [io_lift run_io fst snd]; [|reflexivity].
    destruct (negb (status_code response =? 200)%Z); cbn [run_io fst app];
      [reflexivity|].
    rewrite run_io_bind, run_io_lift.
    destruct (json response) as [ip_data|e]; [|reflexivity].
    rewrite run_io_bind, run_io_lift.
    destruct (py_in rt "loc" ip_data) as [[|]|e]; try reflexivity.
    rewrite run_io_bind, run_io_lift.
    destruct (py_item rt ip_data "loc") as [loc|e]; [|reflexivity].
    rewrite run_io_bind, run_io_lift.
    destruct (py_split_comma rt loc) as [parts|e]; [|reflexivity].
    destruct parts as [|lat [|lon [|third parts]]]; try reflexivity.
    cbn [List.length Nat.add].
    repeat (rewrite run_io_bind, run_io_lift;
            match goal with
            | |- context [py_get rt ip_data ?k ?d] =>
                destruct (py_get rt ip_data k d); [|reflexivity]
            end).
    reflexivity. }
  split; [intros e ->; reflexivity|].
  split.
  { intros response -> Hstatus. cbn [io_lift run_io fst snd].
    apply Z.eqb_neq in Hstatus. rewrite Hstatus. reflexivity. }
  split.
  { intros response fields -> Hstatus Hjson Hloc. cbn [io_lift run_io fst snd].
    apply Z.eqb_eq in Hstatus. rewrite Hstatus. cbn [negb List.length Nat.add].
    rewrite run_io_bind, run_io_lift, Hjson. cbn [List.length Nat.add py_in].
    rewrite Hloc. reflexivity. }
  intros response fields loc -> Hstatus Hjson Hloc Hlen.
  cbn [io_lift run_io fst snd].
  apply Z.eqb_eq in Hstatus. rewrite Hstatus. cbn [negb List.length Nat.add].
  rewrite run_io_bind, run_io_lift, Hjson. cbn [List.length Nat.add py_in].
  rewrite Hloc. cbn [io_lift io_bind py_item]. rewrite Hloc.
  cbn [io_lift io_bind py_split_comma].
  destruct (split_char "," loc) as [|lat [|lon [|third parts]]];
    try reflexivity.
  now destruct Hlen.
Qed.

End ToolRuns.

(** ** The registry of agents *)

Section RegistryFacts.

Variable CompiledStateGraph : Type.
Variable research_assistant : CompiledStateGraph.

(** X24. The registry answers for the ids it lists and for no other: [get_agent]
    returns the graph for the default agent, which is the one id that
    [get_all_agent_info] lists, and raises [KeyError] with the id for every
    other id; there is no falling back to the default. *)
Theorem get_agent_registry (agent_id : string) :
  (agent_id = DEFAULT_AGENT ->
   get_agent CompiledStateGraph research_assistant agent_id = Ok research_assistant)
  /\ (agent_id <> DEFAULT_AGENT ->
      get_agent CompiledStateGraph research_assistant agent_id
      = Raise (KeyError agent_id))
  /\ ((exists g, get_agent CompiledStateGraph research_assistant agent_id = Ok g)
      <-> In agent_id
            (map (info_key)
               (get_all_agent_info CompiledStateGraph research_assistant))).
Proof.
  unfold get_agent, agents, get_all_agent_info, DEFAULT_AGENT.
  cbn [dict_get map fst snd info_key].
  destruct (String.eqb_spec "travel-chatbot-assistant" agent_id) as [<-|Hne].
  - split; [reflexivity|]. split; [now intros H|].
    split; [intros _; now left | intros _; now eexists].
  - split; [intros ->; now destruct Hne|]. split; [reflexivity|].
    split; [intros [g H]; discriminate | intros [H|[]]; now destruct Hne].
Qed.

End RegistryFacts.

(** * The further properties on concrete cases *)

Lemma asked_reachable :
  reachable date default_model config (supervisor_node, asked).
Proof.
  apply reachable_step with (c := (END, greeted)).
  - apply greeted_reachable.
  - exact (step_input date default_model config greeted "I need help" (Some 25%Z)).
Qed.

Lemma flagged_reachable :
  reachable date default_model config (END, Cases.flagged).
Proof.
  apply reachable_step with (c := (supervisor_node, asked)).
  - apply asked_reachable.
  - apply (step_supervisor date default_model config env_tool_unsafe
             asked (set_current_agent asked "emergency")
             (messages_update [format_safety_message verdict_unsafe]
                (Some verdict_unsafe))
             asked Cases.flagged
             (fst (run env_tool_unsafe (supervisor date default_model asked config)))
             (Some 24%Z) "done" END); try reflexivity.
    now left.
Qed.

Lemma later_turn_asked : later_turn asked.
Proof.
  split; [|reflexivity]. eexists. split; [reflexivity | discriminate].
Defined.

Lemma supervisor_passes_response_witness :
  exists local update ms,
    snd (run env_tool_safe (supervisor date default_model asked config))
    = Ok (local, update)
    /\ messages asked = Some ms
    /\ messages update = Some [AIMessage tool_response]
    /\ route_next tool_pending = Ok "tools".
Proof.
  destruct (supervisor_passes_response date default_model env_tool_safe
              asked config
              (fst (run env_tool_safe (supervisor date default_model asked config)))
              (snd (run env_tool_safe (supervisor date default_model asked config)))
              25%Z default_model tools
              (SystemMessage (instructions_for date "emergency")
                 :: [HumanMessage "hi"; AIMessage_of_content greeting;
                     HumanMessage "I need help"])
              tool_response "Agent"
              [HumanMessage "hi"; AIMessage_of_content greeting;
               HumanMessage "I need help"; AIMessage tool_response]
              verdict_safe)
    as (local & update & ms & Hres & Hms & Hupd & _ & Hroute).
  - apply later_turn_asked.
  - reflexivity.
  - reflexivity.
  - vm_compute. tauto.
  - vm_compute. tauto.
  - discriminate.
  - left. lia.
  - exists local, update, ms.
    split; [exact Hres|]. split; [exact Hms|]. split; [exact Hupd|].
    eapply Hroute; reflexivity.
Defined.

Lemma supervisor_raises_witness :
  later_turn asked
  /\ exists model bound input,
      fst (run Cases.env_model_down (supervisor date default_model asked config))
      = [CallModel model bound input (Raise (OtherError "connection refused"))].
Proof.
  destruct (supervisor_raises date default_model Cases.env_model_down
              asked config
              (fst (run Cases.env_model_down
                      (supervisor date default_model asked config)))
              (OtherError "connection refused") eq_refl)
    as [Hlater [H|[H|H]]].
  - discriminate.
  - now split.
  - destruct H as (model & bound & input & response & role & msgs & H).
    discriminate H.
  - destruct H as (model & bound & input & response & role & msgs & out & H & _).
    discriminate H.
Defined.

Lemma supervisor_calls_witness :
  (List.length
     (fst (run env_tool_safe (supervisor date default_model asked config)))
   <= 2)%nat.
Proof.
  exact (proj1 (supervisor_calls date default_model env_tool_safe asked config
                  (fst (run env_tool_safe
                          (supervisor date default_model asked config)))
                  (snd (run env_tool_safe
                          (supervisor date default_model asked config)))
                  eq_refl)).
Defined.

Lemma instructions_for_personas_witness :
  instructions_for date "emergency" <> instructions_for date "companion".
Proof.
  intros H.
  assert (Heq : "emergency" = "companion").
  { apply (proj1 (proj2 (instructions_for_personas date))); simpl; tauto. }
  discriminate Heq.
Defined.

Lemma supervisor_never_uses_tool_personas_witness :
  exists agent,
    In agent [ "emergency"; "location"; "companion" ]
    /\ instructions_for date agent <> nearby_places_agent_instructions date
    /\ instructions_for date agent <> get_route_agent_instructions date.
Proof.
  destruct (supervisor_never_uses_tool_personas date default_model
              env_tool_safe asked config
              (fst (run env_tool_safe (supervisor date default_model asked config)))
              (snd (run env_tool_safe (supervisor date default_model asked config)))
              default_model tools
              (SystemMessage (instructions_for date "emergency")
                 :: [HumanMessage "hi"; AIMessage_of_content greeting;
                     HumanMessage "I need help"])
              (Ok tool_response))
    as (agent & ms & Hin & _ & Hn & Hr & _).
  - reflexivity.
  - vm_compute. tauto.
  - exists agent. auto.
Defined.

Lemma supervisor_message_target_witness :
  exists m,
    messages (messages_update [AIMessage tool_response] None) = Some [AIMessage m]
    /\ route_next tool_pending = Ok "tools"
    /\ exists k, remaining_steps asked = Some k /\ (2 <= k)%Z.
Proof.
  destruct (supervisor_message_target date default_model config env_tool_safe
              asked (set_current_agent asked "emergency")
              (messages_update [AIMessage tool_response] None)
              (fst (run env_tool_safe (supervisor date default_model asked config)))
              eq_refl)
    as (m & Hupd & Hroute & _ & _ & Htools).
  exists m. split; [exact Hupd|].
  injection Hupd as <-.
  split.
  - exact (proj1 (Hroute tool_pending _ eq_refl eq_refl)).
  - now destruct (Htools ltac:(discriminate)) as (_ & Hk & _).
Defined.

Lemma safety_key_kept_witness : safety_is_unsafe Cases.flagged.
Proof.
  exact (proj1 (safety_key_kept date default_model config)
           (END, Cases.flagged) flagged_reachable).
Defined.

Lemma format_safety_message_labels_witness :
  exists rest,
    content (format_safety_message verdict_unsafe)
    = "This conversation was flagged for unsafe content: " ++ rest
    /\ Substring "S9" rest.
Proof.
  apply (proj1 (format_safety_message_labels verdict_unsafe)).
  simpl. tauto.
Defined.

Lemma determine_agent_outcomes_witness :
  determine_agent_on lower None = Raise (KeyError "messages")
  /\ determine_agent_on lower (Some []) = Raise (IndexError "list index out of range")
  /\ determine_agent_on lower
       (Some [TextContent "hi";
              BlockContent [JObj [ ("type", JStr "text"); ("text", JStr "help") ]]])
     = Raise (OtherError "'list' object has no attribute 'lower'")
  /\ determine_agent_on lower (Some [TextContent "Is this AREA safe?"])
     = determine_agent_on (fun text => text) (Some [TextContent "is this area safe?"]).
Proof.
  destruct (determine_agent_outcomes lower) as (Hkey & Hindex & Hblocks & _ & Hsame).
  split; [exact Hkey|]. split; [exact Hindex|]. split.
  - apply (Hblocks _ [JObj [ ("type", JStr "text"); ("text", JStr "help") ]]).
    reflexivity.
  - apply (Hsame (fun text => text) _ _ "Is this AREA safe?" "is this area safe?");
      reflexivity.
Defined.

Lemma calculator_func_ignores_padding_witness :
  calculator_func Z str_of unit tt tt evaluate ("  " ++ "2 + 2" ++ newline)
  = Ok "4".
Proof.
  apply (proj1 (calculator_func_ignores_padding Z str_of unit tt tt evaluate
                  "  " "2 + 2" newline eq_refl eq_refl)).
  reflexivity.
Defined.

Lemma calculator_func_unwraps_array_witness :
  calculator_func unit Cases.str_of_array unit tt tt Cases.evaluate_array
    "arange(3) + 1"
  = Ok "1 2 3".
Proof.
  apply (calculator_func_unwraps_array unit Cases.str_of_array unit tt tt
           Cases.evaluate_array "arange(3) + 1" tt "1 2 3"); reflexivity.
Defined.

Lemma tools_raise_value_error_witness :
  snd (run_io Cases.server_down 0
         (send_sos_alert_body Cases.rt "Marina Beach" default_sos_message))
  = Raise (OtherError "connection refused")
  /\ snd (run_io Cases.server_down 0
            (send_sos_alert Cases.rt "Marina Beach" default_sos_message))
     = Raise (ValueError "Error sending SOS alert: connection refused").
Proof.
  split; [reflexivity|].
  destruct (proj2 (proj2 (tools_raise_value_error Cases.rt Cases.server_down))
              "Marina Beach" default_sos_message)
    as (_ & _ & Hraise & _).
  exact (Hraise (OtherError "connection refused") eq_refl).
Defined.

Lemma get_nearby_safe_places_runs_witness :
  snd (run_io Cases.server_errors 0
         (get_nearby_safe_places Cases.rt "Marina Beach"))
  = Raise (KeyError "predictions").
Proof.
  destruct (get_nearby_safe_places_runs Cases.rt Cases.server_errors
              "Marina Beach"
              (fst (run_io Cases.server_errors 0
                      (get_nearby_safe_places Cases.rt "Marina Beach")))
              (snd (run_io Cases.server_errors 0
                      (get_nearby_safe_places Cases.rt "Marina Beach")))
              eq_refl)
    as [_ Hok].
  destruct (Hok (JStr EmptyString, JStr EmptyString) eq_refl) as (_ & _ & Hdict).
  exact (Hdict 500%Z [] eq_refl).
Defined.

Lemma send_sos_alert_needs_geocode_witness :
  snd (run_io Cases.server_down 0
         (send_sos_alert Cases.rt "Marina Beach" default_sos_message))
  = Raise (ValueError "Error sending SOS alert: connection refused").
Proof.
  rewrite (send_sos_alert_needs_geocode Cases.rt Cases.server_down
             "Marina Beach" default_sos_message
             (OtherError "connection refused") eq_refl).
  reflexivity.
Defined.

Lemma send_sos_alert_sent_witness :
  snd (run_io Cases.server_errors 0
         (send_sos_alert Cases.rt "Marina Beach" default_sos_message))
  = Ok (JStr EmptyString).
Proof.
  destruct (send_sos_alert_sent Cases.rt Cases.server_errors "Marina Beach"
              default_sos_message 404%Z 500%Z [] [] eq_refl eq_refl)
    as [Hrun _].
  rewrite Hrun. reflexivity.
Defined.

Lemma route_steps_flatten_witness :
  route_steps_of Cases.rt (Cases.ok 200 Cases.one_route)
  = Ok [ JObj [ ("instructions", JStr "Head north");
                ("distance", JStr "1 km");
                ("duration", JStr EmptyString) ];
         JObj [ ("instructions", JStr "Turn left");
                ("distance", JStr EmptyString);
                ("duration", JStr "2 mins") ] ].
Proof.
  apply (route_steps_flatten Cases.rt 200%Z
           [ ("routes",
              JList [ JObj [ ("legs",
                              JList [ JObj [ ("steps",
                                              JList [ JObj [ ("instructions", JStr "Head north");
                                                             ("readable_distance", JStr "1 km") ];
                                                      JObj [ ("instructions", JStr "Turn left");
                                                             ("readable_duration", JStr "2 mins") ] ]) ];
                                      JObj [ ("summary", JStr "no steps here") ] ]) ];
                      JObj [ ("legs", JList []) ] ]) ]
           [ ("legs",
              JList [ JObj [ ("steps",
                              JList [ JObj [ ("instructions", JStr "Head north");
                                             ("readable_distance", JStr "1 km") ];
                                      JObj [ ("instructions", JStr "Turn left");
                                             ("readable_duration", JStr "2 mins") ] ]) ];
                      JObj [ ("summary", JStr "no steps here") ] ]) ]
           [ JObj [ ("legs", JList []) ] ]
           [ JObj [ ("steps",
                     JList [ JObj [ ("instructions", JStr "Head north");
                                    ("readable_distance", JStr "1 km") ];
                             JObj [ ("instructions", JStr "Turn left");
                                    ("readable_duration", JStr "2 mins") ] ]) ];
             JObj [ ("summary", JStr "no steps here") ] ]
           [ [ [ ("instructions", JStr "Head north");
                 ("readable_distance", JStr "1 km") ];
               [ ("instructions", JStr "Turn left");
                 ("readable_duration", JStr "2 mins") ] ];
             [] ]).
  - reflexivity.
  - reflexivity.
  - constructor; [|constructor; [|constructor]].
    + eexists. split; [reflexivity|]. left. reflexivity.
    + eexists. split; [reflexivity|]. right. split; reflexivity.
Defined.

Lemma get_route_requests_witness :
  List.length
    (fst (run_io Cases.server_route 0 (get_route Cases.rt "Adyar" "Mylapore")))
  = 4%nat.
Proof.
  destruct (get_route_requests Cases.rt Cases.server_route "Adyar" "Mylapore"
              (fst (run_io Cases.server_route 0
                      (get_route Cases.rt "Adyar" "Mylapore")))
              (snd (run_io Cases.server_route 0
                      (get_route Cases.rt "Adyar" "Mylapore")))
              eq_refl)
    as (_ & _ & _ & Hfour & _).
  eapply Hfour. reflexivity.
Defined.

Lemma get_route_returns_witness :
  exists route_steps reply,
    snd (run_io Cases.server_route 0 (get_route Cases.rt "Adyar" "Mylapore"))
    = Ok (JObj [ ("route_steps", JList route_steps);
                 ("safety_tips", field_or_empty reply "safety_tips") ])
    /\ Forall is_route_step route_steps.
Proof.
  destruct (get_route_returns Cases.rt Cases.server_route "Adyar" "Mylapore"
              (fst (run_io Cases.server_route 0
                      (get_route Cases.rt "Adyar" "Mylapore")))
              (JObj [ ("route_steps",
                       JList [ JObj [ ("instructions", JStr "Head north");
                                      ("distance", JStr "1 km");
                                      ("duration", JStr EmptyString) ];
                               JObj [ ("instructions", JStr "Turn left");
                                      ("distance", JStr EmptyString);
                                      ("duration", JStr "2 mins") ] ]);
                      ("safety_tips", JStr "Stay on lit streets") ])
              eq_refl)
    as (route_steps & reply & answer & Hv & Hshape & _).
  exists route_steps, reply. split; [|exact Hshape].
  rewrite <- Hv. reflexivity.
Defined.

Lemma get_route_no_route_witness :
  snd (run_io Cases.server_no_route 0 (get_route Cases.rt "Adyar" "Mylapore"))
  = Raise (ValueError "Error getting route: list index out of range").
Proof.
  destruct (get_route_no_route Cases.rt Cases.server_no_route "Adyar" "Mylapore"
              (JNum "13.08", JNum "80.27") (JNum "13.08", JNum "80.27")
              200%Z [ ("routes", JList []) ] eq_refl eq_refl eq_refl)
    as [_ Hempty].
  exact (proj2 (Hempty eq_refl)).
Defined.

Lemma get_current_location_returns_witness :
  exists fields lat lon,
    dict_get fields "loc" = Some (JStr (lat ++ "," ++ lon))
    /\ str_in "," lat = false
    /\ str_in "," lon = false.
Proof.
  destruct (get_current_location_returns Cases.rt Cases.server_ipinfo
              (fst (run_io Cases.server_ipinfo 0 (get_current_location Cases.rt)))
              (JObj [ ("ip", JStr "203.0.113.7"); ("city", JStr "Chennai");
                      ("region", JStr "Tamil Nadu"); ("country", JStr "IN");
                      ("postal", JStr EmptyString);
                      ("latitude", JStr "13.08"); ("longitude", JStr "80.27");
                      ("address", JStr "Chennai, Tamil Nadu, IN") ])
              eq_refl)
    as (response & fields & lat & lon & _ & _ & _ & _ & Hloc & Hlat & Hlon & _).
  exists fields, lat, lon. auto.
Defined.

Lemma get_current_location_fails_witness :
  snd (run_io Cases.server_errors 0 (get_current_location Cases.rt))
  = Raise (ValueError
             "Error getting current location: Failed to get location data: 404").
Proof.
  destruct (get_current_location_fails Cases.rt Cases.server_errors)
    as (_ & _ & Hstatus & _).
  rewrite (Hstatus {| status_code := 404; json := Ok (JObj []) |} eq_refl).
  - reflexivity.
  - discriminate.
Defined.

Lemma get_agent_registry_witness :
  get_agent unit tt "chatbot" = Raise (KeyError "chatbot").
Proof.
  apply (proj1 (proj2 (get_agent_registry unit tt "chatbot"))).
  discriminate.
Defined.
